(** * GeoClaw 4.x: raster topography codec and AMR frame codec

    A shallow embedding of [python/dclaw/topotools.py] and
    [python/pyclaw/io/ascii.py], and the properties of the two codecs.

    Conventions of the embedding.
    - A Python call either returns or raises: [result A].  A [while] loop
      takes fuel; [None] means that the loop is still running when the fuel
      is spent.
    - Text is [string]; an open file that is being read is the text that has
      not been read yet; the file system maps paths to file contents.
    - A Python [float] is an exact rational or one of the IEEE special
      values ([pyfloat]); the rounding of binary64 arithmetic is not
      modelled, the rounding of decimal formatting is.
    - A Python dictionary with string keys is a [gmap string _]. *)

From Stdlib Require Import ZArith QArith Qround Qabs Qpower String Ascii List
  Lia Lqa.
From stdpp Require Import base gmap strings list.

Import ListNotations.
Local Open Scope string_scope.
Local Open Scope Z_scope.

(** ** Python results and exceptions *)

Module Py.

Inductive exn : Type :=
| NameError (name : string)
| AttributeError (cls attr : string)
| IndexError
| KeyError
| TypeError
| ValueError
| ZeroDivisionError
| OverflowError
| NotImplementedError (msg : string)
| IOError
| Exception (msg : string).

Inductive result (A : Type) : Type :=
| Ret (a : A)
| Raise (e : exn).

Arguments Ret {A} a.
Arguments Raise {A} e.

Definition bind {A B} (m : result A) (k : A -> result B) : result B :=
  match m with
  | Ret a => k a
  | Raise e => Raise e
  end.

(** A computation with [while] loops: [None] when the fuel does not suffice. *)
Definition partial (A : Type) : Type := option (result A).

Definition pbind {A B} (m : partial A) (k : A -> partial B) : partial B :=
  match m with
  | Some (Ret a) => k a
  | Some (Raise e) => Some (Raise e)
  | None => None
  end.

Definition lift {A} (m : result A) : partial A := Some m.

(** A computation that also changes a state [St] (the file system).  The
    state that comes with an exception or with [None] is the state reached
    when the exception was raised or the fuel ran out. *)
Definition io (St A : Type) : Type := St -> St * partial A.

Definition io_bind {St A B} (m : io St A) (k : A -> io St B) : io St B :=
  fun s =>
    match m s with
    | (s', Some (Ret a)) => k a s'
    | (s', Some (Raise e)) => (s', Some (Raise e))
    | (s', None) => (s', None)
    end.

Definition io_pure {St A} (m : partial A) : io St A := fun s => (s, m).

(** [while cond: body] on a state [S]. *)
Fixpoint while {S} (fuel : nat) (cond : S -> bool) (body : S -> result S)
    (s : S) : partial S :=
  if cond s then
    match fuel with
    | O => None
    | Datatypes.S fuel' =>
        match body s with
        | Ret s' => while fuel' cond body s'
        | Raise e => Some (Raise e)
        end
    end
  else Some (Ret s).

(** [for x in xs: body], threading a state. *)
Fixpoint for_each {A S} (xs : list A) (body : A -> S -> result S) (s : S)
    : result S :=
  match xs with
  | [] => Ret s
  | x :: xs' => bind (body x s) (for_each xs' body)
  end.

(** [xs[i]] on a Python list, for [i >= 0]. *)
Definition index {A} (xs : list A) (i : nat) : result A :=
  match nth_error xs i with
  | Some x => Ret x
  | None => Raise IndexError
  end.

(** [xs[-1]]. *)
Definition index_last {A} (xs : list A) : result A :=
  match xs with
  | [] => Raise IndexError
  | x :: xs' => Ret (List.last xs' x)
  end.

End Py.

Export Py.

Declare Scope py_scope.
Delimit Scope py_scope with py.
Notation "x <- m ;; k" := (Py.bind m (fun x => k))
  (at level 100, m at next level, right associativity) : py_scope.
Notation "x <~ m ;; k" := (Py.pbind m (fun x => k))
  (at level 100, m at next level, right associativity) : py_scope.
Notation "x <<- m ;; k" := (Py.io_bind m (fun x => k))
  (at level 100, m at next level, right associativity) : py_scope.
Local Open Scope py_scope.

(** ** Python strings *)

Module Str.

Definition newline : ascii := ascii_of_nat 10.

(** [str.isspace] on ASCII: tab, LF, VT, FF, CR, FS, GS, RS, US and space. *)
Definition isspace (c : ascii) : bool :=
  let n := nat_of_ascii c in
  ((9 <=? n) && (n <=? 13) || (28 <=? n) && (n <=? 32))%nat.

Definition lower_ascii (c : ascii) : ascii :=
  let n := nat_of_ascii c in
  if ((65 <=? n) && (n <=? 90))%nat then ascii_of_nat (n + 32) else c.

(** [s.lower()]. *)
Fixpoint lower (s : string) : string :=
  match s with
  | EmptyString => EmptyString
  | String c s' => String (lower_ascii c) (lower s')
  end.

(** [s.split()]: the maximal runs of characters that are not white space. *)
Fixpoint split (s : string) : list string :=
  match s with
  | EmptyString => []
  | String c s' =>
      if isspace c then split s'
      else
        match s' with
        | EmptyString => [String c EmptyString]
        | String c' _ =>
            if isspace c' then String c EmptyString :: split s'
            else
              match split s' with
              | w :: ws => String c w :: ws
              | [] => [String c EmptyString]
              end
        end
  end.

(** [f.readline()]: the next line with its newline, and what remains;
    the empty string at the end of the file. *)
Fixpoint readline (s : string) : string * string :=
  match s with
  | EmptyString => (EmptyString, EmptyString)
  | String c s' =>
      if Ascii.eqb c newline then (String c EmptyString, s')
      else let (l, r) := readline s' in (String c l, r)
  end.

(** [f.readlines()]: the remaining lines.  The fuel is the length of the
    text, which bounds the number of lines. *)
Fixpoint readlines_fuel (fuel : nat) (s : string) : list string :=
  match fuel with
  | O => []
  | S fuel' =>
      match s with
      | EmptyString => []
      | _ => let (l, r) := readline s in l :: readlines_fuel fuel' r
      end
  end.

Definition readlines (s : string) : list string :=
  readlines_fuel (String.length s) s.

Fixpoint prefixb (p s : string) : bool :=
  match p, s with
  | EmptyString, _ => true
  | String a p', String b s' => Ascii.eqb a b && prefixb p' s'
  | String _ _, EmptyString => false
  end.

(** [sub in s]. *)
Fixpoint contains (sub s : string) : bool :=
  prefixb sub s ||
  match s with
  | EmptyString => false
  | String _ s' => contains sub s'
  end.

Fixpoint concat (xs : list string) : string :=
  match xs with
  | [] => EmptyString
  | x :: xs' => x +:+ concat xs'
  end.

Fixpoint replicate (n : nat) (c : ascii) : string :=
  match n with
  | O => EmptyString
  | S n' => String c (replicate n' c)
  end.

(** Right-justify in a field of [width] characters, as [%<width>...]. *)
Definition rjust (width : nat) (s : string) : string :=
  replicate (width - String.length s) " "%char +:+ s.

End Str.

(** ** Python floats *)

Module Np.

(** A float is an exact rational, or an infinity, or not-a-number.  The sign
    of zero is not modelled. *)
Inductive pyfloat : Type :=
| Fin (q : Q)
| PInf
| NInf
| NaN.

Definition fneg (a : pyfloat) : pyfloat :=
  match a with
  | Fin q => Fin (- q)
  | PInf => NInf
  | NInf => PInf
  | NaN => NaN
  end.

Definition fadd (a b : pyfloat) : pyfloat :=
  match a, b with
  | NaN, _ | _, NaN => NaN
  | Fin x, Fin y => Fin (x + y)
  | PInf, NInf | NInf, PInf => NaN
  | PInf, _ | _, PInf => PInf
  | NInf, _ | _, NInf => NInf
  end.

Definition fsub (a b : pyfloat) : pyfloat := fadd a (fneg b).

(** The sign of a rational: [Lt] negative, [Eq] zero, [Gt] positive. *)
Definition Qsign (q : Q) : comparison := (Qnum q ?= 0)%Z.

Definition inf_of_sign (c : comparison) : pyfloat :=
  match c with
  | Gt => PInf
  | Lt => NInf
  | Eq => NaN
  end.

Definition sign_of (a : pyfloat) : comparison :=
  match a with
  | Fin q => Qsign q
  | PInf => Gt
  | NInf => Lt
  | NaN => Eq
  end.

Definition sign_mul (c d : comparison) : comparison :=
  match c, d with
  | Eq, _ | _, Eq => Eq
  | Lt, Lt | Gt, Gt => Gt
  | _, _ => Lt
  end.

Definition fmul (a b : pyfloat) : pyfloat :=
  match a, b with
  | NaN, _ | _, NaN => NaN
  | Fin x, Fin y => Fin (x * y)
  | _, _ => inf_of_sign (sign_mul (sign_of a) (sign_of b))
  end.

(** numpy division: a zero divisor gives an infinity or not-a-number. *)
Definition fdiv (a b : pyfloat) : pyfloat :=
  match a, b with
  | NaN, _ | _, NaN => NaN
  | Fin x, Fin y =>
      if Qeq_bool y 0 then inf_of_sign (Qsign x) else Fin (x / y)
  | Fin _, _ => Fin 0
  | _, Fin y =>
      match Qsign y with
      | Eq => a
      | s => inf_of_sign (sign_mul (sign_of a) s)
      end
  | _, _ => NaN
  end.

(** [a < b]; false when either side is not-a-number. *)
Definition fltb (a b : pyfloat) : bool :=
  match a, b with
  | NaN, _ | _, NaN => false
  | Fin x, Fin y => negb (Qle_bool y x)
  | NInf, NInf | PInf, _ | _, NInf => false
  | _, _ => true
  end.

(** [a <= b]. *)
Definition fleb (a b : pyfloat) : bool :=
  match a, b with
  | NaN, _ | _, NaN => false
  | Fin x, Fin y => Qle_bool x y
  | NInf, _ | _, PInf => true
  | _, _ => false
  end.

(** [a == b]. *)
Definition feqb (a b : pyfloat) : bool :=
  match a, b with
  | Fin x, Fin y => Qeq_bool x y
  | PInf, PInf | NInf, NInf => true
  | _, _ => false
  end.

Definition fabs (a : pyfloat) : pyfloat :=
  match a with
  | Fin q => Fin (Qabs q)
  | NInf => PInf
  | _ => a
  end.

Definition of_Z (n : Z) : pyfloat := Fin (inject_Z n).

(** The same number: rationals up to [==], special values by name. *)
Definition same (a b : pyfloat) : Prop :=
  match a, b with
  | Fin x, Fin y => (x == y)%Q
  | PInf, PInf | NInf, NInf | NaN, NaN => True
  | _, _ => False
  end.

(** [a] is [b] up to the relative tolerance [tol]: [|a - b| <= tol * |b|]
    for finite numbers, the same special value otherwise. *)
Definition close_to (tol : Q) (a b : pyfloat) : Prop :=
  match a, b with
  | Fin x, Fin y => (Qabs (x - y) <= tol * Qabs y)%Q
  | PInf, PInf | NInf, NInf | NaN, NaN => True
  | _, _ => False
  end.

End Np.

Export Np.

Declare Scope pyfloat_scope.
Delimit Scope pyfloat_scope with F.
Bind Scope pyfloat_scope with pyfloat.
Infix "+" := fadd : pyfloat_scope.
Infix "-" := fsub : pyfloat_scope.
Infix "*" := fmul : pyfloat_scope.
Infix "/" := fdiv : pyfloat_scope.
Infix "<?" := fltb : pyfloat_scope.
Infix "<=?" := fleb : pyfloat_scope.

(** ** Decimal text: [int()], [float()], [%i], [%e] *)

Module Fmt.

Import Str.

Definition digit_char (d : Z) : ascii := ascii_of_nat (48 + Z.to_nat d).

Definition digit_val (c : ascii) : option Z :=
  let n := nat_of_ascii c in
  if ((48 <=? n) && (n <=? 57))%nat then Some (Z.of_nat (n - 48)) else None.

(** The last [k] decimal digits of [n], most significant first. *)
Fixpoint fixed_digits (k : nat) (n : Z) : string :=
  match k with
  | O => EmptyString
  | S k' => fixed_digits k' (n / 10) +:+ String (digit_char (n mod 10)) EmptyString
  end.

Fixpoint ndigits_fuel (fuel : nat) (n : Z) : nat :=
  match fuel with
  | O => O
  | S fuel' => if n <=? 0 then O else S (ndigits_fuel fuel' (n / 10))
  end.

(** The number of decimal digits of [n > 0]. *)
Definition ndigits (n : Z) : nat := ndigits_fuel (S (Z.to_nat (Z.log2 n))) n.

(** [str(n)] for an [int]. *)
Definition str_int (n : Z) : string :=
  if n =? 0 then "0"
  else (if n <? 0 then "-" else "") +:+ fixed_digits (ndigits (Z.abs n)) (Z.abs n).

(** ["%<w>i" % n]. *)
Definition fmt_i (w : nat) (n : Z) : string := rjust w (str_int n).

(** Round to the nearest integer, ties to even. *)
Definition round_half_even (q : Q) : Z :=
  let fl := Qfloor q in
  match (q - inject_Z fl ?= 1 # 2)%Q with
  | Lt => fl
  | Gt => fl + 1
  | Eq => if Z.even fl then fl else fl + 1
  end.

(** The decimal exponent [e] of [a > 0]: [10^e <= a < 10^(e+1)]. *)
Definition exponent10 (a : Q) : Z :=
  if Qle_bool 1 a then Z.of_nat (ndigits (Qfloor a)) - 1
  else - Z.of_nat (ndigits (Qceiling (/ a) - 1)).

(** Mantissa and exponent of [a > 0] with [prec] digits after the point. *)
Definition sci (prec : nat) (a : Q) : Z * Z :=
  let e := exponent10 a in
  let m := round_half_even (a * 10 ^ (Z.of_nat prec - e))%Q in
  if m =? 10 ^ (Z.of_nat prec + 1) then (10 ^ Z.of_nat prec, e + 1) else (m, e).

Definition sci0 (prec : nat) (q : Q) : Z * Z :=
  if Qeq_bool q 0 then (0, 0) else sci prec (Qabs q).

(** The exponent field: a sign and at least two digits. *)
Definition fmt_exp (e : Z) : string :=
  (if e <? 0 then "-" else "+")
  +:+ fixed_digits (Nat.max 2 (ndigits (Z.abs e))) (Z.abs e).

Definition is_neg (q : Q) : bool :=
  match Qsign q with
  | Lt => true
  | _ => false
  end.

(** ["%.<prec>e" % x]. *)
Definition str_e (prec : nat) (x : pyfloat) : string :=
  match x with
  | NaN => "nan"
  | PInf => "inf"
  | NInf => "-inf"
  | Fin q =>
      let (m, e) := sci0 prec q in
      (if is_neg q then "-" else "")
      +:+ fixed_digits 1 (m / 10 ^ Z.of_nat prec)
      +:+ "." +:+ fixed_digits prec m +:+ "e" +:+ fmt_exp e
  end.

(** ["%<w>.<prec>e" % x]. *)
Definition fmt_e (w prec : nat) (x : pyfloat) : string := rjust w (str_e prec x).

(** The number that [%.<prec>e] prints: [q] rounded to [prec + 1]
    significant digits. *)
Definition round_sig (prec : nat) (q : Q) : Q :=
  let (m, e) := sci0 prec q in
  ((if is_neg q then - (1) else 1) * inject_Z m * 10 ^ (e - Z.of_nat prec))%Q.

Fixpoint digits_acc (acc : Z) (s : string) : option Z :=
  match s with
  | EmptyString => Some acc
  | String c s' =>
      match digit_val c with
      | Some d => digits_acc (acc * 10 + d) s'
      | None => None
      end
  end.

(** The value of a non-empty string of digits. *)
Definition digits_value (s : string) : option Z :=
  match s with
  | EmptyString => None
  | _ => digits_acc 0 s
  end.

Definition strip_sign (s : string) : bool * string :=
  match s with
  | String c s' =>
      if Ascii.eqb c "-" then (true, s')
      else if Ascii.eqb c "+" then (false, s')
      else (false, s)
  | EmptyString => (false, s)
  end.

Definition signed_digits (s : string) : option Z :=
  let (neg, body) := strip_sign s in
  match digits_value body with
  | Some n => Some (if neg then - n else n)
  | None => None
  end.

(** [int(s)] for a token [s]: an optional sign and decimal digits. *)
Definition py_int (s : string) : result Z :=
  match signed_digits s with
  | Some n => Ret n
  | None => Raise ValueError
  end.

(** Cut [s] at the first occurrence of [c]. *)
Fixpoint cut (c : ascii) (s : string) : string * option string :=
  match s with
  | EmptyString => (EmptyString, None)
  | String a s' =>
      if Ascii.eqb a c then (EmptyString, Some s')
      else let (l, r) := cut c s' in (String a l, r)
  end.

Definition decimal_value (neg : bool) (m e : Z) (nfrac : nat) : Q :=
  Qred ((if neg then - (1) else 1) * inject_Z m * 10 ^ (e - Z.of_nat nfrac))%Q.

(** A decimal literal without its sign: digits with an optional point and
    an optional exponent. *)
Definition parse_decimal (neg : bool) (body : string) : result pyfloat :=
  let (mant, ex) := cut "e" body in
  let (ip, fp) := cut "." mant in
  let frac := match fp with Some f => f | None => EmptyString end in
  let ev := match ex with Some e => signed_digits e | None => Some 0 end in
  match ip +:+ frac with
  | EmptyString => Raise ValueError
  | digits =>
      match digits_acc 0 digits, ev with
      | Some m, Some e => Ret (Fin (decimal_value neg m e (String.length frac)))
      | _, _ => Raise ValueError
      end
  end.

(** [float(s)] for a token [s]: [nan], [inf], [infinity], or a decimal
    literal, in any case. *)
Definition py_float (s : string) : result pyfloat :=
  let (neg, body) := strip_sign (lower s) in
  if String.eqb body "nan" then Ret NaN
  else if String.eqb body "inf" || String.eqb body "infinity"
  then Ret (if neg then NInf else PInf)
  else parse_decimal neg body.

End Fmt.

(** ** Values, arrays, files *)

Module Obj.

Import Str Fmt.

(** A value of a header dictionary. *)
Inductive pyval : Type :=
| VNone
| VInt (n : Z)
| VFloat (x : pyfloat)
| VStr (s : string).

(** A two-dimensional numpy array, as its list of rows. *)
Definition array : Type := list (list pyfloat).

(** [float(v)]. *)
Definition to_float (v : pyval) : result pyfloat :=
  match v with
  | VInt n => Ret (of_Z n)
  | VFloat x => Ret x
  | VStr s => py_float s
  | VNone => Raise TypeError
  end.

(** A value where numpy wants an integer (a shape, a number of samples). *)
Definition as_index (v : pyval) : result Z :=
  match v with
  | VInt n => Ret n
  | _ => Raise TypeError
  end.

(** A value in arithmetic. *)
Definition as_number (v : pyval) : result pyfloat :=
  match v with
  | VInt n => Ret (of_Z n)
  | VFloat x => Ret x
  | _ => Raise TypeError
  end.

(** [not v]. *)
Definition py_not (v : pyval) : bool :=
  match v with
  | VNone => true
  | VInt n => n =? 0
  | VFloat (Fin q) => Qeq_bool q 0
  | VFloat _ => false
  | VStr s => String.eqb s ""
  end.

Definition dict_get {A} (d : gmap string A) (k : string) : result A :=
  match d !! k with
  | Some v => Ret v
  | None => Raise KeyError
  end.

(** [a[i, j]] for [i, j >= 0]. *)
Definition index2 (a : array) (i j : nat) : result pyfloat :=
  row <- index a i ;; index row j.

(** [a[i, :]]. *)
Definition row_of (a : array) (i : nat) : result (list pyfloat) := index a i.

Fixpoint map_result {A B} (f : A -> result B) (xs : list A) : result (list B) :=
  match xs with
  | [] => Ret []
  | x :: xs' => y <- f x ;; ys <- map_result f xs' ;; Ret (y :: ys)
  end.

(** [a[:, j]]. *)
Definition col_of (a : array) (j : nat) : result (list pyfloat) :=
  match a with
  | [] => Raise IndexError
  | _ => map_result (fun row => index row j) a
  end.

(** [a[-1, j]]. *)
Definition index2_last_row (a : array) (j : nat) : result pyfloat :=
  row <- index_last a ;; index row j.

(** [a[i, -1]]. *)
Definition index2_last_col (a : array) (i : nat) : result pyfloat :=
  row <- index a i ;; index_last row.

(** [a[-1, -1]]. *)
Definition index2_last (a : array) : result pyfloat :=
  row <- index_last a ;; index_last row.

(** [np.where(cond)[0]]: the indices at which the condition holds. *)
Fixpoint np_where_from (i : nat) (p : pyfloat -> bool) (xs : list pyfloat)
    : list nat :=
  match xs with
  | [] => []
  | x :: xs' =>
      if p x then i :: np_where_from (S i) p xs' else np_where_from (S i) p xs'
  end.

Definition np_where (p : pyfloat -> bool) (xs : list pyfloat) : list nat :=
  np_where_from 0 p xs.

(** [np.linspace(start, stop, num)]. *)
Definition linspace (start stop : pyfloat) (num : Z) : result (list pyfloat) :=
  if num <? 0 then Raise ValueError
  else if num =? 0 then Ret []
  else if num =? 1 then Ret [start]
  else
    let step := ((stop - start) / of_Z (num - 1))%F in
    let ys := List.map (fun i => (start + of_Z (Z.of_nat i) * step)%F)
                (seq 0 (Z.to_nat num - 1)%nat) in
    Ret (ys ++ [stop])%list.

(** [np.meshgrid(x, y)]. *)
Definition meshgrid (x y : list pyfloat) : array * array :=
  (List.map (fun _ => x) y, List.map (fun yi => List.map (fun _ => yi) x) y).

(** [np.flipud(a)]. *)
Definition flipud (a : array) : array := List.rev a.

(** Rows of [n] consecutive elements; the fuel is the number of rows. *)
Fixpoint chunks (rows : nat) (n : nat) (xs : list pyfloat) : array :=
  match rows with
  | O => []
  | S rows' => firstn n xs :: chunks rows' n (skipn n xs)
  end.

(** [np.array(rows)] for a list of lists of floats: the rows must have one
    length. *)
Definition np_array (rows : list (list pyfloat)) : result array :=
  match rows with
  | [] => Ret []
  | r :: rs =>
      if forallb (fun r' => Nat.eqb (List.length r') (List.length r)) rs
      then Ret rows else Raise ValueError
  end.

(** [np.reshape(a, (nrows, ncols))]. *)
Definition np_reshape (a : array) (nrows ncols : Z) : result array :=
  let flat := List.concat a in
  if (nrows <? 0) || (ncols <? 0) then Raise ValueError
  else if Z.of_nat (List.length flat) =? nrows * ncols
  then Ret (chunks (Z.to_nat nrows) (Z.to_nat ncols) flat)
  else Raise ValueError.

(** The file system: the text of every file. *)
Abbreviation filesystem := (gmap string string).

(** [open(path, "r")]. *)
Definition open_r (fs : filesystem) (path : string) : result string :=
  match fs !! path with
  | Some text => Ret text
  | None => Raise IOError
  end.

(** [open(path, "w")]: the file is created or truncated. *)
Definition open_w (path : string) (fs : filesystem) : filesystem :=
  <[path := EmptyString]> fs.

(** [f.write(s)] on a file opened for writing. *)
Definition write (path : string) (s : string) (fs : filesystem) : filesystem :=
  alter (fun text => text +:+ s) path fs.

Fixpoint write_all (path : string) (xs : list string) (fs : filesystem)
    : filesystem :=
  match xs with
  | [] => fs
  | x :: xs' => write_all path xs' (write path x fs)
  end.

End Obj.

Export Obj.

(** ** [python/dclaw/topotools.py] *)

Module Topotools.

Import Str Fmt.

(** The names that the module binds at top level: its imports, [Rearth]
    and its functions. *)
Definition module_globals : list string :=
  [ "os"; "string"; "np"; "fixdata"; "iotools"; "Rearth";
    "get_topo"; "topo1writer"; "topo2writer"; "gcdist"; "dx_from_gcdist";
    "scatter2gridded"; "topoheaderwrite"; "esriheaderwrite";
    "topoheaderread"; "topofile2griddata"; "griddata2topofile";
    "griddata2gtif"; "converttopotype"; "griddatasubset"; "topofilefindz";
    "griddatafindz"; "topofilesubset"; "topofilesubsample";
    "topofileinterpolate"; "scatter2smoothgridded"; "griddatasubsample";
    "removenodata_value"; "changenodata_value"; "burnin_nodata_value";
    "merge_topofiles"; "clip_surface"; "swapheader"; "esriheader";
    "topoboundary"; "create_topo_func"; "calculate_resolution" ].

(** The built-in names that the module's functions use. *)
Definition builtins : list string :=
  [ "abs"; "exit"; "float"; "int"; "isinstance"; "len"; "list"; "max";
    "min"; "open"; "print"; "range"; "str"; "Exception"; "NameError";
    "ImportError"; "True"; "False"; "None" ].

(** What a name of a function body can denote. *)
Inductive pyobj : Type :=
| OArr (a : array)
| OVal (v : pyval)
| OText (s : string)
| OGlobal (name : string).

Fixpoint assoc {A} (k : string) (kvs : list (string * A)) : option A :=
  match kvs with
  | [] => None
  | (k', v) :: kvs' => if String.eqb k k' then Some v else assoc k kvs'
  end.

(** Reading a name in a function body: the local scope, then the module,
    then the built-ins; [NameError] when none binds it. *)
Definition load_name (locals : list (string * pyobj)) (name : string)
    : result pyobj :=
  match assoc name locals with
  | Some o => Ret o
  | None =>
      if existsb (String.eqb name) (module_globals ++ builtins)%list
      then Ret (OGlobal name)
      else Raise (NameError name)
  end.

Definition as_array (o : pyobj) : result array :=
  match o with
  | OArr a => Ret a
  | _ => Raise TypeError
  end.

(** The attributes of a [numpy.ndarray] that the module asks for. *)
Definition ndarray_attrs : list string :=
  [ "T"; "argmax"; "astype"; "flatten"; "reshape"; "shape"; "size" ].

Definition ndarray_getattr (attr : string) : result unit :=
  if existsb (String.eqb attr) ndarray_attrs then Ret tt
  else Raise (AttributeError "numpy.ndarray" attr).

(** The dictionary [topoheader] as [topoheaderread] creates it. *)
Definition topoheader0 : gmap string pyval :=
  <["ncols" := VInt 0]> (<["nrows" := VInt 0]> (<["xll" := VFloat (Fin 0)]>
  (<["yll" := VFloat (Fin 0)]> (<["cellsize" := VFloat (Fin 0)]>
  (<["nodata_value" := VInt 0]> ∅))))).

(** [list(topoheader.keys())], in insertion order. *)
Definition keylist : list string :=
  [ "ncols"; "nrows"; "xll"; "yll"; "cellsize"; "nodata_value" ].

Definition keymap_items : list (string * string) :=
  [ ("ncols", "ncols"); ("nrows", "nrows"); ("xll", "xll"); ("yll", "yll");
    ("cellsize", "cellsize"); ("nodata_value", "nodata_value");
    ("xllcenter", "xll"); ("yllcenter", "yll");
    ("xllcorner", "xll"); ("yllcorner", "yll");
    ("xlower", "xll"); ("ylower", "yll") ].

(** [keymap[k]] when [k in list(keymap.keys())]. *)
Definition keymap (k : string) : option string := assoc k keymap_items.

(** The state of the header loop: the unread text, [keyleft], [topoheader]. *)
Record hstate : Type := HState {
  h_fid : string;
  h_keyleft : Z;
  h_header : gmap string pyval
}.

(** ["%s" % v] for an integer or a string argument; a float goes through
    [repr_float]. *)
Definition str_val (repr_float : pyfloat -> string) (v : pyval) : string :=
  match v with
  | VInt n => str_int n
  | VFloat x => repr_float x
  | VStr s => s
  | VNone => "None"
  end.

Section Functions.

(** [iotools.convertd2e], [iotools.datafile2array] and the shortest
    round-tripping text of a float ([repr]) are not part of the source tree. *)
Variable convertd2e : string -> string.
Variable datafile2array : filesystem -> string -> result array.
Variable repr_float : pyfloat -> string.

(** One iteration of [while keyleft > 0] in [topoheaderread]. *)
Definition header_line (st : hstate) : result hstate :=
  let (raw, rest) := readline (h_fid st) in
  let line := split raw in
  match line with
  | [] => Ret (HState rest (h_keyleft st) (h_header st))
  | _ =>
      tok0 <- index line 0 ;;
      st1 <- match keymap (lower tok0) with
             | Some key =>
                 tok1 <- index line 1 ;;
                 Ret (HState rest (h_keyleft st - 1)
                        (<[key := VStr (convertd2e tok1)]> (h_header st)))
             | None => Ret (HState rest (h_keyleft st) (h_header st))
             end ;;
      tok1 <- index line 1 ;;
      match keymap (lower tok1) with
      | Some key =>
          Ret (HState rest (h_keyleft st1 - 1)
                 (<[key := VStr (convertd2e tok0)]> (h_header st1)))
      | None => Ret st1
      end
  end.

(** The text of a header value becomes a [float] when it contains [.],
    [nan] or [e], and an [int] otherwise. *)
Definition convert_text (s : string) : result pyval :=
  if contains "." s || contains "nan" (lower s) || contains "e" (lower s)
  then x <- py_float s ;; Ret (VFloat x)
  else n <- py_int s ;; Ret (VInt n).

(** The body of [for key in keylist] in [topoheaderread].  The [exit] of
    the first branch is a bare name, which does nothing; the test [in] of
    the second branch wants a text. *)
Definition convert_key (key : string) (topoheader : gmap string pyval)
    : result (gmap string pyval) :=
  match topoheader !! key with
  | None => Ret topoheader
  | Some (VStr s) => v <- convert_text s ;; Ret (<[key := v]> topoheader)
  | Some _ => Raise TypeError
  end.

(** The state in which the header loop starts on a text. *)
Definition header_start (text : string) : hstate :=
  HState text (Z.of_nat (List.length keylist)) topoheader0.

(** [topoheaderread(inputfile, closefile)]: the open file (the text after
    the header) and the header. *)
Definition topoheaderread (fuel : nat) (fs : filesystem) (inputfile : string)
    : partial (string * gmap string pyval) :=
  fid <~ lift (open_r fs inputfile) ;;
  st <~ while fuel (fun st => 0 <? h_keyleft st) header_line
          (header_start fid) ;;
  topoheader <~ lift (for_each keylist convert_key (h_header st)) ;;
  Some (Ret (h_fid st, topoheader)).

(** The state of the header loop after [k] iterations, when it makes that
    many: [keyleft > 0] before each of them, and none of them raises. *)
Fixpoint header_steps (k : nat) (st : hstate) : option hstate :=
  match k with
  | O => Some st
  | S k' =>
      if 0 <? h_keyleft st then
        match header_line st with
        | Ret st' => header_steps k' st'
        | Raise _ => None
        end
      else None
  end.

(** How far a sequence of writes gets: all of [xs], or the writes up to the
    first argument that raises. *)
Fixpoint write_until (path : string) (xs : list (result string))
    (fs : filesystem) : filesystem * result unit :=
  match xs with
  | [] => (fs, Ret tt)
  | Ret x :: xs' => write_until path xs' (write path x fs)
  | Raise e :: _ => (fs, Raise e)
  end.

(** [topoheaderwrite(topoheader, outputfile, closefile)]. *)
Definition topoheaderwrite (topoheader : gmap string pyval)
    (outputfile : string) (fs : filesystem) : filesystem * result unit :=
  let fs := open_w outputfile fs in
  write_until outputfile
    [ v <- dict_get topoheader "ncols" ;;
      Ret (str_val repr_float v +:+ " ncols" +:+ String newline "");
      v <- dict_get topoheader "nrows" ;;
      Ret (str_val repr_float v +:+ " nrows" +:+ String newline "");
      v <- dict_get topoheader "xll" ;; x <- to_float v ;;
      Ret (repr_float x +:+ " xll" +:+ String newline "");
      v <- dict_get topoheader "yll" ;; x <- to_float v ;;
      Ret (repr_float x +:+ " yll" +:+ String newline "");
      v <- dict_get topoheader "cellsize" ;; x <- to_float v ;;
      Ret (repr_float x +:+ " cellsize" +:+ String newline "");
      v <- dict_get topoheader "nodata_value" ;;
      Ret (str_val repr_float v +:+ " nodata_value" +:+ String newline "") ]
    fs.

(** A data line of a file of topotype 2 or 3: its numbers. *)
Definition parse_row (line : string) : result (list pyfloat) :=
  map_result py_float (split (convertd2e line)).

Definition header_int (topoheader : gmap string pyval) (key : string)
    : result Z :=
  v <- dict_get topoheader key ;; as_index v.

Definition header_num (topoheader : gmap string pyval) (key : string)
    : result pyfloat :=
  v <- dict_get topoheader key ;; as_number v.

(** [np.diff(x)]. *)
Fixpoint np_diff (x : list pyfloat) : list pyfloat :=
  match x with
  | a :: ((b :: _) as x') => (b - a)%F :: np_diff x'
  | _ => []
  end.

(** The grid of a file of topotype 2 or 3, from the open file and the
    header. *)
Definition grid_of_text (fin : string) (topoheader : gmap string pyval)
    : result (array * array * array) :=
  zdata <- map_result parse_row (readlines fin) ;;
  Z0 <- np_array zdata ;;
  nrows <- header_int topoheader "nrows" ;;
  ncols <- header_int topoheader "ncols" ;;
  Zg <- np_reshape Z0 nrows ncols ;;
  xlower <- header_num topoheader "xll" ;;
  cellsize <- header_num topoheader "cellsize" ;;
  let xupper := (xlower + cellsize * of_Z (ncols - 1))%F in
  ylower <- header_num topoheader "yll" ;;
  let yupper := (ylower + cellsize * of_Z (nrows - 1))%F in
  x <- linspace xlower xupper ncols ;;
  y <- linspace ylower yupper nrows ;;
  let (X, Y) := meshgrid x y in
  Ret (X, flipud Y, Zg).

(** [topofile2griddata(inputfile, topotype)]: the arrays [X], [Y], [Z].
    In the branch of topotype 1 the expression [(xdiff < 0).np] asks an
    array for an attribute that arrays do not have; the statements after it
    start with [inddiff[0]], the subscript of a number. *)
Definition topofile2griddata (fuel : nat) (fs : filesystem)
    (inputfile : string) (topotype : Z) : partial (array * array * array) :=
  if 1 <? topotype then
    r <~ topoheaderread fuel fs inputfile ;;
    lift (grid_of_text (fst r) (snd r))
  else
    lift (a <- datafile2array fs inputfile ;;
          x <- col_of a 0 ;;
          let xdiff := np_diff x in
          _ <- ndarray_getattr "np" ;;
          Raise IndexError).

Definition load_array (locals : list (string * pyobj)) (name : string)
    : result array :=
  o <- load_name locals name ;; as_array o.

(** The statements of [griddata2topofile] before it opens the output file:
    [nrows], [ncols] and the header. *)
Definition grid_geometry (locals : list (string * pyobj))
    (nodata_value_out : pyval) : result (nat * nat * gmap string pyval) :=
  Zc <- (a <- load_array locals "Z" ;; col_of a 0) ;;
  let nrows := List.length Zc in
  Zr <- (a <- load_array locals "Z" ;; row_of a 0) ;;
  let ncols := List.length Zr in
  xllcc <- (a <- load_array locals "X" ;; index2 a 0 0) ;;
  yllcc <- (a <- load_array locals "Y" ;; index2_last_row a 0) ;;
  xuppercc <- (a <- load_array locals "X" ;; index2_last_col a 0) ;;
  yuppercc <- (a <- load_array locals "Y" ;; index2 a 0 0) ;;
  let cellsizeX := ((xuppercc - xllcc) / of_Z (Z.of_nat ncols - 1))%F in
  let cellsizeY := ((yuppercc - yllcc) / of_Z (Z.of_nat nrows - 1))%F in
  let xll := (xllcc - Fin (1 # 2) * cellsizeX)%F in
  let yll := (yllcc - Fin (1 # 2) * cellsizeY)%F in
  Ret (nrows, ncols,
       <["nodata_value" := nodata_value_out]> (<["cellsize" := VFloat cellsizeX]>
       (<["yll" := VFloat yll]> (<["xll" := VFloat xll]>
       (<["ncols" := VInt (Z.of_nat ncols)]>
       (<["nrows" := VInt (Z.of_nat nrows)]> ∅)))))).

(** ["%s<suffix>" % Z[i, j]]. *)
Definition cell_text (locals : list (string * pyobj)) (suffix : string)
    (i j : nat) : result string :=
  z <- (a <- load_array locals "Z" ;; index2 a i j) ;;
  Ret (repr_float z +:+ suffix).

(** ["%s %s %s\n" % (X[i, j], Y[i, j], Z[i, j])]. *)
Definition xyz_text (locals : list (string * pyobj)) (i j : nat)
    : result string :=
  x <- (a <- load_array locals "X" ;; index2 a i j) ;;
  y <- (a <- load_array locals "Y" ;; index2 a i j) ;;
  z <- (a <- load_array locals "Z" ;; index2 a i j) ;;
  Ret (repr_float x +:+ " " +:+ repr_float y +:+ " " +:+ repr_float z
       +:+ String newline "").

(** [griddata2topofile(X, Y, Q, outputfile, topotype, nodata_value_in,
    nodata_value_out)].  The parameters are the local names; the body reads
    the grid values under the name [Z]. *)
Definition griddata2topofile (X Y Q : array) (outputfile : string)
    (topotype : Z) (nodata_value_in nodata_value_out : pyval)
    (fs : filesystem) : filesystem * result unit :=
  let locals :=
    [ ("X", OArr X); ("Y", OArr Y); ("Q", OArr Q);
      ("outputfile", OText outputfile); ("topotype", OVal (VInt topotype));
      ("nodata_value_in", OVal nodata_value_in);
      ("nodata_value_out", OVal nodata_value_out) ] in
  match grid_geometry locals nodata_value_out with
  | Raise e => (fs, Raise e)
  | Ret (nrows, ncols, topoheader) =>
      if topotype =? 2 then
        match topoheaderwrite topoheader outputfile fs with
        | (fs1, Ret _) =>
            write_until outputfile
              (flat_map (fun i =>
                 List.map (cell_text locals (String newline "") i) (seq 0 ncols))
                 (seq 0 nrows)) fs1
        | (fs1, Raise e) => (fs1, Raise e)
        end
      else if topotype =? 3 then
        match topoheaderwrite topoheader outputfile fs with
        | (fs1, Ret _) =>
            write_until outputfile
              (flat_map (fun i =>
                 List.map (cell_text locals "   " i) (seq 0 ncols)
                 ++ [Ret (String newline "")])%list
                 (seq 0 nrows)) fs1
        | (fs1, Raise e) => (fs1, Raise e)
        end
      else
        write_until outputfile
          (flat_map (fun i => List.map (xyz_text locals i) (seq 0 ncols))
             (seq 0 nrows))
          (open_w outputfile fs)
  end.

(** [topoheaderread(inputfile)["nodata_value"]]. *)
Definition read_nodata (fuel : nat) (fs : filesystem) (inputfile : string)
    : partial pyval :=
  r <~ topoheaderread fuel fs inputfile ;;
  lift (dict_get (snd r) "nodata_value").

(** The [nodata_value] that the transforms pass on: the argument, or the
    one of the header when the input has a header and the argument is
    missing or zero. *)
Definition nodata_or_header (fuel : nat) (fs : filesystem)
    (inputfile : string) (topotypein : Z) (nodata_value : pyval)
    : partial pyval :=
  if (1 <? topotypein) && py_not nodata_value
  then read_nodata fuel fs inputfile
  else Some (Ret nodata_value).

(** Run the reading part of a transform, then write with [k]. *)
Definition then_write {A} (fs : filesystem) (m : partial A)
    (k : A -> filesystem * result unit) : filesystem * partial unit :=
  match m with
  | Some (Ret a) => let (fs', r) := k a in (fs', Some r)
  | Some (Raise e) => (fs, Some (Raise e))
  | None => (fs, None)
  end.

(** [converttopotype(inputfile, outputfile, topotypein, topotypeout,
    nodata_value)]. *)
Definition converttopotype (fuel : nat) (inputfile outputfile : string)
    (topotypein topotypeout : Z) (nodata_value : pyval) (fs : filesystem)
    : filesystem * partial unit :=
  then_write fs
    (g <~ topofile2griddata fuel fs inputfile topotypein ;;
     nodata <~ nodata_or_header fuel fs inputfile topotypein nodata_value ;;
     Some (Ret (g, nodata)))
    (fun '(X, Y, Zg, nodata) =>
       griddata2topofile X Y Zg outputfile topotypeout nodata nodata fs).

(** [a[np.ix_(yind, xind)]]. *)
Definition take_indices (a : array) (yind xind : list nat) : result array :=
  map_result (fun i => map_result (fun j => index2 a i j) xind) yind.

(** [griddatasubset(X, Y, Z, xlow, xhi, ylow, yhi)]. *)
Definition griddatasubset (X Y Zg : array) (xlow xhi ylow yhi : pyfloat)
    : result (array * array * array) :=
  x0 <- row_of X 0 ;;
  let xind := np_where (fun v => (xlow <=? v) && (v <=? xhi))%F x0 in
  y0 <- col_of Y 0 ;;
  let yind := np_where (fun v => (v <=? yhi) && (ylow <=? v))%F y0 in
  Xsub <- take_indices X yind xind ;;
  Ysub <- take_indices Y yind xind ;;
  Zsub <- take_indices Zg yind xind ;;
  Ret (Xsub, Ysub, Zsub).

(** The interpolation of [topofilefindz] and [griddatafindz] at a point
    inside the grid: the [else] branch of their loops. *)
Definition bilinear (X Y Zg : array) (x y : pyfloat) : result pyfloat :=
  x0 <- row_of X 0 ;;
  i0 <- index_last (np_where (fun v => v <=? x)%F x0) ;;
  x0' <- row_of X 0 ;;
  i1 <- index (np_where (fun v => x <=? v)%F x0') 0 ;;
  y0 <- col_of Y 0 ;;
  j0 <- index (np_where (fun v => v <=? y)%F y0) 0 ;;
  y0' <- col_of Y 0 ;;
  j1 <- index_last (np_where (fun v => y <=? v)%F y0') ;;
  Z00 <- index2 Zg j0 i0 ;;
  Z01 <- index2 Zg j0 i1 ;;
  Z10 <- index2 Zg j1 i0 ;;
  Z11 <- index2 Zg j1 i1 ;;
  X00 <- index2 X j0 i0 ;;
  X01 <- index2 X j0 i1 ;;
  X10 <- index2 X j1 i0 ;;
  X11 <- index2 X j1 i1 ;;
  Y00 <- index2 Y j0 i0 ;;
  Y01 <- index2 Y j0 i1 ;;
  Y10 <- index2 Y j1 i0 ;;
  Y11 <- index2 Y j1 i1 ;;
  let dzdx0 := if Nat.eqb i0 i1 then Fin 0 else ((Z01 - Z00) / (X11 - X00))%F in
  let dzdx1 := if Nat.eqb i0 i1 then Fin 0 else ((Z11 - Z10) / (X11 - X00))%F in
  let zy0 := (Z00 + (x - X00) * dzdx0)%F in
  let zy1 := (Z10 + (x - X10) * dzdx1)%F in
  let dzdy := if Nat.eqb j0 j1 then Fin 0 else ((zy1 - zy0) / (Y11 - Y00))%F in
  Ret (zy0 + (y - Y00) * dzdy)%F.

(** The test [(x < X[0,0]) | (x > X[0,-1]) | (y < Y[-1,0]) | (y > Y[0,0])]. *)
Definition outside (X Y : array) (x y : pyfloat) : result bool :=
  X00 <- index2 X 0 0 ;;
  X0n <- index2_last_col X 0 ;;
  Yn0 <- index2_last_row Y 0 ;;
  Y00 <- index2 Y 0 0 ;;
  Ret ((x <? X00) || (X0n <? x) || (y <? Yn0) || (Y00 <? y))%F.

(** One iteration of [for i in range(len(pts))]: the value appended to [z].
    The warning of the first branch prints the corners of the grid. *)
Definition findz_point (sentinel : pyfloat) (X Y Zg : array)
    (pt : pyfloat * pyfloat) : result pyfloat :=
  let (x, y) := pt in
  out <- outside X Y x y ;;
  if out then
    _ <- index2 X 0 0 ;; _ <- index2_last Y ;;
    _ <- index2_last X ;; _ <- index2 Y 0 0 ;;
    Ret sentinel
  else bilinear X Y Zg x y.




(** [griddatafindz(pts, X, Y, Z)]: the sentinel is [-9999]. *)
Definition griddatafindz (pts : list (pyfloat * pyfloat)) (X Y Zg : array)
    : result (list pyfloat) :=
  map_result (findz_point (of_Z (-9999)) X Y Zg) pts.

(** Python [min(a, b)] and [max(a, b)]. *)
Definition pymin (a b : pyfloat) : pyfloat := if (b <? a)%F then b else a.
Definition pymax (a b : pyfloat) : pyfloat := if (a <? b)%F then b else a.

(** Python [a / b] on its own numbers. *)
Definition pydiv (a b : pyfloat) : result pyfloat :=
  match b with
  | Fin q => if Qeq_bool q 0 then Raise ZeroDivisionError else Ret (a / b)%F
  | _ => Ret (a / b)%F
  end.

(** [int(x)]: truncation towards zero. *)
Definition int_of_float (x : pyfloat) : result Z :=
  match x with
  | Fin q => Ret (if Qle_bool 0 q then Qfloor q else Qceiling q)
  | NaN => Raise ValueError
  | _ => Raise OverflowError
  end.

(** [np.ceil(x)]. *)
Definition np_ceil (x : pyfloat) : pyfloat :=
  match x with
  | Fin q => of_Z (Qceiling q)
  | _ => x
  end.

(** The state of the copy loop of the streaming subset: the unread input,
    [outpts], [writtenpts] and the file system. *)
Record cstate : Type := CState {
  c_fidin : string;
  c_outpts : Z;
  c_writtenpts : Z;
  c_fs : filesystem
}.

(** The body of [for col in range(ncols)] in the streaming subset. *)
Definition cheap_cell (outputfile : string)
    (xll yupper cellsize xlow xhi ylow yhi : pyfloat) (row col : nat)
    (st : cstate) : cstate :=
  let y := (yupper - of_Z (Z.of_nat row) * cellsize)%F in
  let x := (xll + of_Z (Z.of_nat col) * cellsize)%F in
  let (raw, rest) := readline (c_fidin st) in
  let zdata := split raw in
  let w := c_writtenpts st in
  let st1 :=
    fold_left (fun st' tok =>
      if ((xlow <=? x) && (x <=? xhi) && ((ylow <=? y) && (y <? yhi)))%F
      then CState (c_fidin st') (c_outpts st' - 1) (c_writtenpts st' + 1)
             (write outputfile (tok +:+ "  ") (c_fs st'))
      else st')
      zdata (CState rest (c_outpts st) (c_writtenpts st) (c_fs st)) in
  if w <? c_writtenpts st1
  then CState (c_fidin st1) (c_outpts st1) (c_writtenpts st1)
         (write outputfile (String newline "") (c_fs st1))
  else st1.

(** The body of [while outpts > 0]: one pass over all rows and columns.
    [range(nrows)] and [range(ncols)] want integers. *)
Definition cheap_pass (outputfile : string) (topoheaderin : gmap string pyval)
    (xll yupper cellsize xlow xhi ylow yhi : pyfloat) (st : cstate)
    : result cstate :=
  nrows <- header_int topoheaderin "nrows" ;;
  for_each (seq 0 (Z.to_nat nrows)) (fun row st' =>
    ncols <- header_int topoheaderin "ncols" ;;
    Ret (fold_left (fun st'' col =>
           cheap_cell outputfile xll yupper cellsize xlow xhi ylow yhi
             row col st'')
           (seq 0 (Z.to_nat ncols)) st')) st.

(** The header of the streaming subset. *)
Definition cheap_header (topoheaderin : gmap string pyval)
    (xlow xhi ylow yhi : pyfloat)
    : result (gmap string pyval * Z * Z * pyfloat * pyfloat * pyfloat) :=
  nodata_value_in <- dict_get topoheaderin "nodata_value" ;;
  ncols <- header_num topoheaderin "ncols" ;;
  nrows <- header_num topoheaderin "nrows" ;;
  yll <- header_num topoheaderin "yll" ;;
  xll <- header_num topoheaderin "xll" ;;
  cellsize <- header_num topoheaderin "cellsize" ;;
  cellsize_value <- dict_get topoheaderin "cellsize" ;;
  let yupper := (yll + cellsize * (nrows - Fin 1))%F in
  let xupper := (xll + cellsize * (ncols - Fin 1))%F in
  let xupperout := pymin xupper xhi in
  let xlowout := pymax xlow xll in
  let yupperout := pymin yupper yhi in
  let ylowout := pymax yll ylow in
  ncolsout <- (q <- pydiv (xupperout - xlowout)%F cellsize ;;
               int_of_float (q + Fin 1)%F) ;;
  nrowsout <- (q <- pydiv (yupperout - ylowout)%F cellsize ;;
               int_of_float (q + Fin 1)%F) ;;
  j <- (q <- pydiv (xlowout - xll)%F cellsize ;; Ret (np_ceil (q + Fin 1)%F)) ;;
  let xllout := (xll + (j - Fin 1) * cellsize)%F in
  i <- (q <- pydiv (ylowout - yll)%F cellsize ;; Ret (np_ceil (q + Fin 1)%F)) ;;
  let yllout := (yll + (i - Fin 1) * cellsize)%F in
  Ret (<["nodata_value" := nodata_value_in]> (<["cellsize" := cellsize_value]>
       (<["nrows" := VInt nrowsout]> (<["ncols" := VInt ncolsout]>
       (<["yll" := VFloat yllout]> (<["xll" := VFloat xllout]> ∅))))),
       ncolsout, nrowsout, xll, yupper, cellsize).

(** [topofilesubset(..., cheap=True)] for an input of topotype 2 or 3. *)
Definition topofilesubset_cheap (fuel : nat) (inputfile outputfile : string)
    (topotypein : Z) (xlow xhi ylow yhi : pyfloat) (fs : filesystem)
    : filesystem * partial unit :=
  if topotypein =? 1 then (fs, Some (Ret tt))
  else
    match topoheaderread fuel fs inputfile with
    | None => (fs, None)
    | Some (Raise e) => (fs, Some (Raise e))
    | Some (Ret (fidin, topoheaderin)) =>
        match cheap_header topoheaderin xlow xhi ylow yhi with
        | Raise e => (fs, Some (Raise e))
        | Ret (theadout, ncolsout, nrowsout, xll, yupper, cellsize) =>
            match topoheaderwrite theadout outputfile fs with
            | (fs1, Raise e) => (fs1, Some (Raise e))
            | (fs1, Ret _) =>
                if 1 <? topotypein then
                  match
                    while fuel (fun st => 0 <? c_outpts st)
                      (cheap_pass outputfile topoheaderin xll yupper cellsize
                         xlow xhi ylow yhi)
                      (CState fidin (ncolsout * nrowsout) 0 fs1)
                  with
                  | Some (Ret st) => (c_fs st, Some (Ret tt))
                  | Some (Raise e) => (fs1, Some (Raise e))
                  | None => (fs1, None)
                  end
                else (fs1, Some (Ret tt))
            end
        end
    end.

(** [topofilesubset(..., cheap=False)]. *)
Definition topofilesubset_full (fuel : nat) (inputfile outputfile : string)
    (topotypein topotypeout : Z) (xlow xhi ylow yhi : pyfloat)
    (nodata_value_in : pyval) (fs : filesystem) : filesystem * partial unit :=
  then_write fs
    (g <~ topofile2griddata fuel fs inputfile topotypein ;;
     nodata <~ nodata_or_header fuel fs inputfile topotypein nodata_value_in ;;
     let '(X, Y, Zg) := g in
     sub <~ lift (griddatasubset X Y Zg xlow xhi ylow yhi) ;;
     Some (Ret (sub, nodata)))
    (fun '(Xsub, Ysub, Zsub, nodata) =>
       griddata2topofile Xsub Ysub Zsub outputfile topotypeout nodata nodata fs).

(** [topofilesubset(inputfile, outputfile, topotypein, topotypeout, xlow,
    xhi, ylow, yhi, nodata_value_in, cheap)]. *)
Definition topofilesubset (fuel : nat) (inputfile outputfile : string)
    (topotypein topotypeout : Z) (xlow xhi ylow yhi : pyfloat)
    (nodata_value_in : pyval) (cheap : bool) (fs : filesystem)
    : filesystem * partial unit :=
  if cheap
  then topofilesubset_cheap fuel inputfile outputfile topotypein
         xlow xhi ylow yhi fs
  else topofilesubset_full fuel inputfile outputfile topotypein topotypeout
         xlow xhi ylow yhi nodata_value_in fs.

(** [xs[0::step]]. *)
Fixpoint every {A} (step skip : nat) (xs : list A) : list A :=
  match xs with
  | [] => []
  | x :: xs' =>
      match skip with
      | O => x :: every step (step - 1) xs'
      | S skip' => every step skip' xs'
      end
  end.

Definition slice_step {A} (step : Z) (xs : list A) : result (list A) :=
  if step =? 0 then Raise ValueError
  else if step <? 0 then Ret (firstn 1 xs)
  else Ret (every (Z.to_nat step) 0 xs).

(** [a[0::step, 0::step]]. *)
Definition subsample (step : Z) (a : array) : result array :=
  rows <- slice_step step a ;;
  map_result (slice_step step) rows.

(** [topofilesubsample(inputfile, outputfile, sampleinteger, topotypein,
    topotypeout, nodata_value_in)]. *)
Definition topofilesubsample (fuel : nat) (inputfile outputfile : string)
    (sampleinteger : Z) (topotypein topotypeout : Z) (nodata_value_in : pyval)
    (fs : filesystem) : filesystem * partial unit :=
  then_write fs
    (g <~ topofile2griddata fuel fs inputfile topotypein ;;
     nodata <~ nodata_or_header fuel fs inputfile topotypein nodata_value_in ;;
     let '(X, Y, Zg) := g in
     sub <~ lift (Xsub <- subsample sampleinteger X ;;
                  Ysub <- subsample sampleinteger Y ;;
                  Zsub <- subsample sampleinteger Zg ;;
                  Ret (Xsub, Ysub, Zsub)) ;;
     Some (Ret (sub, nodata)))
    (fun '(Xsub, Ysub, Zsub, nodata) =>
       griddata2topofile Xsub Ysub Zsub outputfile topotypeout nodata nodata fs).

(** The value of one cell of [merge_topofiles]: the primary grid inside its
    box unless it holds the nodata value there, the secondary grid
    otherwise. *)
Definition merge_cell (X1 Y1 Z1 X2 Y2 Z2 : array) (xl1 xu1 yl1 yu1 : pyfloat)
    (nodata_valuein : pyval) (x y : pyfloat) : result pyfloat :=
  if ((xl1 <=? x) && (x <=? xu1) && ((yl1 <=? y) && (y <=? yu1)))%F then
    z <- (zs <- griddatafindz [(x, y)] X1 Y1 Z1 ;; index zs 0) ;;
    nodata <- as_number nodata_valuein ;;
    if (fabs (z - nodata) <? Fin 1)%F
    then zs <- griddatafindz [(x, y)] X2 Y2 Z2 ;; index zs 0
    else Ret z
  else zs <- griddatafindz [(x, y)] X2 Y2 Z2 ;; index zs 0.

(** [merge_topofiles(X, Y, inputfile1, inputfile2, outputfile, topotypein1,
    topotypein2, topotypeout, nodata_valuein)]; [topotypeout] is [0] for
    the default [None]. *)
Definition merge_topofiles (fuel : nat) (X Y : array)
    (inputfile1 inputfile2 outputfile : string)
    (topotypein1 topotypein2 topotypeout : Z) (nodata_valuein : pyval)
    (fs : filesystem) : filesystem * partial unit :=
  then_write fs
    (g1 <~ topofile2griddata fuel fs inputfile1 topotypein1 ;;
     g2 <~ topofile2griddata fuel fs inputfile2 topotypein2 ;;
     let '(X1, Y1, Z1) := g1 in
     let '(X2, Y2, Z2) := g2 in
     corners <~ lift (xl1 <- index2 X1 0 0 ;; xu1 <- index2_last X1 ;;
                      yl1 <- index2_last Y1 ;; yu1 <- index2 Y1 0 0 ;;
                      Ret (xl1, xu1, yl1, yu1)) ;;
     let '(xl1, xu1, yl1, yu1) := corners in
     nodata <~ nodata_or_header fuel fs inputfile1 topotypein1 nodata_valuein ;;
     let nrows := List.length X in
     let ncols := match X with r :: _ => List.length r | [] => O end in
     Zg <~ lift (map_result (fun i =>
                   map_result (fun j =>
                     x <- index2 X i j ;;
                     y <- index2 Y i j ;;
                     merge_cell X1 Y1 Z1 X2 Y2 Z2 xl1 xu1 yl1 yu1 nodata x y)
                     (seq 0 ncols))
                   (seq 0 nrows)) ;;
     Some (Ret (Zg, nodata)))
    (fun '(Zg, nodata) =>
       griddata2topofile X Y Zg outputfile
         (if topotypeout =? 0 then topotypein1 else topotypeout)
         nodata nodata fs).

End Functions.

End Topotools.

(** ** [python/pyclaw/io/ascii.py] *)

Module AsciiIO.

Import Str Fmt.

(** Modelled from the spec: [pyclaw.solution.Dimension] is not in the source
    tree.  A dimension of a patch has a size [n], a lower bound and a
    spacing; the code builds it from a name, the two bounds and [n], and
    reads [name], [n], [lower] and [d]. *)
Record Dimension : Type := MkDimension {
  dim_name : string;
  dim_lower : pyfloat;
  dim_upper : pyfloat;
  dim_n : Z
}.

Definition dim_d (dim : Dimension) : pyfloat :=
  ((dim_upper dim - dim_lower dim) / of_Z (dim_n dim))%F.

(** Modelled from the spec: [pyclaw.solution.Grid] is not in the source
    tree.  A patch has a grid number, a level, its dimensions, the time and
    the number of equations of its frame, and the dense arrays [q] of shape
    [(dims..., meqn)] and [aux] of shape [(dims..., maux)]; an array maps an
    index tuple to a number. *)
Record Grid : Type := MkGrid {
  gridno : Z;
  level : Z;
  dimensions : list Dimension;
  grid_t : pyfloat;
  grid_meqn : Z;
  grid_maux : Z;
  grid_q : gmap (list nat) pyfloat;
  grid_aux : gmap (list nat) pyfloat
}.

Definition grid_ndim (grid : Grid) : Z := Z.of_nat (List.length (dimensions grid)).

(** Modelled from the spec: [pyclaw.solution.Solution] is not in the source
    tree.  A frame is the sequence of its patches in file order; its time,
    [meqn], [maux] and [ndim] are those of its patches, which share them. *)
Definition Solution : Type := list Grid.

Definition solution_attr {A} (f : Grid -> A) (solution : Solution) : result A :=
  grid <- index solution 0 ;; Ret (f grid).

(** [a[idx]] on a dense array. *)
Definition array_get (a : gmap (list nat) pyfloat) (idx : list nat)
    : result pyfloat :=
  match a !! idx with
  | Some v => Ret v
  | None => Raise IndexError
  end.

(** [str(frame).zfill(4)]. *)
Definition zfill4 (frame : Z) : string :=
  let s := str_int frame in
  if frame <? 0
  then "-" +:+ replicate (4 - String.length s) "0"%char
           +:+ fixed_digits (ndigits (Z.abs frame)) (Z.abs frame)
  else replicate (4 - String.length s) "0"%char +:+ s.

Fixpoint last_char (s : string) : option ascii :=
  match s with
  | EmptyString => None
  | String c EmptyString => Some c
  | String _ s' => last_char s'
  end.

(** [os.path.join(path, name)] for a relative [name]. *)
Definition path_join (path name : string) : string :=
  match last_char path with
  | None => name
  | Some c => if Ascii.eqb c "/" then path +:+ name else path +:+ "/" +:+ name
  end.

(** A step of a writer: it changes the file system, or raises. *)
Definition step : Type := filesystem -> filesystem * result unit.

Definition emit (path : string) (text : result string) : step :=
  fun fs =>
    match text with
    | Ret s => (write path s fs, Ret tt)
    | Raise e => (fs, Raise e)
    end.

Definition create (path : string) : step := fun fs => (open_w path fs, Ret tt).

Definition fail_with (e : exn) : step := fun fs => (fs, Raise e).

Fixpoint run_steps (steps : list step) (fs : filesystem)
    : filesystem * result unit :=
  match steps with
  | [] => (fs, Ret tt)
  | s :: steps' =>
      match s fs with
      | (fs', Ret _) => run_steps steps' fs'
      | (fs', Raise e) => (fs', Raise e)
      end
  end.

Definition nl : string := String newline EmptyString.

Definition range (n : Z) : list nat := seq 0 (Z.to_nat n).

(** The sub-header of a patch: the seven kinds of labelled lines. *)
Definition patch_header (file : string) (grid : Grid) : list step :=
  ([ emit file (Ret (fmt_i 5 (gridno grid) +:+ "                  grid_number" +:+ nl));
     emit file (Ret (fmt_i 5 (level grid) +:+ "                  AMR_level" +:+ nl)) ]
   ++ List.map (fun dim =>
        emit file (Ret (fmt_i 5 (dim_n dim) +:+ "                  m"
                        +:+ dim_name dim +:+ nl))) (dimensions grid)
   ++ List.map (fun dim =>
        emit file (Ret (fmt_e 18 8 (dim_lower dim) +:+ "     "
                        +:+ dim_name dim +:+ "low" +:+ nl))) (dimensions grid)
   ++ List.map (fun dim =>
        emit file (Ret (fmt_e 18 8 (dim_d dim) +:+ "     d"
                        +:+ dim_name dim +:+ nl))) (dimensions grid)
   ++ [ emit file (Ret nl) ])%list.

(** One line of a dense dump: the [count] components of a cell. *)
Definition cell_line (file : string) (a : gmap (list nat) pyfloat)
    (cell : list nat) (count : Z) : list step :=
  (List.map (fun m =>
     emit file (v <- array_get a (cell ++ [m])%list ;; Ret (fmt_e 16 8 v)))
     (range count)
   ++ [ emit file (Ret nl) ])%list.

(** [dims[i].n]. *)
Definition dim_size (grid : Grid) (i : nat) : result Z :=
  dim <- index (dimensions grid) i ;; Ret (dim_n dim).

(** A step whose steps depend on a value that may raise. *)
Definition with_value {A} (v : result A) (k : A -> list step) : step :=
  fun fs =>
    match v with
    | Ret a => run_steps (k a) fs
    | Raise e => (fs, Raise e)
    end.

(** The dump of [q] of a patch into the primary file. *)
Definition q_dump (file : string) (meqn : Z) (grid : Grid) : list step :=
  let q := grid_q grid in
  if grid_ndim grid =? 1 then
    [ with_value (dim_size grid 0) (fun n0 =>
        flat_map (fun k => cell_line file q [k] meqn) (range n0)) ]
  else if grid_ndim grid =? 2 then
    [ with_value (dim_size grid 1) (fun n1 =>
        flat_map (fun j =>
          [ with_value (dim_size grid 0) (fun n0 =>
              flat_map (fun k => cell_line file q [k; j] meqn) (range n0));
            emit file (Ret nl) ])
          (range n1)) ]
  else if grid_ndim grid =? 3 then
    [ with_value (dim_size grid 2) (fun n2 =>
        flat_map (fun l =>
          [ with_value (dim_size grid 1) (fun n1 =>
              flat_map (fun j =>
                [ with_value (dim_size grid 0) (fun n0 =>
                    flat_map (fun k => cell_line file q [k; j; l] meqn)
                      (range n0)) ])
                (range n1));
            emit file (Ret nl) ])
          (range n2));
      emit file (Ret nl) ]
  else [ fail_with (Exception "Dimension Exception in writing fort file.") ].

(** The dump of [aux] of a patch into the auxiliary file.  In one dimension
    [range] is given the dimension itself, not its size; in two dimensions
    the inner loop asks the patch for [dimension], which it does not have. *)
Definition aux_dump (file : string) (grid : Grid) : list step :=
  let aux := grid_aux grid in
  if grid_ndim grid =? 1 then
    [ with_value (index (dimensions grid) 0) (fun _ => [ fail_with TypeError ]) ]
  else if grid_ndim grid =? 2 then
    [ with_value (dim_size grid 1) (fun n1 =>
        flat_map (fun j =>
          [ fail_with (AttributeError "Grid" "dimension");
            emit file (Ret nl) ])
          (range n1)) ]
  else if grid_ndim grid =? 3 then
    [ with_value (dim_size grid 2) (fun n2 =>
        flat_map (fun l =>
          [ with_value (dim_size grid 1) (fun n1 =>
              flat_map (fun j =>
                [ with_value (dim_size grid 0) (fun n0 =>
                    flat_map (fun k =>
                      cell_line file aux [k; j; l] (grid_maux grid))
                      (range n0));
                  emit file (Ret nl) ])
                (range n1));
            emit file (Ret nl) ])
          (range n2)) ]
  else [].

(** [write_ascii(solution, frame, path, file_prefix, write_aux)].  The
    auxiliary file is opened when the frame has [maux > 0]; a patch with
    [maux > 0] in a frame without finds the name [aux_file] unbound. *)
Definition write_ascii (solution : Solution) (frame : Z) (path : string)
    (file_prefix : string) (write_aux : bool) : step :=
  let t_name := path_join path (file_prefix +:+ ".t" +:+ zfill4 frame) in
  let q_name := path_join path ("fort.q" +:+ zfill4 frame) in
  let a_name := path_join path ("fort.a" +:+ zfill4 frame) in
  run_steps
    [ create t_name;
      emit t_name (t <- solution_attr grid_t solution ;;
                   Ret (fmt_e 18 8 t +:+ "     time" +:+ nl));
      emit t_name (meqn <- solution_attr grid_meqn solution ;;
                   Ret (fmt_i 5 meqn +:+ "                  meqn" +:+ nl));
      emit t_name (Ret (fmt_i 5 (Z.of_nat (List.length solution))
                        +:+ "                  ngrids" +:+ nl));
      emit t_name (maux <- solution_attr grid_maux solution ;;
                   Ret (fmt_i 5 maux +:+ "                  maux" +:+ nl));
      emit t_name (ndim <- solution_attr grid_ndim solution ;;
                   Ret (fmt_i 5 ndim +:+ "                  ndim" +:+ nl));
      create q_name;
      with_value (solution_attr grid_maux solution) (fun maux =>
        let aux_open := (0 <? maux) && write_aux in
        (if aux_open then [ create a_name ] else [])
        ++ flat_map (fun grid =>
             patch_header q_name grid
             ++ [ with_value (solution_attr grid_meqn solution) (fun meqn =>
                    q_dump q_name meqn grid) ]
             ++ (if (0 <? grid_maux grid) && write_aux
                 then if aux_open
                      then patch_header a_name grid ++ aux_dump a_name grid
                      else [ fail_with (NameError "aux_file") ]
                 else []))
             solution)%list ].

(** Modelled from the spec: [pyclaw.util.read_data_line] is not in the
    source tree.  A header line is a numeric value followed by a label; the
    value is converted with [int] or [float]. *)
Definition read_data_line {A} (conv : string -> result A) (f : string)
    : result (A * string) :=
  let (line, rest) := readline f in
  tok <- index (split line) 0 ;;
  v <- conv tok ;;
  Ret (v, rest).

Fixpoint read_many {A} (rd : string -> result (A * string)) (k : nat)
    (f : string) : result (list A * string) :=
  match k with
  | O => Ret ([], f)
  | S k' =>
      r <- rd f ;;
      rs <- read_many rd k' (snd r) ;;
      Ret (fst r :: fst rs, snd rs)
  end.

(** [for x in xs: body] when the body has a [while] loop. *)
Fixpoint pfor {A S} (xs : list A) (body : A -> S -> partial S) (s : S)
    : partial S :=
  match xs with
  | [] => Some (Ret s)
  | x :: xs' => s' <~ body x s ;; pfor xs' body s'
  end.

(** The scalar header of a frame. *)
Record FrameHeader : Type := MkFrameHeader {
  fh_t : pyfloat;
  fh_meqn : Z;
  fh_ngrids : Z;
  fh_maux : Z;
  fh_ndim : Z
}.

(** [read_ascii_t(frame, path, file_prefix)].  The handler of the errors
    other than [IOError] names [t_fname], which the function does not bind. *)
Definition read_ascii_t (fs : filesystem) (frame : Z) (path : string)
    (file_prefix : string) : result FrameHeader :=
  let t_name := path_join path (file_prefix +:+ ".t") +:+ zfill4 frame in
  f <- open_r fs t_name ;;
  match
    (r1 <- read_data_line py_float f ;;
     r2 <- read_data_line py_int (snd r1) ;;
     r3 <- read_data_line py_int (snd r2) ;;
     r4 <- read_data_line py_int (snd r3) ;;
     r5 <- read_data_line py_int (snd r4) ;;
     Ret (MkFrameHeader (fst r1) (fst r2) (fst r3) (fst r4) (fst r5)))
  with
  | Ret h => Ret h
  | Raise IOError => Raise IOError
  | Raise _ => Raise (NameError "t_fname")
  end.

(** [l = []; while len(l) < count: l = l + f.readline().split()]. *)
Definition fill_tokens (fuel : nat) (count : Z) (f : string)
    : partial (list string * string) :=
  while fuel (fun s => Z.of_nat (List.length (fst s)) <? count)
    (fun s => let (line, rest) := readline (snd s) in
              Ret ((fst s ++ split line)%list, rest))
    ([], f).

(** The [count] components of one cell, stored into the array at [cell]. *)
Definition read_cell (fuel : nat) (count : Z) (cell : list nat)
    (st : gmap (list nat) pyfloat * string)
    : partial (gmap (list nat) pyfloat * string) :=
  r <~ fill_tokens fuel count (snd st) ;;
  a <~ lift (for_each (range count) (fun m a =>
               tok <- index (fst r) m ;;
               v <- py_float tok ;;
               Ret (<[(cell ++ [m])%list := v]> a)) (fst st)) ;;
  Some (Ret (a, snd r)).

(** Skip one line. *)
Definition skip_line (st : gmap (list nat) pyfloat * string)
    : gmap (list nat) pyfloat * string :=
  (fst st, snd (readline (snd st))).

(** The data block of [q] of a patch. *)
Definition read_q (fuel : nat) (grid : Grid) (f : string)
    : partial (gmap (list nat) pyfloat * string) :=
  let meqn := grid_meqn grid in
  if grid_ndim grid =? 1 then
    n0 <~ lift (dim_size grid 0) ;;
    pfor (range n0) (fun i => read_cell fuel meqn [i]) (grid_q grid, f)
  else if grid_ndim grid =? 2 then
    n1 <~ lift (dim_size grid 1) ;;
    pfor (range n1) (fun j st =>
      n0 <~ lift (dim_size grid 0) ;;
      st' <~ pfor (range n0) (fun i => read_cell fuel meqn [i; j]) st ;;
      Some (Ret (skip_line st')))
      (grid_q grid, f)
  else if grid_ndim grid =? 3 then
    Some (Raise (NotImplementedError "3d still does not work!"))
  else Some (Raise (Exception "Read only supported up to 3d.")).

(** The index tuples of an array of the given shape. *)
Fixpoint indices (shape : list Z) : list (list nat) :=
  match shape with
  | [] => [[]]
  | n :: shape' =>
      flat_map (fun i => List.map (cons i) (indices shape')) (range n)
  end.

(** [np.zeros(shape)]. *)
Definition zeros (shape : list Z) : gmap (list nat) pyfloat :=
  list_to_map (List.map (fun idx => (idx, Fin 0)) (indices shape)).

(** The state of the patch loop: the unread text, the frame and
    [grid_no_inds]. *)
Record rstate : Type := RState {
  r_fid : string;
  r_solution : Solution;
  r_inds : gmap Z nat
}.

(** The sub-header of a patch in the primary file: the grid number, the
    level, the dimensions, and the text after the blank line. *)
Definition patch_subheader (h : FrameHeader) (f : string)
    : result (Z * Z * list Dimension * string) :=
  r1 <- read_data_line py_int f ;;
  r2 <- read_data_line py_int (snd r1) ;;
  _ <- (if fh_ndim h <? 0 then Raise ValueError else Ret tt) ;;
  let ndim := Z.to_nat (fh_ndim h) in
  n <- read_many (read_data_line py_int) ndim (snd r2) ;;
  lower <- read_many (read_data_line py_float) ndim (snd n) ;;
  d <- read_many (read_data_line py_float) ndim (snd lower) ;;
  let f' := snd (readline (snd d)) in
  dimensions <- map_result (fun i =>
      name <- index ["x"; "y"; "z"] i ;;
      ni <- index (fst n) i ;;
      li <- index (fst lower) i ;;
      di <- index (fst d) i ;;
      Ret (MkDimension name li (li + of_Z ni * di)%F ni)) (seq 0 ndim) ;;
  Ret (fst r1, fst r2, dimensions, f').

(** The patch before its data is read: [grid.t], [grid.meqn],
    [grid.zeros_aux(maux)] when [maux > 0], [grid.empty_q()]. *)
Definition new_grid (h : FrameHeader) (dimensions : list Dimension) : Grid :=
  MkGrid 0 0 dimensions (fh_t h) (fh_meqn h)
    (if 0 <? fh_maux h then fh_maux h else 0) ∅
    (if 0 <? fh_maux h
     then zeros (List.map dim_n dimensions ++ [fh_maux h])%list else ∅).

(** The body of [for m in range(ngrids)]. *)
Definition read_patch (fuel : nat) (h : FrameHeader) (st : rstate)
    : partial rstate :=
  hdr <~ lift (patch_subheader h (r_fid st)) ;;
  let '(gridno, level, dimensions, f) := hdr in
  let grid0 := new_grid h dimensions in
  r <~ read_q fuel grid0 f ;;
  let grid :=
    MkGrid gridno level dimensions (grid_t grid0) (grid_meqn grid0)
      (grid_maux grid0) (fst r) (grid_aux grid0) in
  let solution := (r_solution st ++ [grid])%list in
  Some (Ret (RState (snd r) solution
               (<[gridno := (List.length solution - 1)%nat]> (r_inds st)))).

(** The data block of [aux] of a patch. *)
Definition read_aux_data (fuel : nat) (grid : Grid) (f : string)
    : partial (gmap (list nat) pyfloat * string) :=
  let maux := grid_maux grid in
  if grid_ndim grid =? 1 then
    n0 <~ lift (dim_size grid 0) ;;
    pfor (range n0) (fun i => read_cell fuel maux [i]) (grid_aux grid, f)
  else if grid_ndim grid =? 2 then
    n1 <~ lift (dim_size grid 1) ;;
    pfor (range n1) (fun j st =>
      n0 <~ lift (dim_size grid 0) ;;
      st' <~ pfor (range n0) (fun i => read_cell fuel maux [i; j]) st ;;
      Some (Ret (skip_line st')))
      (grid_aux grid, f)
  else if grid_ndim grid =? 3 then
    n2 <~ lift (dim_size grid 2) ;;
    pfor (range n2) (fun k st =>
      n1 <~ lift (dim_size grid 1) ;;
      st' <~ pfor (range n1) (fun j st1 =>
        n0 <~ lift (dim_size grid 0) ;;
        st2 <~ pfor (range n0) (fun i => read_cell fuel maux [i; j; k]) st1 ;;
        Some (Ret (skip_line st2))) st ;;
      Some (Ret (skip_line st')))
      (grid_aux grid, f)
  else Some (Raise (Exception "Read aux only up to 3d is supported.")).

(** A check of the auxiliary sub-header: [IOError] when it fails. *)
Definition check (b : bool) : result unit :=
  if b then Ret tt else Raise IOError.

(** The body of [for n in range(len(solution.grids))] of the auxiliary
    reader. *)
Definition read_aux_patch (fuel : nat) (inds : gmap Z nat)
    (st : string * Solution) : partial (string * Solution) :=
  let (f, solution) := st in
  hdr <~ lift (
    r1 <- read_data_line py_int f ;;
    m <- match inds !! fst r1 with Some m => Ret m | None => Raise KeyError end ;;
    grid <- index solution m ;;
    _ <- check (gridno grid =? fst r1) ;;
    r2 <- read_data_line py_int (snd r1) ;;
    _ <- check (level grid =? fst r2) ;;
    f3 <- for_each (dimensions grid) (fun dim f' =>
            r <- read_data_line py_int f' ;;
            _ <- (if dim_n dim =? fst r then Ret tt else Raise TypeError) ;;
            Ret (snd r)) (snd r2) ;;
    f4 <- for_each (dimensions grid) (fun dim f' =>
            r <- read_data_line py_float f' ;;
            _ <- check (fabs (dim_lower dim - fst r) <? Fin (1 # 10000))%F ;;
            Ret (snd r)) f3 ;;
    f5 <- for_each (dimensions grid) (fun dim f' =>
            r <- read_data_line py_float f' ;;
            _ <- check (fabs (dim_d dim - fst r) <? Fin (1 # 10000))%F ;;
            Ret (snd r)) f4 ;;
    Ret (m, grid, snd (readline f5))) ;;
  let '(m, grid, f6) := hdr in
  r <~ read_aux_data fuel grid f6 ;;
  let grid' :=
    MkGrid (gridno grid) (level grid) (dimensions grid) (grid_t grid)
      (grid_meqn grid) (grid_maux grid) (grid_q grid) (fst r) in
  Some (Ret (snd r, <[m := grid']> solution)).

(** Every exception of the auxiliary reader is replaced by [IOError]. *)
Definition as_ioerror {A} (m : partial A) : partial A :=
  match m with
  | Some (Raise _) => Some (Raise IOError)
  | _ => m
  end.

(** [for m in range(ngrids)]: the state when the loop ends or stops. *)
Fixpoint read_patches (fuel : nat) (h : FrameHeader) (k : nat) (st : rstate)
    : rstate * partial unit :=
  match k with
  | O => (st, Some (Ret tt))
  | S k' =>
      match read_patch fuel h st with
      | Some (Ret st') => read_patches fuel h k' st'
      | Some (Raise e) => (st, Some (Raise e))
      | None => (st, None)
      end
  end.

(** The loop of the auxiliary reader.  When a patch fails, the cells of its
    [aux] that were stored before the failure are not kept here. *)
Fixpoint read_aux_patches (fuel : nat) (inds : gmap Z nat) (k : nat)
    (st : string * Solution) : Solution * partial unit :=
  match k with
  | O => (snd st, Some (Ret tt))
  | S k' =>
      match as_ioerror (read_aux_patch fuel inds st) with
      | Some (Ret st') => read_aux_patches fuel inds k' st'
      | Some (Raise e) => (snd st, Some (Raise e))
      | None => (snd st, None)
      end
  end.

(** [read_ascii(solution, frame, path, file_prefix, read_aux)]: the frame
    that [solution] holds afterwards, and the outcome. *)
Definition read_ascii (fuel : nat) (fs : filesystem) (solution : Solution)
    (frame : Z) (path : string) (file_prefix : string) (read_aux : bool)
    : Solution * partial unit :=
  if frame <? 0 then (solution, Some (Raise IOError))
  else
    let q_fname := path_join path (file_prefix +:+ ".q") +:+ zfill4 frame in
    match read_ascii_t fs frame path file_prefix with
    | Raise e => (solution, Some (Raise e))
    | Ret h =>
        match open_r fs q_fname with
        | Raise e => (solution, Some (Raise e))
        | Ret f =>
            match read_patches fuel h (Z.to_nat (fh_ngrids h))
                    (RState f solution ∅) with
            | (st, None) => (r_solution st, None)
            | (st, Some (Raise e)) => (r_solution st, Some (Raise e))
            | (st, Some (Ret _)) =>
                let solution := r_solution st in
                match solution_attr grid_maux solution with
                | Raise e => (solution, Some (Raise e))
                | Ret maux0 =>
                    if (0 <? maux0) && read_aux then
                      let fname1 :=
                        path_join path (file_prefix +:+ ".a") +:+ zfill4 frame in
                      let fname2 := path_join path (file_prefix +:+ ".a") in
                      match
                        match fs !! fname1 with
                        | Some text => Some text
                        | None => fs !! fname2
                        end
                      with
                      | None => (solution, Some (Ret tt))
                      | Some text =>
                          read_aux_patches fuel (r_inds st)
                            (List.length solution) (text, solution)
                      end
                    else (solution, Some (Ret tt))
                end
            end
        end
    end.

End AsciiIO.

(** ** Vocabulary of the properties *)

Module Spec.

Import Topotools.

(** A call left the file system as it was and did not return: it raised, or
    it is still running. *)
Definition no_output (fs : filesystem) (r : filesystem * partial unit) : Prop :=
  fst r = fs /\ (snd r = None \/ exists e, snd r = Some (Raise e)).

(** The value that a computation returns, or a default. *)
Definition returned {A} (d : A) (m : partial A) : A :=
  match m with
  | Some (Ret a) => a
  | _ => d
  end.

Definition returned_of {A} (d : A) (m : result A) : A :=
  match m with
  | Ret a => a
  | Raise _ => d
  end.

(** Scenario A: the grid of a header [ncols=3, nrows=2, xll=0, yll=0,
    cellsize=1], as cell centres, row 0 north. *)
Definition XA : array :=
  [ [Fin (1 # 2); Fin (3 # 2); Fin (5 # 2)];
    [Fin (1 # 2); Fin (3 # 2); Fin (5 # 2)] ].
Definition YA : array :=
  [ [Fin (3 # 2); Fin (3 # 2); Fin (3 # 2)];
    [Fin (1 # 2); Fin (1 # 2); Fin (1 # 2)] ].
Definition ZA : array :=
  [ [Fin 1; Fin 2; Fin 3]; [Fin 4; Fin 5; Fin 6] ].

(** A file of topotype 1 with the four points of a 2 x 2 grid, as
    [datafile2array] would return it. *)
Definition xyz_points : array :=
  [ [Fin 0; Fin 1; Fin 10]; [Fin 1; Fin 1; Fin 20];
    [Fin 0; Fin 0; Fin 30]; [Fin 1; Fin 0; Fin 40] ].

(** A header that ends after five of the six keys. *)
Definition five_line_header : string :=
  "3 ncols" +:+ AsciiIO.nl +:+ "2 nrows" +:+ AsciiIO.nl +:+ "0.0 xll" +:+ AsciiIO.nl
  +:+ "0.0 yll" +:+ AsciiIO.nl +:+ "1.0 cellsize" +:+ AsciiIO.nl.

Fixpoint all_chars (p : ascii -> bool) (s : string) : bool :=
  match s with
  | EmptyString => true
  | String c s' => p c && all_chars p s'
  end.

(** The text of [%.8e] for a sign, a mantissa and an exponent. *)
Definition sci_text (neg : bool) (m e : Z) : string :=
  (if neg then "-" else "")
  +:+ Fmt.fixed_digits 1 (m / 10 ^ 8) +:+ "." +:+ Fmt.fixed_digits 8 m
  +:+ "e" +:+ Fmt.fmt_exp e.

(** The tolerance of the round trips. *)
Definition tol8 : Q := 1 # 100000000.

Definition is_digit (c : ascii) : bool :=
  match Fmt.digit_val c with
  | Some _ => true
  | None => false
  end.

(** A token: a non-empty text without white space. *)
Definition is_word (s : string) : bool :=
  negb (String.eqb s EmptyString)
  && all_chars (fun c => negb (Str.isspace c)) s.

(** A text that is empty or starts with white space. *)
Definition starts_space (s : string) : bool :=
  match s with
  | EmptyString => true
  | String c _ => Str.isspace c
  end.

Definition no_newline (s : string) : bool :=
  all_chars (fun c => negb (Ascii.eqb c Str.newline)) s.

(** A header line with the value first, and with the key first. *)
Definition value_then_key (kv : string * string) : string :=
  snd kv +:+ " " +:+ fst kv +:+ String Str.newline EmptyString.

Definition key_then_value (kv : string * string) : string :=
  fst kv +:+ " " +:+ snd kv +:+ String Str.newline EmptyString.

(** A header line in one of the two orders. *)
Definition oriented (line : bool * (string * string)) : string :=
  if fst line then value_then_key (snd line) else key_then_value (snd line).

(** The canonical key of a pair. *)
Definition canon (kv : string * string) : string :=
  match keymap (Str.lower (fst kv)) with
  | Some key => key
  | None => EmptyString
  end.

(** The header dictionary after the loop has read the lines of [kvs]. *)
Definition header_after (convertd2e : string -> string)
    (kvs : list (string * string)) (hdr : gmap string pyval)
    : gmap string pyval :=
  fold_left (fun h kv => <[canon kv := VStr (convertd2e (snd kv))]> h) kvs hdr.

(** A pair of a header key, in any case and possibly a synonym, and a
    value that is not a key. *)
Definition header_pair (kv : string * string) : Prop :=
  is_word (fst kv) = true /\ is_word (snd kv) = true
  /\ (exists key, keymap (Str.lower (fst kv)) = Some key)
  /\ keymap (Str.lower (snd kv)) = None.

(** A header of six lines in a mix of cases and synonyms, and the data of
    scenario A after it. *)
Definition six_pairs : list (string * string) :=
  [ ("NCOLS", "3"); ("nrows", "2"); ("xllcorner", "0.0");
    ("YLLCENTER", "0.0"); ("cellsize", "1.0"); ("nodata_value", "-9999") ].

Definition data_A : string :=
  "1" +:+ AsciiIO.nl +:+ "2" +:+ AsciiIO.nl +:+ "3" +:+ AsciiIO.nl
  +:+ "4" +:+ AsciiIO.nl +:+ "5" +:+ AsciiIO.nl +:+ "6" +:+ AsciiIO.nl.

(** An array of [nrows] rows of [ncols] numbers. *)
Definition shape (nrows ncols : nat) (a : array) : Prop :=
  List.length a = nrows /\ Forall (fun r => List.length r = ncols) a.









End Spec.

(** ** The text of a frame, and what a frame keeps when it is read back *)

Module FrameText.

Import Str Fmt Topotools AsciiIO Spec.

(** ** The text of a frame *)

(** The steps append [s] to the open file [file], and return. *)
Definition appends (file : string) (steps : list step) (s : string) : Prop :=
  forall (fs : filesystem) t, fs !! file = Some t ->
    run_steps steps fs = (<[file := t +:+ s]> fs, Ret tt).

(** The number that [float] reads from the text of [%.8e]. *)
Definition reread (x : pyfloat) : pyfloat :=
  returned_of NaN (py_float (str_e 8 x)).

(** The entry of a dense array. *)
Definition entry (q : gmap (list nat) pyfloat) (idx : list nat) : pyfloat :=
  default (Fin 0) (q !! idx).

Definition cell_values (q : gmap (list nat) pyfloat) (cell : list nat)
    (count : Z) : list pyfloat :=
  List.map (fun m => entry q (cell ++ [m])%list) (range count).

(** One line of a dump. *)
Definition line_text (vals : list pyfloat) : string :=
  concat (List.map (fmt_e 16 8) vals) +:+ nl.

Definition patch_header_text (g : Grid) : string :=
  (fmt_i 5 (gridno g) +:+ "                  grid_number" +:+ nl)
  +:+ (fmt_i 5 (level g) +:+ "                  AMR_level" +:+ nl)
  +:+ concat (List.map (fun dim =>
        fmt_i 5 (dim_n dim) +:+ "                  m" +:+ dim_name dim +:+ nl)
        (dimensions g))
  +:+ concat (List.map (fun dim =>
        fmt_e 18 8 (dim_lower dim) +:+ "     " +:+ dim_name dim +:+ "low"
        +:+ nl) (dimensions g))
  +:+ concat (List.map (fun dim =>
        fmt_e 18 8 (dim_d dim) +:+ "     d" +:+ dim_name dim +:+ nl)
        (dimensions g))
  +:+ nl.

(** The lines of the cells [key k], for [k] in [ks]. *)
Definition cells_text (q : gmap (list nat) pyfloat) (meqn : Z)
    (key : nat -> list nat) (ks : list nat) : string :=
  concat (List.map (fun k => line_text (cell_values q (key k) meqn)) ks).

Definition data_text (g : Grid) (meqn : Z) : string :=
  match dimensions g with
  | [d0] => cells_text (grid_q g) meqn (fun k => [k]) (range (dim_n d0))
  | [d0; d1] =>
      concat (List.map (fun j =>
        cells_text (grid_q g) meqn (fun k => [k; j]) (range (dim_n d0))
        +:+ nl) (range (dim_n d1)))
  | _ => EmptyString
  end.

Definition patch_text (meqn : Z) (g : Grid) : string :=
  patch_header_text g +:+ data_text g meqn.

(** The primary file of a frame. *)
Definition q_text (solution : Solution) (meqn : Z) : string :=
  concat (List.map (patch_text meqn) solution).

(** The time file of a frame whose first patch is [g]. *)
Definition t_text (g : Grid) (ngrids : nat) : string :=
  (fmt_e 18 8 (grid_t g) +:+ "     time" +:+ nl)
  +:+ (fmt_i 5 (grid_meqn g) +:+ "                  meqn" +:+ nl)
  +:+ (fmt_i 5 (Z.of_nat ngrids) +:+ "                  ngrids" +:+ nl)
  +:+ (fmt_i 5 (grid_maux g) +:+ "                  maux" +:+ nl)
  +:+ (fmt_i 5 (grid_ndim g) +:+ "                  ndim" +:+ nl).

(** The shape of [q] of a patch, and a patch whose [q] has an entry at
    every index of the shape. *)
Definition q_shape (g : Grid) : list Z :=
  (List.map dim_n (dimensions g) ++ [grid_meqn g])%list.

Definition dense (g : Grid) : Prop :=
  forall idx, In idx (indices (q_shape g)) -> is_Some (grid_q g !! idx).

(** The dimension that the reader builds from the lines of [dim]. *)
Definition reread_dim (name : string) (dim : Dimension) : Dimension :=
  MkDimension name (reread (dim_lower dim))
    (reread (dim_lower dim) + of_Z (dim_n dim) * reread (dim_d dim))%F
    (dim_n dim).

Definition reread_dims (dims : list Dimension) : list Dimension :=
  zip_with reread_dim ["x"; "y"; "z"] dims.

(** A number whose [%16.8e] field starts with a blank. *)
Definition fits (v : pyfloat) : Prop :=
  (String.length (str_e 8 v) < 16)%nat.

(** [a'] is [a] with the entries of [q], read back, stored at [keys]. *)
Definition updates (q a a' : gmap (list nat) pyfloat)
    (keys : list (list nat)) : Prop :=
  (forall idx, In idx keys -> a' !! idx = Some (reread (entry q idx)))
  /\ (forall idx, ~ In idx keys -> a' !! idx = a !! idx).

(** The index tuples of the components of the cells [key k]. *)
Definition cell_keys (meqn : Z) (key : nat -> list nat) (ks : list nat)
    : list (list nat) :=
  flat_map (fun k => List.map (fun m => (key k ++ [m])%list) (range meqn)) ks.

(** A patch [g'] that holds what was read back from the dump of [g]: the
    integers are the same, the time and the entries of [q] are the same up
    to [1e-8], and [q] has no other entry. *)
Definition same_patch (g g' : Grid) : Prop :=
  gridno g' = gridno g /\ level g' = level g
  /\ close_to tol8 (grid_t g') (grid_t g)
  /\ grid_meqn g' = grid_meqn g /\ grid_maux g' = grid_maux g
  /\ grid_ndim g' = grid_ndim g
  /\ List.map dim_n (dimensions g') = List.map dim_n (dimensions g)
  /\ (forall idx, In idx (indices (q_shape g)) ->
        exists v v', grid_q g !! idx = Some v /\ grid_q g' !! idx = Some v'
                     /\ close_to tol8 v' v)
  /\ (forall idx, ~ In idx (indices (q_shape g)) -> grid_q g' !! idx = None).

(** A patch of a frame whose first patch is [g0] that the ASCII format can
    hold: it shares the time and the sizes of [g0], it has one or two
    dimensions with at least one cell each and names on one line, [q] is
    dense, and the fields of the components after the first do not touch
    the field before them. *)
Definition writable (g0 g : Grid) : Prop :=
  grid_t g = grid_t g0 /\ grid_meqn g = grid_meqn g0
  /\ grid_maux g = grid_maux g0 /\ grid_ndim g = grid_ndim g0
  /\ (grid_ndim g = 1 \/ grid_ndim g = 2)
  /\ (forall dim, In dim (dimensions g) ->
        0 < dim_n dim /\ no_newline (dim_name dim) = true)
  /\ dense g
  /\ (forall idx, In idx (indices (q_shape g)) ->
        List.last idx 0%nat <> 0%nat -> fits (entry (grid_q g) idx)).

(** Scenario B: one patch of two by two cells with [lower = (0, 0)],
    [delta = (1, 1)], one equation and [q[i, j] = 1 + i + 2 j]. *)
Definition patchB : Grid :=
  MkGrid 1 1
    [ MkDimension "x" (Fin 0) (Fin 2) 2; MkDimension "y" (Fin 0) (Fin 2) 2 ]
    (Fin 0) 1 0
    (list_to_map
       [ ([0; 0; 0]%nat, Fin 1); ([1; 0; 0]%nat, Fin 2);
         ([0; 1; 0]%nat, Fin 3); ([1; 1; 0]%nat, Fin 4) ])
    ∅.

(** A step that leaves the file [p] as it is. *)
Definition keeps (p : string) (st : step) : Prop :=
  forall fs : filesystem, fst (st fs) !! p = fs !! p.

End FrameText.

(** ** Further functions of [python/dclaw/topotools.py] *)

Module TopoMore.

Import Str Fmt Topotools AsciiIO Spec.

(** The dictionary of the loop always holds the six keys and no other. *)
Definition six_keys (hdr : gmap string pyval) : Prop :=
  forall key, (In key keylist -> is_Some (hdr !! key))
              /\ (~ In key keylist -> hdr !! key = None).

(** A text that stands for the value [v] in a header line: one token that
    is not a key and that the conversion loop of [topoheaderread] turns
    into [v]. *)
Definition reads_back (convertd2e : string -> string) (text : string)
    (v : pyval) : Prop :=
  is_word text = true /\ keymap (lower text) = None
  /\ convert_text (convertd2e text) = Ret v.

(** A character of the text of an integer. *)
Definition int_char (c : ascii) : bool := is_digit c || Ascii.eqb c "-".

Section MoreFunctions.

(** [iotools.convertd2e] and the text of a float are not part of the source
    tree. *)
Variable convertd2e : string -> string.
Variable repr_float : pyfloat -> string.

(** [esriheaderwrite(topoheader, outputfile, closefile)]: the key comes
    first, in capitals, and [xll], [yll] are written as corners. *)
Definition esriheaderwrite (topoheader : gmap string pyval)
    (outputfile : string) (fs : filesystem) : filesystem * result unit :=
  let fs := open_w outputfile fs in
  write_until outputfile
    [ v <- dict_get topoheader "ncols" ;;
      Ret ("NCOLS " +:+ str_val repr_float v +:+ String newline "");
      v <- dict_get topoheader "nrows" ;;
      Ret ("NROWS " +:+ str_val repr_float v +:+ String newline "");
      v <- dict_get topoheader "xll" ;; x <- to_float v ;;
      Ret ("XLLCORNER " +:+ repr_float x +:+ String newline "");
      v <- dict_get topoheader "yll" ;; x <- to_float v ;;
      Ret ("YLLCORNER " +:+ repr_float x +:+ String newline "");
      v <- dict_get topoheader "cellsize" ;; x <- to_float v ;;
      Ret ("CELLSIZE " +:+ repr_float x +:+ String newline "");
      v <- dict_get topoheader "nodata_value" ;;
      Ret ("NODATA_VALUE " +:+ str_val repr_float v +:+ String newline "") ]
    fs.






End MoreFunctions.

(** The lines of a header with the value first, and with the key first in
    the spelling of [esriheaderwrite]. *)
Definition value_first (texts : list string) : list (bool * (string * string)) :=
  List.map (pair true) (combine keylist texts).

Definition esri_keys : list string :=
  [ "NCOLS"; "NROWS"; "XLLCORNER"; "YLLCORNER"; "CELLSIZE"; "NODATA_VALUE" ].

Definition key_first (texts : list string) : list (bool * (string * string)) :=
  List.map (pair false) (combine esri_keys texts).

(** [griddatasubsample(X, Y, Z, sampleinteger)]. *)
Definition griddatasubsample (X Y Zg : array) (sampleinteger : Z)
    : result (array * array * array) :=
  Xsub <- subsample sampleinteger X ;;
  Ysub <- subsample sampleinteger Y ;;
  Zsub <- subsample sampleinteger Zg ;;
  Ret (Xsub, Ysub, Zsub).

(** [s * n] on a string. *)
Definition repeat_text (s : string) (n : Z) : string :=
  Str.concat (List.repeat s (Z.to_nat n)).

(** Python's [a + b], [a - b] and [a * b] on the values of a header:
    integers stay integers, a float operand gives a float, strings are
    joined or repeated. *)
Definition py_add (a b : pyval) : result pyval :=
  match a, b with
  | VInt m, VInt n => Ret (VInt (m + n))
  | VStr s, VStr t => Ret (VStr (s +:+ t))
  | _, _ => x <- as_number a ;; y <- as_number b ;; Ret (VFloat (x + y)%F)
  end.

Definition py_sub (a b : pyval) : result pyval :=
  match a, b with
  | VInt m, VInt n => Ret (VInt (m - n))
  | _, _ => x <- as_number a ;; y <- as_number b ;; Ret (VFloat (x - y)%F)
  end.

Definition py_mul (a b : pyval) : result pyval :=
  match a, b with
  | VInt m, VInt n => Ret (VInt (m * n))
  | VStr s, VInt n | VInt n, VStr s => Ret (VStr (repeat_text s n))
  | _, _ => x <- as_number a ;; y <- as_number b ;; Ret (VFloat (x * y)%F)
  end.

(** [xll + (mx - 1) * dx]. *)
Definition upper_bound (ll m dx : pyval) : result pyval :=
  a <- py_sub m (VInt 1) ;; b <- py_mul a dx ;; py_add ll b.

(** [topoboundary(infile)]: the list [[xll, xur, yll, yur]].  The line that
    the function prints holds the same four values. *)
Definition topoboundary (convertd2e : string -> string) (fuel : nat)
    (fs : filesystem) (infile : string) : partial (list pyval) :=
  r <~ topoheaderread convertd2e fuel fs infile ;;
  let header := snd r in
  lift (xll <- dict_get header "xll" ;;
        yll <- dict_get header "yll" ;;
        dx <- dict_get header "cellsize" ;;
        mx <- dict_get header "ncols" ;;
        my <- dict_get header "nrows" ;;
        xur <- upper_bound xll mx dx ;;
        yur <- upper_bound yll my dx ;;
        Ret [xll; xur; yll; yur]).

(** The header value [v] is the number that the subscript [r] gives. *)
Definition corner_is (v : pyval) (r : result pyfloat) : Prop :=
  exists a b, as_number v = Ret a /\ r = Ret b /\ same a b.

End TopoMore.

(** * Properties *)

Import Str Fmt Topotools AsciiIO Spec.
Import FrameText.
Import TopoMore.

(** ** The grid writer *)

Section GridWriter.

Variable convertd2e : string -> string.
Variable datafile2array : filesystem -> string -> result array.
Variable repr_float : pyfloat -> string.

(** No scope binds the name [Z] in [griddata2topofile]. *)
Lemma load_Z_unbound X Y Q outputfile topotype nodata_in nodata_out :
  load_name
    [ ("X", OArr X); ("Y", OArr Y); ("Q", OArr Q);
      ("outputfile", OText outputfile); ("topotype", OVal (VInt topotype));
      ("nodata_value_in", OVal nodata_in);
      ("nodata_value_out", OVal nodata_out) ] "Z"
  = Raise (NameError "Z").
Proof. reflexivity. Qed.

Lemma griddata2topofile_raises X Y Q outputfile topotype nodata_in nodata_out fs :
  griddata2topofile repr_float X Y Q outputfile topotype nodata_in nodata_out fs
  = (fs, Raise (NameError "Z")).
Proof. reflexivity. Qed.

(** A transform that ends in [griddata2topofile] leaves the file system as
    it was and does not return. *)
Lemma then_write_unchanged {A} (fs : filesystem) (m : partial A)
    (k : A -> filesystem * result unit) :
  (forall a, k a = (fs, Raise (NameError "Z"))) ->
  fst (then_write fs m k) = fs /\
  (snd (then_write fs m k) = None \/
   exists e, snd (then_write fs m k) = Some (Raise e)).
Proof.
  intros Hk. unfold then_write.
  destruct m as [[a | e] |]; simpl.
  - rewrite Hk. simpl. split; [reflexivity | right; eauto].
  - split; [reflexivity | right; eauto].
  - split; [reflexivity | left; reflexivity].
Qed.

Lemma converttopotype_no_output fuel inputfile outputfile tin tout nodata fs :
  no_output fs
    (converttopotype convertd2e datafile2array repr_float fuel inputfile
       outputfile tin tout nodata fs).
Proof.
  apply then_write_unchanged. intros [[[X Y] Zg] nd]. reflexivity.
Qed.

Lemma topofilesubset_full_no_output fuel inputfile outputfile tin tout
    xlow xhi ylow yhi nodata fs :
  no_output fs
    (topofilesubset convertd2e datafile2array repr_float fuel inputfile
       outputfile tin tout xlow xhi ylow yhi nodata false fs).
Proof.
  apply then_write_unchanged. intros [[[X Y] Zg] nd]. reflexivity.
Qed.

Lemma topofilesubsample_no_output fuel inputfile outputfile k tin tout nodata fs :
  no_output fs
    (topofilesubsample convertd2e datafile2array repr_float fuel inputfile
       outputfile k tin tout nodata fs).
Proof.
  apply then_write_unchanged. intros [[[X Y] Zg] nd]. reflexivity.
Qed.

Lemma merge_topofiles_no_output fuel X Y in1 in2 outputfile t1 t2 tout nodata fs :
  no_output fs
    (merge_topofiles convertd2e datafile2array repr_float fuel X Y in1 in2
       outputfile t1 t2 tout nodata fs).
Proof.
  apply then_write_unchanged. intros [Zg nd]. reflexivity.
Qed.

End GridWriter.

(** C10: [griddata2topofile] raises [NameError] for the name [Z] on every
    input, before it opens the output file; the transforms that end in it
    ([converttopotype], [topofilesubset] with [cheap=False],
    [topofilesubsample], [merge_topofiles]) leave the file system as it was
    and do not return. *)
Theorem griddata2topofile_name_error :
  forall (convertd2e : string -> string)
         (datafile2array : filesystem -> string -> result array)
         (repr_float : pyfloat -> string),
    (forall X Y Q outputfile topotype nodata_in nodata_out fs,
        griddata2topofile repr_float X Y Q outputfile topotype nodata_in
          nodata_out fs = (fs, Raise (NameError "Z")))
    /\ (forall fuel inputfile outputfile tin tout nodata fs,
        no_output fs
          (converttopotype convertd2e datafile2array repr_float fuel inputfile
             outputfile tin tout nodata fs))
    /\ (forall fuel inputfile outputfile tin tout xlow xhi ylow yhi nodata fs,
        no_output fs
          (topofilesubset convertd2e datafile2array repr_float fuel inputfile
             outputfile tin tout xlow xhi ylow yhi nodata false fs))
    /\ (forall fuel inputfile outputfile k tin tout nodata fs,
        no_output fs
          (topofilesubsample convertd2e datafile2array repr_float fuel
             inputfile outputfile k tin tout nodata fs))
    /\ (forall fuel X Y in1 in2 outputfile t1 t2 tout nodata fs,
        no_output fs
          (merge_topofiles convertd2e datafile2array repr_float fuel X Y in1
             in2 outputfile t1 t2 tout nodata fs)).
Proof.
  intros convertd2e datafile2array repr_float.
  split; [| split; [| split; [| split]]]; intros.
  - apply griddata2topofile_raises.
  - apply converttopotype_no_output.
  - apply topofilesubset_full_no_output.
  - apply topofilesubsample_no_output.
  - apply merge_topofiles_no_output.
Qed.

(** C1: the round trip of scenario A stops at its first step: the write
    raises [NameError] and creates no file, so the read-back finds no file. *)
Theorem scenario_A_write_raises :
  forall (convertd2e : string -> string)
         (datafile2array : filesystem -> string -> result array)
         (repr_float : pyfloat -> string) (fuel : nat),
    griddata2topofile repr_float XA YA ZA "scenarioA.tt2" 2
      (VInt (-9999)) (VInt (-9999)) ∅
    = (∅, Raise (NameError "Z"))
    /\ topofile2griddata convertd2e datafile2array fuel
         (fst (griddata2topofile repr_float XA YA ZA "scenarioA.tt2" 2
                 (VInt (-9999)) (VInt (-9999)) ∅))
         "scenarioA.tt2" 2
       = Some (Raise IOError).
Proof.
  intros. split; reflexivity.
Qed.

(** C3: the write path never derives a header from the cell centres: the
    statement that computes [nrows] raises [NameError], and the file that
    was to receive [xll] and [yll] is as it was. *)
Theorem write_path_header_never_derived :
  forall (repr_float : pyfloat -> string) X Y Q outputfile topotype
         nodata_in nodata_out (fs : filesystem),
    grid_geometry
      [ ("X", OArr X); ("Y", OArr Y); ("Q", OArr Q);
        ("outputfile", OText outputfile); ("topotype", OVal (VInt topotype));
        ("nodata_value_in", OVal nodata_in);
        ("nodata_value_out", OVal nodata_out) ] nodata_out
    = Raise (NameError "Z")
    /\ fst (griddata2topofile repr_float X Y Q outputfile topotype nodata_in
              nodata_out fs) !! outputfile
       = fs !! outputfile.
Proof.
  intros. split; reflexivity.
Qed.

(** ** Files of topotype 1 *)

(** C6: reading a file of topotype 1 raises on every input, and on the four
    points of a 2 x 2 grid the exception is the [AttributeError] of
    [(xdiff < 0).np]. *)
Theorem topofile2griddata_type1_raises :
  forall (convertd2e : string -> string)
         (datafile2array : filesystem -> string -> result array)
         (fuel : nat) (fs : filesystem) (inputfile : string),
    (exists e,
        topofile2griddata convertd2e datafile2array fuel fs inputfile 1
        = Some (Raise e))
    /\ topofile2griddata convertd2e (fun _ _ => Ret xyz_points) fuel fs
         inputfile 1
       = Some (Raise (AttributeError "numpy.ndarray" "np")).
Proof.
  intros. split; [| reflexivity].
  unfold topofile2griddata. simpl.
  destruct (datafile2array fs inputfile) as [a | e]; simpl; [| eauto].
  destruct (col_of a 0) as [x | e]; simpl; eauto.
Qed.

(** ** The header parser *)

Section HeaderParser.

Variable convertd2e : string -> string.

Local Abbreviation cond := (fun st : hstate => 0 <? h_keyleft st).

(** At the end of the file the loop body reads an empty line and changes
    nothing. *)
Lemma header_line_eof st :
  h_fid st = EmptyString -> header_line convertd2e st = Ret st.
Proof.
  destruct st as [fid k hdr]. simpl. intros ->. reflexivity.
Qed.

Lemma header_eof_loops fuel st :
  h_fid st = EmptyString -> 0 < h_keyleft st ->
  while fuel cond (header_line convertd2e) st = None.
Proof.
  intros Hf Hk. induction fuel as [| fuel IH]; simpl.
  - destruct (Z.ltb_spec 0 (h_keyleft st)); [reflexivity | lia].
  - destruct (Z.ltb_spec 0 (h_keyleft st)); [| lia].
    rewrite header_line_eof by assumption. exact IH.
Qed.

Lemma header_steps_loops k : forall st st',
  header_steps convertd2e k st = Some st' ->
  (forall fuel, while fuel cond (header_line convertd2e) st' = None) ->
  forall fuel, while fuel cond (header_line convertd2e) st = None.
Proof.
  induction k as [| k IH]; intros st st' Hs Hl fuel; simpl in Hs.
  - inversion Hs; subst. apply Hl.
  - destruct (0 <? h_keyleft st) eqn:Hc; [| discriminate].
    destruct (header_line convertd2e st) as [st1 | e] eqn:Hb; [| discriminate].
    destruct fuel as [| fuel]; simpl; rewrite Hc; [reflexivity |].
    rewrite Hb. eapply IH; eauto.
Qed.

End HeaderParser.

(** C4: when the lines of the file are used up and keys are still missing,
    [topoheaderread] does not report an error: its loop keeps reading empty
    lines, whatever the fuel. *)
Theorem topoheaderread_exhausted_never_returns :
  forall (convertd2e : string -> string) (fs : filesystem)
         (inputfile text : string) (k : nat) (st : hstate),
    fs !! inputfile = Some text ->
    header_steps convertd2e k (header_start text) = Some st ->
    h_fid st = EmptyString ->
    0 < h_keyleft st ->
    forall fuel, topoheaderread convertd2e fuel fs inputfile = None.
Proof.
  intros convertd2e fs inputfile text k st Hfs Hs Hf Hk fuel.
  unfold topoheaderread, open_r. rewrite Hfs. simpl.
  rewrite (header_steps_loops convertd2e k _ st Hs); [reflexivity |].
  intros fuel'. apply header_eof_loops; assumption.
Qed.

Lemma topoheaderread_exhausted_witness :
  (<["header.txt" := five_line_header]> ∅ : filesystem) !! "header.txt"
  = Some five_line_header
  /\ (exists st,
        header_steps (fun s => s) 5 (header_start five_line_header) = Some st
        /\ h_fid st = EmptyString /\ 0 < h_keyleft st)
  /\ topoheaderread (fun s => s) 1000
       (<["header.txt" := five_line_header]> ∅) "header.txt" = None.
Proof.
  split; [reflexivity |].
  split.
  - eexists. split; [vm_compute; reflexivity |]. split; reflexivity.
  - eapply (topoheaderread_exhausted_never_returns (fun s => s)
              (<["header.txt" := five_line_header]> ∅) "header.txt"
              five_line_header 5).
    + reflexivity.
    + vm_compute. reflexivity.
    + reflexivity.
    + reflexivity.
Defined.

(** ** The frame reader *)





(** ** The point sampler *)

Section Sampler.










Lemma shape_row nr nc a i :
  shape nr nc a -> (i < nr)%nat ->
  exists row, nth_error a i = Some row /\ List.length row = nc.
Proof.
  intros [Hlen Hrows] Hi.
  destruct (nth_error a i) as [row |] eqn:Hrow.
  - exists row. split; [reflexivity |].
    rewrite List.Forall_forall in Hrows. apply Hrows.
    eapply nth_error_In; eauto.
  - apply nth_error_None in Hrow. lia.
Qed.



(** The column [j] of an array has the entries [a[i, j]]. *)
Lemma map_result_index_col (a : array) j : forall col,
  map_result (fun row => index row j) a = Ret col ->
  List.length col = List.length a /\
  forall i, nth_error col i
            = match index2 a i j with Ret v => Some v | Raise _ => None end.
Proof.
  induction a as [| row a IH]; simpl; intros col H.
  - inversion H; subst. split; [reflexivity |]. intros [| i]; reflexivity.
  - destruct (index row j) as [v |] eqn:Hv; simpl in H; [| discriminate].
    destruct (map_result _ a) as [col' |]; simpl in H; [| discriminate].
    inversion H; subst. destruct (IH col' eq_refl) as [Hlen Hnth].
    split; [simpl; f_equal; exact Hlen |].
    intros [| i]; simpl.
    + unfold index2. simpl. rewrite Hv. reflexivity.
    + rewrite Hnth. reflexivity.
Qed.

Lemma col_of_shape nr nc a j :
  shape nr nc a -> (0 < nr)%nat -> (j < nc)%nat ->
  exists col, col_of a j = Ret col /\ List.length col = nr /\
    forall i, nth_error col i
              = match index2 a i j with Ret v => Some v | Raise _ => None end.
Proof.
  intros Hs Hnr Hj.
  assert (Hdef : exists col, map_result (fun row => index row j) a = Ret col).
  { destruct Hs as [_ Hrows]. clear Hnr.
    induction a as [| row a IH]; simpl; [eauto |].
    inversion Hrows; subst.
    unfold index at 1.
    destruct (nth_error row j) as [v |] eqn:Hv.
    - simpl. destruct (IH H2) as [col Hcol]. rewrite Hcol. simpl. eauto.
    - apply nth_error_None in Hv. lia. }
  destruct Hdef as [col Hcol].
  exists col. destruct (map_result_index_col a j col Hcol) as [Hlen Hnth].
  destruct Hs as [Hl _].
  split; [| split; [lia | exact Hnth]].
  unfold col_of. destruct a; [simpl in Hl; lia | exact Hcol].
Qed.
























Lemma map_result_nth {A B} (f : A -> result B) xs : forall ys i x,
  map_result f xs = Ret ys -> nth_error xs i = Some x ->
  exists y, nth_error ys i = Some y /\ f x = Ret y.
Proof.
  induction xs as [| x0 xs IH]; intros ys i x H Hi.
  - destruct i; discriminate.
  - simpl in H.
    destruct (f x0) as [y0 |] eqn:Hy0; cbn [Py.bind] in H; [| discriminate].
    destruct (map_result f xs) as [ys' |]; cbn [Py.bind] in H; [| discriminate].
    inversion H; subst. destruct i as [| i]; simpl in Hi |- *.
    + inversion Hi; subst. eauto.
    + eapply IH; eauto.
Qed.

End Sampler.



(** ** Text: lines and tokens *)

Section Text.

#[local] Arguments Str.isspace : simpl never.

(** Unfold [+:+] on a text that starts with known characters. *)
Ltac unapp :=
  repeat match goal with
    | |- context [EmptyString +:+ ?s] => change (EmptyString +:+ s) with s
    | |- context [String ?c ?a +:+ ?s] =>
        change (String c a +:+ s) with (String c (a +:+ s))
    end.

Lemma append_assoc_s (a b c : string) : (a +:+ b) +:+ c = a +:+ (b +:+ c).
Proof.
  induction a as [| x a IH]; [reflexivity |].
  change (String x ((a +:+ b) +:+ c) = String x (a +:+ (b +:+ c))).
  f_equal. exact IH.
Qed.

Lemma append_nil_r (a : string) : a +:+ EmptyString = a.
Proof.
  induction a as [| x a IH]; [reflexivity |].
  change (String x (a +:+ EmptyString) = String x a). f_equal. exact IH.
Qed.

Lemma length_append (a b : string) :
  String.length (a +:+ b) = (String.length a + String.length b)%nat.
Proof.
  induction a as [| x a IH]; [reflexivity |].
  change (S (String.length (a +:+ b))
          = S (String.length a + String.length b)%nat).
  f_equal. exact IH.
Qed.

Lemma all_chars_append p a b :
  all_chars p (a +:+ b) = all_chars p a && all_chars p b.
Proof.
  induction a as [| x a IH]; [reflexivity |].
  change (p x && all_chars p (a +:+ b) = p x && all_chars p a && all_chars p b).
  rewrite IH. apply andb_assoc.
Qed.

Lemma all_chars_impl (p q : ascii -> bool) s :
  (forall c, p c = true -> q c = true) ->
  all_chars p s = true -> all_chars q s = true.
Proof.
  intros Hpq. induction s as [| c s IH]; simpl; [reflexivity |].
  intros H. apply andb_prop in H. destruct H as [Hc Hs].
  rewrite (Hpq c Hc), (IH Hs). reflexivity.
Qed.

Lemma isspace_newline : isspace newline = true.
Proof. reflexivity. Qed.

Lemma not_space_not_newline c :
  negb (isspace c) = true -> negb (Ascii.eqb c newline) = true.
Proof.
  destruct (Ascii.eqb_spec c newline) as [-> | Hne]; [discriminate | reflexivity].
Qed.

Lemma word_no_newline w : is_word w = true -> no_newline w = true.
Proof.
  unfold is_word, no_newline. intros H. apply andb_prop in H.
  destruct H as [_ H]. eapply all_chars_impl; [| exact H].
  apply not_space_not_newline.
Qed.

(** A line is read up to its newline. *)
Lemma readline_line l r :
  no_newline l = true ->
  readline (l +:+ String newline r) = (l +:+ String newline EmptyString, r).
Proof.
  unfold no_newline. induction l as [| c l IH]; simpl; intros H.
  - reflexivity.
  - apply andb_prop in H. destruct H as [Hc Hl].
    destruct (Ascii.eqb c newline); [discriminate |].
    rewrite (IH Hl). reflexivity.
Qed.

Lemma split_space c s : isspace c = true -> split (String c s) = split s.
Proof. intros H. simpl. rewrite H. reflexivity. Qed.

(** A token that is followed by white space or by nothing is the first
    token. *)
Lemma split_word w : forall s,
  is_word w = true -> starts_space s = true ->
  split (w +:+ s) = w :: split s.
Proof.
  induction w as [| a w IH]; intros s Hw Hs; [discriminate |].
  unfold is_word in Hw. simpl in Hw.
  destruct (isspace a) eqn:Ha; [discriminate |]. simpl in Hw.
  destruct w as [| b w].
  - unapp. simpl. rewrite Ha. destruct s as [| c s]; [reflexivity |].
    simpl in Hs. rewrite Hs. reflexivity.
  - assert (Hw' : is_word (String b w) = true) by exact Hw.
    specialize (IH s Hw' Hs).
    change (split (String a (String b w +:+ s))
            = String a (String b w) :: split s).
    remember (String b w +:+ s) as t eqn:Et.
    change (String b w +:+ s) with (String b (w +:+ s)) in Et.
    simpl. rewrite Ha.
    destruct t as [| c t']; [discriminate |].
    assert (Hc : c = b) by congruence. subst c.
    simpl in Hw. destruct (isspace b) eqn:Hb; [discriminate |].
    rewrite IH. reflexivity.
Qed.

Lemma split_spaces p : forall s,
  all_chars isspace p = true -> split (p +:+ s) = split s.
Proof.
  induction p as [| c p IH]; intros s H; [reflexivity |].
  simpl in H. apply andb_prop in H. destruct H as [Hc Hp].
  change (split (String c (p +:+ s)) = split s).
  rewrite split_space by exact Hc. apply IH. exact Hp.
Qed.

Lemma split_newline : split (String newline EmptyString) = [].
Proof. reflexivity. Qed.

(** The two tokens of a line. *)
Lemma split_two a b :
  is_word a = true -> is_word b = true ->
  split (a +:+ " " +:+ b +:+ String newline EmptyString) = [a; b].
Proof.
  intros Ha Hb.
  rewrite (split_word a) by (exact Ha || reflexivity).
  change (" " +:+ b +:+ String newline EmptyString)
    with (String " "%char (b +:+ String newline EmptyString)).
  rewrite split_space by reflexivity.
  rewrite (split_word b) by (exact Hb || reflexivity).
  reflexivity.
Qed.

Lemma readline_two a b r :
  is_word a = true -> is_word b = true ->
  readline ((a +:+ " " +:+ b +:+ String newline EmptyString) +:+ r)
  = (a +:+ " " +:+ b +:+ String newline EmptyString, r).
Proof.
  intros Ha Hb.
  assert (E : forall t, a +:+ " " +:+ b +:+ t = (a +:+ " " +:+ b) +:+ t).
  { intros t. rewrite append_assoc_s. reflexivity. }
  rewrite append_assoc_s. change ((" " +:+ b +:+ String newline "") +:+ r)
    with (" " +:+ ((b +:+ String newline "") +:+ r)).
  rewrite append_assoc_s. change (String newline "" +:+ r) with (String newline r).
  rewrite (E (String newline r)), (E (String newline "")).
  apply readline_line.
  unfold no_newline. rewrite all_chars_append.
  change (all_chars _ (" " +:+ b)) with
    (all_chars (fun c => negb (Ascii.eqb c newline)) b).
  fold (no_newline a). fold (no_newline b).
  rewrite (word_no_newline a Ha), (word_no_newline b Hb). reflexivity.
Qed.

End Text.

(** ** The order of key and value in a header line *)

Section HeaderOrder.

Variable convertd2e : string -> string.

Local Abbreviation cond := (fun st : hstate => 0 <? h_keyleft st).

(** A header line sets its key to the text of its value, in either order. *)
Lemma header_line_oriented o kv tail keyleft hdr :
  header_pair kv ->
  header_line convertd2e (HState (oriented (o, kv) +:+ tail) keyleft hdr)
  = Ret (HState tail (keyleft - 1)
           (<[canon kv := VStr (convertd2e (snd kv))]> hdr)).
Proof.
  intros (Hk & Hv & [key Hkey] & Hnone).
  unfold header_line, oriented, canon. rewrite Hkey.
  destruct kv as [k v]. simpl fst in *. simpl snd in *.
  destruct o; simpl fst; simpl snd; cbv iota;
    unfold value_then_key, key_then_value; simpl fst; simpl snd; simpl h_fid.
  - rewrite (readline_two v k tail Hv Hk). rewrite (split_two v k Hv Hk).
    simpl. rewrite Hnone, Hkey. reflexivity.
  - rewrite (readline_two k v tail Hk Hv). rewrite (split_two k v Hk Hv).
    simpl. rewrite Hnone, Hkey. reflexivity.
Qed.

Lemma concat_cons_app x xs rest :
  Str.concat (x :: xs) +:+ rest = x +:+ (Str.concat xs +:+ rest).
Proof. simpl. apply append_assoc_s. Qed.

(** With enough fuel the loop reads one line per missing key and stops. *)
Lemma header_loop_done lines : forall fuel keyleft hdr rest,
  Forall header_pair (List.map snd lines) ->
  Z.of_nat (List.length lines) = keyleft ->
  (List.length lines <= fuel)%nat ->
  while fuel cond (header_line convertd2e)
    (HState (Str.concat (List.map oriented lines) +:+ rest) keyleft hdr)
  = Some (Ret (HState rest 0 (header_after convertd2e (List.map snd lines) hdr))).
Proof.
  induction lines as [| [o kv] lines IH]; intros fuel keyleft hdr rest Hp Hk Hf.
  - simpl in Hk. subst keyleft. destruct fuel; reflexivity.
  - inversion Hp as [| ? ? Hkv Hrest]; subst.
    destruct fuel as [| fuel]; [simpl in Hf; lia |].
    simpl List.map. rewrite concat_cons_app.
    simpl while. simpl List.length.
    destruct (Z.ltb_spec 0 (Z.of_nat (S (List.length lines)))); [| lia].
    rewrite header_line_oriented by exact Hkv.
    rewrite IH; [reflexivity | exact Hrest | lia | simpl in Hf; lia].
Qed.

(** Without enough fuel the loop is still running. *)
Lemma header_loop_short lines : forall fuel keyleft hdr rest,
  Forall header_pair (List.map snd lines) ->
  Z.of_nat (List.length lines) = keyleft ->
  (fuel < List.length lines)%nat ->
  while fuel cond (header_line convertd2e)
    (HState (Str.concat (List.map oriented lines) +:+ rest) keyleft hdr)
  = None.
Proof.
  induction lines as [| [o kv] lines IH]; intros fuel keyleft hdr rest Hp Hk Hf.
  - simpl in Hf. lia.
  - inversion Hp as [| ? ? Hkv Hrest]; subst.
    simpl List.map. rewrite concat_cons_app.
    simpl List.length.
    destruct fuel as [| fuel]; simpl while;
      destruct (Z.ltb_spec 0 (Z.of_nat (S (List.length lines)))); try lia;
      [reflexivity |].
    rewrite header_line_oriented by exact Hkv.
    apply IH; [exact Hrest | lia | simpl in Hf; lia].
Qed.

End HeaderOrder.

Lemma keymap_range k key : keymap k = Some key -> In key keylist.
Proof.
  unfold keymap, keymap_items. simpl assoc.
  repeat match goal with
    | |- context [String.eqb k ?s] => destruct (String.eqb k s)
    end;
    intros H; inversion H; simpl; auto 10.
Qed.

Section HeaderAfter.

Variable convertd2e : string -> string.

Lemma header_after_cons kv kvs hdr :
  header_after convertd2e (kv :: kvs) hdr
  = header_after convertd2e kvs (<[canon kv := VStr (convertd2e (snd kv))]> hdr).
Proof. reflexivity. Qed.

Lemma header_after_other kvs : forall hdr key,
  ~ In key (List.map canon kvs) ->
  header_after convertd2e kvs hdr !! key = hdr !! key.
Proof.
  induction kvs as [| kv kvs IH]; intros hdr key Hnot; [reflexivity |].
  simpl in Hnot. rewrite header_after_cons.
  rewrite IH by tauto. apply lookup_insert_ne. tauto.
Qed.

Lemma header_after_lookup kvs : forall hdr kv,
  List.NoDup (List.map canon kvs) -> In kv kvs ->
  header_after convertd2e kvs hdr !! canon kv
  = Some (VStr (convertd2e (snd kv))).
Proof.
  induction kvs as [| kv0 kvs IH]; intros hdr kv Hnd Hin; [contradiction |].
  simpl in Hnd. inversion Hnd as [| ? ? Hnotin Hnd']; subst.
  rewrite header_after_cons.
  destruct Hin as [-> | Hin].
  - rewrite header_after_other by exact Hnotin. apply lookup_insert_eq.
  - apply IH; assumption.
Qed.

End HeaderAfter.

(** The conversion loop turns the text of every key into its number. *)
Lemma convert_keys keys : forall hdr,
  List.NoDup keys ->
  (forall k, In k keys ->
     exists s v, hdr !! k = Some (VStr s) /\ convert_text s = Ret v) ->
  exists hdr',
    for_each keys convert_key hdr = Ret hdr'
    /\ (forall k, ~ In k keys -> hdr' !! k = hdr !! k)
    /\ (forall k s, In k keys -> hdr !! k = Some (VStr s) ->
          exists v, convert_text s = Ret v /\ hdr' !! k = Some v).
Proof.
  induction keys as [| key keys IH]; intros hdr Hnd Hall.
  - exists hdr. split; [reflexivity |]. split; [reflexivity |].
    intros k s [].
  - inversion Hnd as [| ? ? Hnotin Hnd']; subst.
    destruct (Hall key (or_introl eq_refl)) as (s0 & v0 & Hs0 & Hv0).
    assert (Hall' : forall k, In k keys ->
              exists s v, (<[key := v0]> hdr) !! k = Some (VStr s)
                          /\ convert_text s = Ret v).
    { intros k Hk. destruct (Hall k (or_intror Hk)) as (s & v & Hs & Hv).
      exists s, v. split; [| exact Hv].
      rewrite lookup_insert_ne; [exact Hs |]. intros ->. contradiction. }
    destruct (IH (<[key := v0]> hdr) Hnd' Hall') as (hdr' & Hrun & Hout & Hin).
    exists hdr'. simpl for_each. unfold convert_key at 1.
    rewrite Hs0, Hv0. cbn [Py.bind]. split; [exact Hrun |].
    split.
    + intros k Hk. simpl in Hk. rewrite Hout by tauto.
      apply lookup_insert_ne. tauto.
    + intros k s [-> | Hk] Hs.
      * rewrite Hs0 in Hs. inversion Hs; subst s.
        exists v0. split; [exact Hv0 |].
        rewrite Hout by exact Hnotin. apply lookup_insert_eq.
      * destruct (Hin k s Hk) as (v & Hv & Hl).
        { rewrite lookup_insert_ne; [exact Hs |]. intros ->. contradiction. }
        exists v. split; assumption.
Qed.

Lemma keylist_nodup : List.NoDup keylist.
Proof.
  unfold keylist. repeat constructor; simpl; intuition discriminate.
Qed.

(** C5: a header of six lines, each with one key (in any case, possibly a
    synonym) and one value that is not a key, is read to the same result
    whichever of the two orders each line has; six lines of fuel suffice;
    and when the six keys are distinct and the values are numbers, the
    result is the header that maps every key to the number of its line. *)
Theorem topoheaderread_order_independent :
  forall (convertd2e : string -> string) (fs1 fs2 : filesystem)
         (inputfile : string) (lines1 lines2 : list (bool * (string * string)))
         (rest : string) (fuel : nat),
    List.length lines1 = 6%nat ->
    List.map snd lines1 = List.map snd lines2 ->
    Forall header_pair (List.map snd lines1) ->
    fs1 !! inputfile = Some (Str.concat (List.map oriented lines1) +:+ rest) ->
    fs2 !! inputfile = Some (Str.concat (List.map oriented lines2) +:+ rest) ->
    topoheaderread convertd2e fuel fs1 inputfile
    = topoheaderread convertd2e fuel fs2 inputfile
    /\ ((6 <= fuel)%nat ->
        exists r, topoheaderread convertd2e fuel fs1 inputfile = Some r)
    /\ ((6 <= fuel)%nat ->
        List.NoDup (List.map canon (List.map snd lines1)) ->
        Forall (fun kv => exists v, convert_text (convertd2e (snd kv)) = Ret v)
          (List.map snd lines1) ->
        exists header,
          topoheaderread convertd2e fuel fs1 inputfile
          = Some (Ret (rest, header))
          /\ Forall (fun kv =>
                exists v, convert_text (convertd2e (snd kv)) = Ret v
                          /\ header !! canon kv = Some v)
               (List.map snd lines1)).
Proof.
  intros convertd2e fs1 fs2 inputfile lines1 lines2 rest fuel
    Hlen Hsame Hpairs Hfs1 Hfs2.
  assert (Hlen2 : List.length lines2 = 6%nat).
  { rewrite <- (length_map snd lines2), <- Hsame, length_map. exact Hlen. }
  assert (Hpairs2 : Forall header_pair (List.map snd lines2))
    by (rewrite <- Hsame; exact Hpairs).
  unfold topoheaderread, open_r. rewrite Hfs1, Hfs2.
  cbn [Py.lift Py.pbind]. unfold header_start.
  change (Z.of_nat (List.length keylist)) with 6.
  destruct (le_lt_dec 6 fuel) as [Hfuel | Hfuel].
  - rewrite (header_loop_done convertd2e lines1) by (assumption || lia).
    rewrite (header_loop_done convertd2e lines2) by (assumption || lia).
    rewrite <- Hsame. cbn [Py.pbind h_header h_fid].
    split; [reflexivity |]. split.
    + intros _.
      destruct (for_each keylist convert_key
                  (header_after convertd2e (List.map snd lines1) topoheader0));
        cbn [Py.pbind]; eauto.
    + intros _ Hnd Hconv.
      set (kvs := List.map snd lines1) in *.
      assert (Hincl : incl keylist (List.map canon kvs)).
      { apply List.NoDup_length_incl; [exact Hnd | |].
        - rewrite length_map. unfold kvs. rewrite length_map, Hlen.
          simpl. lia.
        - intros key Hin. apply in_map_iff in Hin.
          destruct Hin as (kv & <- & Hkv).
          rewrite List.Forall_forall in Hpairs.
          destruct (Hpairs kv Hkv) as (_ & _ & [key Hkey] & _).
          unfold canon. rewrite Hkey. eapply keymap_range; eauto. }
      destruct (convert_keys keylist
                  (header_after convertd2e kvs topoheader0) keylist_nodup)
        as (header & Hrun & _ & Hin).
      { intros k Hk. apply Hincl in Hk. apply in_map_iff in Hk.
        destruct Hk as (kv & <- & Hkv).
        rewrite List.Forall_forall in Hconv.
        destruct (Hconv kv Hkv) as [v Hv].
        exists (convertd2e (snd kv)), v. split; [| exact Hv].
        apply header_after_lookup; assumption. }
      exists header. rewrite Hrun. cbn [Py.pbind]. split; [reflexivity |].
      apply List.Forall_forall. intros kv Hkv.
      apply (Hin (canon kv) (convertd2e (snd kv))).
      * rewrite List.Forall_forall in Hpairs.
        destruct (Hpairs kv Hkv) as (_ & _ & [key Hkey] & _).
        unfold canon. rewrite Hkey. eapply keymap_range; eauto.
      * apply header_after_lookup; assumption.
  - rewrite (header_loop_short convertd2e lines1) by (assumption || lia).
    rewrite (header_loop_short convertd2e lines2) by (assumption || lia).
    split; [reflexivity |]. split; intros; lia.
Qed.

Lemma topoheaderread_order_witness :
  List.length (List.map (pair true) six_pairs) = 6%nat
  /\ List.map snd (List.map (pair true) six_pairs)
     = List.map snd (List.map (pair false) six_pairs)
  /\ Forall header_pair (List.map snd (List.map (pair true) six_pairs))
  /\ topoheaderread (fun s => s) 6
       (<["a.tt2" := Str.concat (List.map oriented
                                   (List.map (pair true) six_pairs))
                     +:+ data_A]> ∅) "a.tt2"
     = topoheaderread (fun s => s) 6
         (<["a.tt2" := Str.concat (List.map oriented
                                     (List.map (pair false) six_pairs))
                       +:+ data_A]> ∅) "a.tt2"
  /\ exists header,
       topoheaderread (fun s => s) 6
         (<["a.tt2" := Str.concat (List.map oriented
                                     (List.map (pair false) six_pairs))
                       +:+ data_A]> ∅) "a.tt2"
       = Some (Ret (data_A, header))
       /\ header !! "ncols" = Some (VInt 3).
Proof.
  assert (Hp : Forall header_pair (List.map snd (List.map (pair true) six_pairs))).
  { repeat (constructor;
            [ split; [reflexivity |]; split; [reflexivity |];
              split; [eexists; reflexivity | reflexivity] |]).
    constructor. }
  pose proof (topoheaderread_order_independent (fun s => s)
                (<["a.tt2" := Str.concat (List.map oriented
                                            (List.map (pair true) six_pairs))
                              +:+ data_A]> ∅)
                (<["a.tt2" := Str.concat (List.map oriented
                                            (List.map (pair false) six_pairs))
                              +:+ data_A]> ∅)
                "a.tt2" (List.map (pair true) six_pairs)
                (List.map (pair false) six_pairs) data_A 6
                eq_refl eq_refl Hp eq_refl eq_refl) as (Heq & _ & Hhdr).
  split; [reflexivity |]. split; [reflexivity |]. split; [exact Hp |].
  split; [exact Heq |].
  destruct Hhdr as (header & Hread & Hall).
  - lia.
  - repeat constructor; simpl; intuition discriminate.
  - repeat (constructor; [eexists; vm_compute; reflexivity |]). constructor.
  - exists header. rewrite <- Heq. split; [exact Hread |].
    inversion Hall as [| kv kvs (v & Hv & Hl) _]; subst.
    vm_compute in Hv. inversion Hv; subst v. exact Hl.
Defined.

(** ** The two modes of [topofilesubset] *)

Section Subset.

Variable convertd2e : string -> string.
Variable datafile2array : filesystem -> string -> result array.
Variable repr_float : pyfloat -> string.

Lemma write_keeps path s (fs : filesystem) q :
  is_Some (write path s fs !! q) <-> is_Some (fs !! q).
Proof.
  unfold write. destruct (decide (path = q)) as [-> | Hne].
  - rewrite lookup_alter_eq. rewrite fmap_is_Some. reflexivity.
  - rewrite lookup_alter_ne by exact Hne. reflexivity.
Qed.

Lemma write_until_keeps path xs : forall (fs : filesystem) q,
  is_Some (fs !! q) -> is_Some (fst (write_until path xs fs) !! q).
Proof.
  induction xs as [| [x | e] xs IH]; intros fs q H; simpl; [exact H | | exact H].
  apply IH. apply write_keeps. exact H.
Qed.

Lemma topoheaderwrite_creates hdr path (fs : filesystem) :
  is_Some (fst (topoheaderwrite repr_float hdr path fs) !! path).
Proof.
  unfold topoheaderwrite. apply write_until_keeps.
  unfold open_w. rewrite lookup_insert_eq. eauto.
Qed.

Lemma while_invariant {S} (P : S -> Prop) cond (body : S -> result S) :
  (forall s s', body s = Ret s' -> P s -> P s') ->
  forall fuel s0 s,
    P s0 -> while fuel cond body s0 = Some (Ret s) -> P s.
Proof.
  intros Hstep. induction fuel as [| fuel IH]; intros s0 s H0 Hrun; simpl in Hrun.
  - destruct (cond s0); [discriminate |]. inversion Hrun; subst. exact H0.
  - destruct (cond s0); [| inversion Hrun; subst; exact H0].
    destruct (body s0) as [s1 | e] eqn:Hb; [| discriminate].
    eapply IH; [| exact Hrun]. eapply Hstep; eauto.
Qed.

Lemma fold_left_invariant {A S} (P : S -> Prop) (f : S -> A -> S) xs :
  (forall s x, P s -> P (f s x)) -> forall s, P s -> P (fold_left f xs s).
Proof.
  intros Hf. induction xs as [| x xs IH]; intros s Hs; simpl; [exact Hs |].
  apply IH. apply Hf. exact Hs.
Qed.

Lemma for_each_invariant {A S} (P : S -> Prop) (body : A -> S -> result S) xs :
  (forall x s s', body x s = Ret s' -> P s -> P s') ->
  forall s s', for_each xs body s = Ret s' -> P s -> P s'.
Proof.
  intros Hb. induction xs as [| x xs IH]; intros s s' Hrun Hs; simpl in Hrun.
  - inversion Hrun; subst. exact Hs.
  - destruct (body x s) as [s1 | e] eqn:E; cbn [Py.bind] in Hrun; [| discriminate].
    eapply IH; [exact Hrun |]. eapply Hb; eauto.
Qed.

Lemma cheap_cell_keeps outputfile xll yupper cellsize xlow xhi ylow yhi row col
    st q :
  is_Some (c_fs st !! q) ->
  is_Some (c_fs (cheap_cell outputfile xll yupper cellsize xlow xhi ylow yhi
                   row col st) !! q).
Proof.
  intros H. unfold cheap_cell.
  destruct (readline (c_fidin st)) as [raw rest].
  set (st0 := CState rest (c_outpts st) (c_writtenpts st) (c_fs st)).
  assert (H0 : is_Some (c_fs st0 !! q)) by exact H.
  match goal with
  | |- context [fold_left ?f ?xs st0] =>
      assert (H1 : is_Some (c_fs (fold_left f xs st0) !! q))
  end.
  { apply (fold_left_invariant (fun s => is_Some (c_fs s !! q))); [| exact H0].
    intros s tok Hs.
    destruct ((xlow <=? _) && _ && _)%F; [| exact Hs].
    simpl. apply write_keeps. exact Hs. }
  match goal with
  | |- context [if ?b then _ else _] => destruct b
  end; [| exact H1].
  simpl. apply write_keeps. exact H1.
Qed.

Lemma cheap_pass_keeps outputfile hdr xll yupper cellsize xlow xhi ylow yhi
    st st' q :
  cheap_pass outputfile hdr xll yupper cellsize xlow xhi ylow yhi st = Ret st' ->
  is_Some (c_fs st !! q) -> is_Some (c_fs st' !! q).
Proof.
  unfold cheap_pass. intros Hrun H.
  destruct (header_int hdr "nrows") as [nrows | e]; cbn [Py.bind] in Hrun;
    [| discriminate].
  eapply (for_each_invariant (fun s => is_Some (c_fs s !! q)));
    [| exact Hrun | exact H].
  intros row s s' Hb Hs.
  destruct (header_int hdr "ncols") as [ncols | e]; cbn [Py.bind] in Hb;
    [| discriminate].
  inversion Hb; subst.
  apply (fold_left_invariant (fun s => is_Some (c_fs s !! q))); [| exact Hs].
  intros s0 col Hs0. apply cheap_cell_keeps. exact Hs0.
Qed.

(** The streaming mode creates the output file as soon as it has the
    header of the input. *)
Lemma topofilesubset_cheap_creates fuel inputfile outputfile topotypein
    xlow xhi ylow yhi (fs : filesystem) fidin hdr geom :
  1 < topotypein ->
  topoheaderread convertd2e fuel fs inputfile = Some (Ret (fidin, hdr)) ->
  cheap_header hdr xlow xhi ylow yhi = Ret geom ->
  is_Some (fst (topofilesubset_cheap convertd2e repr_float fuel inputfile
                  outputfile topotypein xlow xhi ylow yhi fs) !! outputfile).
Proof.
  intros Ht Hread Hgeom. unfold topofilesubset_cheap.
  destruct (Z.eqb_spec topotypein 1); [lia |].
  rewrite Hread, Hgeom.
  destruct geom as [[[[[theadout ncolsout] nrowsout] xll] yupper] cellsize].
  pose proof (topoheaderwrite_creates theadout outputfile fs) as Hc.
  destruct (topoheaderwrite repr_float theadout outputfile fs) as [fs1 [[] | e]];
    simpl in Hc; [| exact Hc].
  destruct (Z.ltb_spec 1 topotypein); [| lia].
  destruct (while fuel _ _ _) as [[st | e] |] eqn:Hw; simpl; try exact Hc.
  eapply (while_invariant (fun s => is_Some (c_fs s !! outputfile)));
    [| | exact Hw].
  - intros s s' Hs. eapply cheap_pass_keeps. exact Hs.
  - exact Hc.
Qed.

End Subset.

(** C8: the two modes of [topofilesubset] do not agree.  On an input of
    topotype above 1 whose header can be read, and with an output file that
    does not exist yet, the streaming mode creates the output file, and the
    materializing mode leaves the file system as it was and does not
    return. *)
Theorem topofilesubset_modes_disagree :
  forall (convertd2e : string -> string)
         (datafile2array : filesystem -> string -> result array)
         (repr_float : pyfloat -> string)
         (fuel : nat) (inputfile outputfile : string)
         (topotypein topotypeout : Z) (xlow xhi ylow yhi : pyfloat)
         (nodata : pyval) (fs : filesystem) (fidin : string)
         (hdr : gmap string pyval)
         (geom : gmap string pyval * Z * Z * pyfloat * pyfloat * pyfloat),
    1 < topotypein ->
    topoheaderread convertd2e fuel fs inputfile = Some (Ret (fidin, hdr)) ->
    cheap_header hdr xlow xhi ylow yhi = Ret geom ->
    fs !! outputfile = None ->
    is_Some (fst (topofilesubset convertd2e datafile2array repr_float fuel
                    inputfile outputfile topotypein topotypeout
                    xlow xhi ylow yhi nodata true fs) !! outputfile)
    /\ fst (topofilesubset convertd2e datafile2array repr_float fuel
              inputfile outputfile topotypein topotypeout
              xlow xhi ylow yhi nodata false fs) !! outputfile = None
    /\ (snd (topofilesubset convertd2e datafile2array repr_float fuel
               inputfile outputfile topotypein topotypeout
               xlow xhi ylow yhi nodata false fs) = None
        \/ exists e,
             snd (topofilesubset convertd2e datafile2array repr_float fuel
                    inputfile outputfile topotypein topotypeout
                    xlow xhi ylow yhi nodata false fs) = Some (Raise e)).
Proof.
  intros convertd2e datafile2array repr_float fuel inputfile outputfile
    topotypein topotypeout xlow xhi ylow yhi nodata fs fidin hdr geom
    Ht Hread Hgeom Hnone.
  split.
  - simpl. eapply topofilesubset_cheap_creates; eauto.
  - destruct (topofilesubset_full_no_output convertd2e datafile2array
                repr_float fuel inputfile outputfile topotypein topotypeout
                xlow xhi ylow yhi nodata fs) as [Hfs Hout].
    split; [rewrite Hfs; exact Hnone | exact Hout].
Qed.

Lemma topofilesubset_modes_witness :
  1 < 2
  /\ (exists fidin hdr geom,
        topoheaderread (fun s => s) 6
          (<["in.tt2" := Str.concat (List.map value_then_key six_pairs)
                         +:+ data_A]> ∅) "in.tt2"
        = Some (Ret (fidin, hdr))
        /\ cheap_header hdr (Fin (-1000000)) (Fin 1000000) (Fin (-1000000))
             (Fin 1000000) = Ret geom)
  /\ (<["in.tt2" := Str.concat (List.map value_then_key six_pairs)
                    +:+ data_A]> ∅ : filesystem) !! "out.tt2" = None
  /\ is_Some
       (fst (topofilesubset (fun s => s) (fun _ _ => Raise IOError)
               (fun _ => "0.0") 6 "in.tt2" "out.tt2" 2 2
               (Fin (-1000000)) (Fin 1000000) (Fin (-1000000)) (Fin 1000000)
               VNone true
               (<["in.tt2" := Str.concat (List.map value_then_key six_pairs)
                              +:+ data_A]> ∅)) !! "out.tt2")
  /\ fst (topofilesubset (fun s => s) (fun _ _ => Raise IOError)
            (fun _ => "0.0") 6 "in.tt2" "out.tt2" 2 2
            (Fin (-1000000)) (Fin 1000000) (Fin (-1000000)) (Fin 1000000)
            VNone false
            (<["in.tt2" := Str.concat (List.map value_then_key six_pairs)
                           +:+ data_A]> ∅)) !! "out.tt2" = None.
Proof.
  set (fs := (<["in.tt2" := Str.concat (List.map value_then_key six_pairs)
                            +:+ data_A]> ∅ : filesystem)).
  set (r := returned (EmptyString, ∅) (topoheaderread (fun s => s) 6 fs "in.tt2")).
  set (g := returned_of (∅, 0, 0, NaN, NaN, NaN)
              (cheap_header (snd r) (Fin (-1000000)) (Fin 1000000)
                 (Fin (-1000000)) (Fin 1000000))).
  assert (Hr : topoheaderread (fun s => s) 6 fs "in.tt2"
               = Some (Ret (fst r, snd r))) by (vm_compute; reflexivity).
  assert (Hg : cheap_header (snd r) (Fin (-1000000)) (Fin 1000000)
                 (Fin (-1000000)) (Fin 1000000) = Ret g)
    by (vm_compute; reflexivity).
  split; [lia |].
  split; [exists (fst r), (snd r), g; split; assumption |].
  split; [reflexivity |].
  destruct (topofilesubset_modes_disagree (fun s => s)
              (fun _ _ => Raise IOError) (fun _ => "0.0") 6 "in.tt2" "out.tt2"
              2 2 (Fin (-1000000)) (Fin 1000000) (Fin (-1000000))
              (Fin 1000000) VNone fs (fst r) (snd r) g)
    as (Hcheap & Hfull & _);
    [lia | exact Hr | exact Hg | reflexivity |].
  split; assumption.
Defined.

(** ** Decimal digits *)

Section Decimal.

#[local] Arguments Str.isspace : simpl never.

Lemma digit_val_char d :
  0 <= d < 10 -> digit_val (digit_char d) = Some d.
Proof.
  intros H.
  assert (E : d = 0 \/ d = 1 \/ d = 2 \/ d = 3 \/ d = 4 \/ d = 5 \/ d = 6
              \/ d = 7 \/ d = 8 \/ d = 9) by lia.
  repeat destruct E as [-> | E]; try subst d; reflexivity.
Qed.

Lemma digit_val_not_space c d : digit_val c = Some d -> isspace c = false.
Proof.
  unfold digit_val, isspace. generalize (nat_of_ascii c). intros n H.
  destruct ((48 <=? n) && (n <=? 57))%nat eqn:E; [| discriminate].
  apply andb_prop in E. destruct E as [E1 E2].
  apply Nat.leb_le in E1. apply Nat.leb_le in E2.
  apply orb_false_intro; apply andb_false_iff; right; apply Nat.leb_gt; lia.
Qed.

Lemma digits_acc_app s : forall acc t,
  digits_acc acc (s +:+ t)
  = match digits_acc acc s with
    | Some a => digits_acc a t
    | None => None
    end.
Proof.
  induction s as [| c s IH]; intros acc t; [reflexivity |].
  change (String c s +:+ t) with (String c (s +:+ t)). simpl.
  destruct (digit_val c); [apply IH | reflexivity].
Qed.

Lemma mod_pow10_succ n k :
  n mod 10 ^ Z.of_nat (S k)
  = 10 * ((n / 10) mod 10 ^ Z.of_nat k) + n mod 10.
Proof.
  rewrite Nat2Z.inj_succ, Z.pow_succ_r by lia.
  rewrite Z.rem_mul_r by lia. lia.
Qed.

Lemma digits_acc_one acc c d :
  digit_val c = Some d ->
  digits_acc acc (String c EmptyString) = Some (acc * 10 + d).
Proof. intros H. unfold digits_acc. rewrite H. reflexivity. Qed.

(** The digits that [fixed_digits] writes are read back as the number. *)
Lemma digits_acc_fixed k : forall n acc,
  digits_acc acc (fixed_digits k n)
  = Some (acc * 10 ^ Z.of_nat k + n mod 10 ^ Z.of_nat k).
Proof.
  induction k as [| k IH]; intros n acc.
  - simpl. rewrite Z.mod_1_r. f_equal. lia.
  - change (fixed_digits (S k) n)
      with (fixed_digits k (n / 10)
            +:+ String (digit_char (n mod 10)) EmptyString).
    rewrite digits_acc_app, IH.
    rewrite (digits_acc_one _ _ (n mod 10))
      by (apply digit_val_char; apply Z.mod_pos_bound; lia).
    f_equal. rewrite mod_pow10_succ.
    rewrite Nat2Z.inj_succ, Z.pow_succ_r by lia. ring.
Qed.

Lemma fixed_digits_length k : forall n,
  String.length (fixed_digits k n) = k.
Proof.
  induction k as [| k IH]; intros n; [reflexivity |].
  change (fixed_digits (S k) n)
    with (fixed_digits k (n / 10)
          +:+ String (digit_char (n mod 10)) EmptyString).
  rewrite length_append, IH. simpl. lia.
Qed.

Lemma fixed_digits_digits k : forall n,
  all_chars is_digit (fixed_digits k n) = true.
Proof.
  induction k as [| k IH]; intros n; [reflexivity |].
  change (fixed_digits (S k) n)
    with (fixed_digits k (n / 10)
          +:+ String (digit_char (n mod 10)) EmptyString).
  rewrite all_chars_append, IH. cbn [all_chars andb]. unfold is_digit.
  rewrite digit_val_char by (apply Z.mod_pos_bound; lia). reflexivity.
Qed.

Lemma ndigits_fuel_spec fuel : forall n,
  0 < n -> n < 2 ^ Z.of_nat fuel ->
  (0 < ndigits_fuel fuel n)%nat
  /\ 10 ^ (Z.of_nat (ndigits_fuel fuel n) - 1) <= n
     < 10 ^ Z.of_nat (ndigits_fuel fuel n).
Proof.
  induction fuel as [| fuel IH]; intros n Hpos Hlt.
  - simpl in Hlt. lia.
  - simpl ndigits_fuel. destruct (Z.leb_spec n 0); [lia |].
    destruct (Z.eq_dec (n / 10) 0) as [Hz | Hnz].
    + assert (Hsmall : n < 10).
      { pose proof (Z.div_mod n 10). pose proof (Z.mod_pos_bound n 10). lia. }
      assert (E : ndigits_fuel fuel (n / 10) = 0%nat).
      { rewrite Hz. destruct fuel; reflexivity. }
      rewrite E. simpl. lia.
    + assert (Hq : 0 < n / 10).
      { pose proof (Z.div_pos n 10). lia. }
      assert (Hq2 : n / 10 < 2 ^ Z.of_nat fuel).
      { rewrite Nat2Z.inj_succ, Z.pow_succ_r in Hlt by lia.
        apply Z.div_lt_upper_bound; lia. }
      destruct (IH (n / 10) Hq Hq2) as (Hk & Hlo & Hhi).
      set (k := ndigits_fuel fuel (n / 10)) in *.
      split; [lia |].
      pose proof (Z.div_mod n 10). pose proof (Z.mod_pos_bound n 10).
      replace (Z.of_nat (S k) - 1) with (Z.succ (Z.of_nat k - 1)) by lia.
      rewrite Nat2Z.inj_succ, !Z.pow_succ_r by lia. lia.
Qed.

Lemma ndigits_spec n :
  0 < n ->
  (0 < ndigits n)%nat
  /\ 10 ^ (Z.of_nat (ndigits n) - 1) <= n < 10 ^ Z.of_nat (ndigits n).
Proof.
  intros Hpos. unfold ndigits. apply ndigits_fuel_spec; [exact Hpos |].
  rewrite Nat2Z.inj_succ, Z2Nat.id by apply Z.log2_nonneg.
  apply Z.log2_spec. exact Hpos.
Qed.

Lemma digits_are_word s :
  s <> EmptyString -> all_chars is_digit s = true -> is_word s = true.
Proof.
  intros Hne Hd. unfold is_word. apply andb_true_intro. split.
  - destruct s; [congruence | reflexivity].
  - eapply all_chars_impl; [| exact Hd].
    intros c Hc. unfold is_digit in Hc.
    destruct (digit_val c) as [d |] eqn:E; [| discriminate].
    rewrite (digit_val_not_space c d E). reflexivity.
Qed.

Lemma is_word_sign sgn s :
  is_word sgn = true \/ sgn = EmptyString ->
  is_word s = true -> is_word (sgn +:+ s) = true.
Proof.
  intros [Hs | ->] Hw; [| exact Hw].
  unfold is_word in *. apply andb_prop in Hs. destruct Hs as [Hs1 Hs2].
  apply andb_prop in Hw. destruct Hw as [_ Hw2].
  rewrite all_chars_append, Hs2, Hw2.
  destruct sgn; [discriminate | reflexivity].
Qed.

Lemma fixed_digits_nonempty k n :
  (0 < k)%nat -> fixed_digits k n <> EmptyString.
Proof.
  intros Hk E. pose proof (fixed_digits_length k n) as L.
  rewrite E in L. simpl in L. lia.
Qed.

Lemma digit_not_sign c :
  is_digit c = true -> Ascii.eqb c "-" = false /\ Ascii.eqb c "+" = false.
Proof.
  intros H. split.
  - destruct (Ascii.eqb_spec c "-") as [-> | _]; [discriminate | reflexivity].
  - destruct (Ascii.eqb_spec c "+") as [-> | _]; [discriminate | reflexivity].
Qed.

Lemma strip_sign_digits s :
  all_chars is_digit s = true -> strip_sign s = (false, s).
Proof.
  destruct s as [| c s]; [reflexivity |]. simpl. intros H.
  apply andb_prop in H. destruct H as [Hc _].
  destruct (digit_not_sign c Hc) as [H1 H2]. rewrite H1, H2. reflexivity.
Qed.

Lemma digits_value_fixed k n :
  (0 < k)%nat -> 0 <= n < 10 ^ Z.of_nat k ->
  digits_value (fixed_digits k n) = Some n.
Proof.
  intros Hk Hn. unfold digits_value.
  destruct (fixed_digits k n) eqn:E.
  - exfalso. eapply fixed_digits_nonempty; eauto.
  - rewrite <- E, digits_acc_fixed. f_equal.
    rewrite Z.mod_small by exact Hn. lia.
Qed.

Lemma str_int_word n : is_word (str_int n) = true.
Proof.
  unfold str_int. destruct (Z.eqb_spec n 0); [reflexivity |].
  assert (Hpos : 0 < Z.abs n) by lia.
  destruct (ndigits_spec _ Hpos) as (Hk & _).
  apply is_word_sign.
  - destruct (n <? 0); [left; reflexivity | right; reflexivity].
  - apply digits_are_word;
      [apply fixed_digits_nonempty; exact Hk | apply fixed_digits_digits].
Qed.

(** [int] reads back what [%i] writes. *)
Lemma py_int_str_int n : py_int (str_int n) = Ret n.
Proof.
  unfold py_int, signed_digits, str_int.
  destruct (Z.eqb_spec n 0) as [-> | Hne]; [reflexivity |].
  assert (Hpos : 0 < Z.abs n) by lia.
  destruct (ndigits_spec _ Hpos) as (Hk & _ & Hhi).
  destruct (Z.ltb_spec n 0).
  - change ("-" +:+ fixed_digits (ndigits (Z.abs n)) (Z.abs n))
      with (String "-"%char (fixed_digits (ndigits (Z.abs n)) (Z.abs n))).
    simpl strip_sign. cbv iota.
    rewrite digits_value_fixed by (exact Hk || lia). f_equal. lia.
  - change ("" +:+ fixed_digits (ndigits (Z.abs n)) (Z.abs n))
      with (fixed_digits (ndigits (Z.abs n)) (Z.abs n)).
    rewrite strip_sign_digits by apply fixed_digits_digits.
    rewrite digits_value_fixed by (exact Hk || lia). f_equal. lia.
Qed.

Lemma replicate_spaces k : all_chars isspace (replicate k " "%char) = true.
Proof. induction k as [| k IH]; [reflexivity |]. simpl. exact IH. Qed.

(** The first token of a right-justified token. *)
Lemma split_rjust w tok rest :
  is_word tok = true -> starts_space rest = true ->
  split (rjust w tok +:+ rest) = tok :: split rest.
Proof.
  intros Hw Hr. unfold rjust. rewrite append_assoc_s.
  rewrite split_spaces by apply replicate_spaces.
  apply split_word; assumption.
Qed.

Lemma no_newline_rjust w tok :
  no_newline tok = true -> no_newline (rjust w tok) = true.
Proof.
  intros H. unfold rjust, no_newline in *. rewrite all_chars_append, H.
  rewrite andb_true_r.
  induction (w - String.length tok)%nat as [| k IH]; [reflexivity |].
  simpl. exact IH.
Qed.

End Decimal.

(** ** Rounding to nine significant digits *)

Section Rounding.

Local Open Scope Q_scope.

Lemma round_half_even_cases q :
  round_half_even q = Qfloor q \/ round_half_even q = (Qfloor q + 1)%Z.
Proof.
  unfold round_half_even.
  destruct (q - inject_Z (Qfloor q) ?= 1 # 2); auto.
  destruct (Z.even (Qfloor q)); auto.
Qed.

Lemma round_half_even_error q :
  Qabs (inject_Z (round_half_even q) - q) <= 1 # 2.
Proof.
  pose proof (Qfloor_le q) as Hlo. pose proof (Qlt_floor q) as Hhi.
  rewrite inject_Z_plus in Hhi. change (inject_Z 1) with 1 in Hhi.
  unfold round_half_even.
  destruct (q - inject_Z (Qfloor q) ?= 1 # 2) eqn:C.
  - apply Qeq_alt in C.
    destruct (Z.even (Qfloor q)).
    + apply Qabs_case; intros _; lra.
    + rewrite inject_Z_plus. change (inject_Z 1) with 1.
      apply Qabs_case; intros _; lra.
  - apply Qlt_alt in C. apply Qabs_case; intros _; lra.
  - apply Qgt_alt in C. rewrite inject_Z_plus. change (inject_Z 1) with 1.
    apply Qabs_case; intros _; lra.
Qed.

Lemma round_half_even_nonneg q : 0 <= q -> (0 <= round_half_even q)%Z.
Proof.
  intros H. pose proof (Qfloor_resp_le 0 q H) as Hf.
  change (Qfloor 0) with 0%Z in Hf.
  destruct (round_half_even_cases q) as [-> | ->]; lia.
Qed.

Lemma round_half_even_upper q (n : Z) :
  q < inject_Z n -> (round_half_even q <= n)%Z.
Proof.
  intros H. pose proof (Qfloor_le q) as Hlo.
  assert (Hf : (Qfloor q < n)%Z).
  { rewrite Zlt_Qlt. lra. }
  destruct (round_half_even_cases q) as [-> | ->]; lia.
Qed.

Lemma pow10_pos (e : Z) : 0 < 10 ^ e.
Proof. apply Qpower_0_lt. reflexivity. Qed.

Lemma pow10_nat (k : Z) :
  (0 <= k)%Z -> inject_Z (10 ^ k) == 10 ^ k.
Proof. intros H. apply (Zpower_Qpower 10 k H). Qed.

Lemma pow10_plus (a b : Z) : 10 ^ (a + b) == 10 ^ a * 10 ^ b.
Proof. apply Qpower_plus. discriminate. Qed.

(** The decimal exponent brackets the number. *)
Lemma exponent10_spec a :
  0 < a -> 10 ^ exponent10 a <= a /\ a < 10 ^ (exponent10 a + 1).
Proof.
  intros Ha. unfold exponent10.
  destruct (Qle_bool 1 a) eqn:E.
  - apply Qle_bool_iff in E.
    pose proof (Qfloor_resp_le 1 a E) as Hf. change (Qfloor 1) with 1%Z in Hf.
    assert (Hpos : (0 < Qfloor a)%Z) by lia.
    destruct (ndigits_spec _ Hpos) as (Hk & Hlo & Hhi).
    set (k := Z.of_nat (ndigits (Qfloor a))) in *.
    pose proof (Qfloor_le a) as Fl. pose proof (Qlt_floor a) as Fh.
    split.
    + rewrite <- pow10_nat by lia. rewrite Zle_Qle in Hlo. lra.
    + replace (k - 1 + 1)%Z with k by lia.
      rewrite <- pow10_nat by lia.
      assert (H1 : (Qfloor a + 1 <= 10 ^ k)%Z) by lia.
      rewrite Zle_Qle in H1. lra.
  - assert (Hlt : a < 1).
    { apply Qnot_le_lt. intros H. apply Qle_bool_iff in H. congruence. }
    assert (Hinv : 1 < / a).
    { apply Qlt_shift_inv_l; [exact Ha | lra]. }
    pose proof (Qle_ceiling (/ a)) as Cl. pose proof (Qceiling_lt (/ a)) as Ch.
    assert (Hc : (1 < Qceiling (/ a))%Z).
    { rewrite Zlt_Qlt. change (inject_Z 1) with 1. lra. }
    assert (Hpos : (0 < Qceiling (/ a) - 1)%Z) by lia.
    destruct (ndigits_spec _ Hpos) as (Hk & Hlo & Hhi).
    set (k := Z.of_nat (ndigits (Qceiling (/ a) - 1))) in *.
    split.
    + rewrite Qpower_opp. apply Qle_shift_inv_r; [apply pow10_pos |].
      assert (H1 : (Qceiling (/ a) <= 10 ^ k)%Z) by lia.
      rewrite Zle_Qle in H1. rewrite pow10_nat in H1 by lia.
      assert (H2 : / a <= 10 ^ k) by lra.
      apply (Qmult_le_l _ _ a Ha) in H2.
      rewrite Qmult_inv_r in H2 by lra. exact H2.
    + replace (- k + 1)%Z with (- (k - 1))%Z by lia.
      rewrite Qpower_opp. apply Qlt_shift_inv_l; [apply pow10_pos |].
      rewrite Zle_Qle in Hlo. rewrite pow10_nat in Hlo by lia.
      assert (H2 : 10 ^ (k - 1) < / a) by lra.
      apply (Qmult_lt_l _ _ a Ha) in H2.
      rewrite Qmult_inv_r in H2 by lra. exact H2.
Qed.

(** Mantissa and exponent: the mantissa has [prec + 1] digits at most, and
    the number they denote is within half a unit of the last digit. *)
Lemma sci_spec prec a m e :
  0 < a -> sci prec a = (m, e) ->
  (0 <= m < 10 ^ (Z.of_nat prec + 1))%Z
  /\ Qabs (inject_Z m * 10 ^ (e - Z.of_nat prec) - a)
     <= (1 # 2) * 10 ^ (- Z.of_nat prec) * a.
Proof.
  intros Ha Hsci. unfold sci in Hsci.
  destruct (exponent10_spec a Ha) as [Hlo Hhi].
  set (e0 := exponent10 a) in *. set (P := Z.of_nat prec) in *.
  assert (HP : (0 <= P)%Z) by (unfold P; lia).
  set (S := 10 ^ (P - e0)) in *. set (T := 10 ^ (e0 - P)).
  set (x := a * S) in *. set (m0 := round_half_even x) in *.
  assert (HS : 0 < S) by apply pow10_pos.
  assert (HT : 0 < T) by apply pow10_pos.
  assert (HST : S * T == 1).
  { unfold S, T. rewrite <- pow10_plus.
    replace (P - e0 + (e0 - P))%Z with 0%Z by lia. reflexivity. }
  assert (Hx : x < inject_Z (10 ^ (P + 1))).
  { rewrite pow10_nat by lia.
    assert (E : 10 ^ (P + 1) == 10 ^ (e0 + 1) * S).
    { unfold S. rewrite <- pow10_plus.
      replace (e0 + 1 + (P - e0))%Z with (P + 1)%Z by lia. reflexivity. }
    rewrite E. unfold x. apply Qmult_lt_compat_r; assumption. }
  assert (Hx0 : 0 <= x).
  { unfold x. apply Qmult_le_0_compat; lra. }
  pose proof (round_half_even_upper x _ Hx) as Hm0. fold m0 in Hm0.
  pose proof (round_half_even_nonneg x Hx0) as Hm0'. fold m0 in Hm0'.
  pose proof (round_half_even_error x) as Herr. fold m0 in Herr.
  assert (Hval : Qabs (inject_Z m0 * T - a) <= (1 # 2) * 10 ^ (- P) * a).
  { assert (E : inject_Z m0 * T - a == (inject_Z m0 - x) * T).
    { assert (Ea : a == x * T).
      { unfold x. rewrite <- Qmult_assoc, HST. ring. }
      rewrite Ea at 1. ring. }
    rewrite E, Qabs_Qmult, (Qabs_pos T) by lra.
    assert (HTa : T <= 10 ^ (- P) * a).
    { unfold T. replace (e0 - P)%Z with (- P + e0)%Z by lia.
      rewrite pow10_plus. apply Qmult_le_l; [apply pow10_pos | exact Hlo]. }
    apply Qle_trans with ((1 # 2) * T).
    - apply Qmult_le_compat_r; lra.
    - rewrite <- Qmult_assoc. apply Qmult_le_l; [reflexivity | exact HTa]. }
  destruct (Z.eqb_spec m0 (10 ^ (P + 1))) as [Heq | Hne];
    inversion Hsci; subst m e; clear Hsci.
  - split.
    + split; [apply Z.pow_nonneg; lia |].
      apply Z.pow_lt_mono_r; lia.
    + assert (E : inject_Z (10 ^ P) * 10 ^ (e0 + 1 - P) == inject_Z m0 * T).
      { rewrite Heq, !pow10_nat by lia. unfold T.
        rewrite <- !pow10_plus.
        replace (P + (e0 + 1 - P))%Z with (P + 1 + (e0 - P))%Z by lia.
        reflexivity. }
      rewrite E. exact Hval.
  - split; [lia | exact Hval].
Qed.

End Rounding.

(** ** Reading back [%e] *)

Section Scientific.

#[local] Arguments Str.isspace : simpl never.

Lemma lower_app a b : lower (a +:+ b) = lower a +:+ lower b.
Proof.
  induction a as [| c a IH]; [reflexivity |].
  change (String (lower_ascii c) (lower (a +:+ b))
          = String (lower_ascii c) (lower a +:+ lower b)).
  f_equal. exact IH.
Qed.

Lemma digit_lower c : is_digit c = true -> lower_ascii c = c.
Proof.
  unfold is_digit, digit_val, lower_ascii.
  generalize (nat_of_ascii c). intros n H.
  destruct ((48 <=? n) && (n <=? 57))%nat eqn:E; [| discriminate].
  apply andb_prop in E. destruct E as [E1 E2].
  apply Nat.leb_le in E1. apply Nat.leb_le in E2.
  destruct (Nat.leb_spec 65 n); [lia | reflexivity].
Qed.

Lemma lower_digits s : all_chars is_digit s = true -> lower s = s.
Proof.
  induction s as [| c s IH]; [reflexivity |]. simpl. intros H.
  apply andb_prop in H. destruct H as [Hc Hs].
  rewrite (digit_lower c Hc), (IH Hs). reflexivity.
Qed.

Lemma digit_not_letter c :
  is_digit c = true ->
  Ascii.eqb c "n" = false /\ Ascii.eqb c "i" = false
  /\ Ascii.eqb c "e" = false /\ Ascii.eqb c "." = false.
Proof.
  intros H. repeat split.
  - destruct (Ascii.eqb_spec c "n") as [-> | _]; [discriminate | reflexivity].
  - destruct (Ascii.eqb_spec c "i") as [-> | _]; [discriminate | reflexivity].
  - destruct (Ascii.eqb_spec c "e") as [-> | _]; [discriminate | reflexivity].
  - destruct (Ascii.eqb_spec c ".") as [-> | _]; [discriminate | reflexivity].
Qed.

(** A text is cut at the first occurrence of the character. *)
Lemma cut_at c s t :
  all_chars (fun a => negb (Ascii.eqb a c)) s = true ->
  cut c (s +:+ String c t) = (s, Some t).
Proof.
  induction s as [| a s IH]; intros H.
  - change (EmptyString +:+ String c t) with (String c t). simpl.
    rewrite Ascii.eqb_refl. reflexivity.
  - simpl in H. apply andb_prop in H. destruct H as [Ha Hs].
    change (String a s +:+ String c t) with (String a (s +:+ String c t)).
    simpl. destruct (Ascii.eqb a c); [discriminate |].
    rewrite (IH Hs). reflexivity.
Qed.

Lemma digits_no_e s :
  all_chars is_digit s = true ->
  all_chars (fun a => negb (Ascii.eqb a "e")) s = true.
Proof.
  apply all_chars_impl. intros c Hc.
  destruct (digit_not_letter c Hc) as (_ & _ & He & _). rewrite He. reflexivity.
Qed.

Lemma fmt_exp_value e : signed_digits (fmt_exp e) = Some e.
Proof.
  unfold fmt_exp, signed_digits.
  set (k := Nat.max 2 (ndigits (Z.abs e))).
  assert (Hk : (0 < k)%nat) by (unfold k; lia).
  assert (Hb : 0 <= Z.abs e < 10 ^ Z.of_nat k).
  { split; [lia |]. destruct (Z.eq_dec e 0) as [-> | Hne].
    - simpl Z.abs. apply Z.pow_pos_nonneg; lia.
    - assert (Hpos : 0 < Z.abs e) by lia.
      destruct (ndigits_spec _ Hpos) as (_ & _ & Hhi).
      eapply Z.lt_le_trans; [exact Hhi |].
      apply Z.pow_le_mono_r; unfold k; lia. }
  destruct (Z.ltb_spec e 0).
  - change ("-" +:+ fixed_digits k (Z.abs e))
      with (String "-"%char (fixed_digits k (Z.abs e))).
    simpl strip_sign. cbv iota.
    rewrite digits_value_fixed by assumption. f_equal. lia.
  - change ("+" +:+ fixed_digits k (Z.abs e))
      with (String "+"%char (fixed_digits k (Z.abs e))).
    simpl strip_sign. cbv iota.
    rewrite digits_value_fixed by assumption. f_equal. lia.
Qed.

Lemma fixed_digits_one x :
  fixed_digits 1 x = String (digit_char (x mod 10)) EmptyString.
Proof. reflexivity. Qed.

Lemma digit_char_digit d : 0 <= d < 10 -> is_digit (digit_char d) = true.
Proof. intros H. unfold is_digit. rewrite digit_val_char by exact H. reflexivity. Qed.

(** The decimal branch of [float] on a mantissa [c.frac] and an exponent. *)
Lemma parse_decimal_sci neg c0 frac ex m e :
  is_digit c0 = true -> all_chars is_digit frac = true ->
  digits_acc 0 (String c0 frac) = Some m ->
  signed_digits ex = Some e ->
  parse_decimal neg (String c0 (String "."%char (frac +:+ String "e"%char ex)))
  = Ret (Fin (decimal_value neg m e (String.length frac))).
Proof.
  intros Hc Hf Hm He.
  destruct (digit_not_letter c0 Hc) as (_ & _ & Hce & Hcp).
  unfold parse_decimal.
  assert (E1 : cut "e" (String c0 (String "."%char (frac +:+ String "e"%char ex)))
               = (String c0 (String "."%char frac), Some ex)).
  { simpl. rewrite Hce. rewrite (cut_at "e" frac ex (digits_no_e frac Hf)).
    reflexivity. }
  rewrite E1.
  assert (E2 : cut "." (String c0 (String "."%char frac))
               = (String c0 EmptyString, Some frac)).
  { simpl. rewrite Hcp. reflexivity. }
  rewrite E2.
  change (String c0 EmptyString +:+ frac) with (String c0 frac).
  cbv iota. rewrite Hm, He. reflexivity.
Qed.

(** [float] reads back the text of [%.8e]. *)
Lemma py_float_sci_text neg m e :
  0 <= m < 10 ^ 9 ->
  py_float (sci_text neg m e) = Ret (Fin (decimal_value neg m e 8)).
Proof.
  intros Hm.
  assert (Hd0 : 0 <= m / 10 ^ 8 < 10).
  { split; [apply Z.div_pos; lia | apply Z.div_lt_upper_bound; lia]. }
  set (c0 := digit_char ((m / 10 ^ 8) mod 10)).
  assert (Hc0 : is_digit c0 = true).
  { apply digit_char_digit. apply Z.mod_pos_bound. lia. }
  pose proof (fixed_digits_digits 8 m) as Hfrac.
  assert (Hlow : lower (sci_text neg m e) = sci_text neg m e).
  { unfold sci_text, fmt_exp. rewrite !lower_app.
    rewrite (lower_digits (fixed_digits 1 (m / 10 ^ 8)))
      by apply fixed_digits_digits.
    rewrite (lower_digits (fixed_digits 8 m)) by apply fixed_digits_digits.
    rewrite (lower_digits (fixed_digits (Nat.max 2 (ndigits (Z.abs e)))
                             (Z.abs e))) by apply fixed_digits_digits.
    destruct neg, (e <? 0); reflexivity. }
  assert (Hbody : strip_sign (sci_text neg m e)
                  = (neg, String c0 (String "."%char
                       (fixed_digits 8 m +:+ String "e"%char (fmt_exp e))))).
  { unfold sci_text. rewrite fixed_digits_one. fold c0.
    destruct neg.
    - reflexivity.
    - change (EmptyString +:+ ?x) with x.
      change (String c0 EmptyString +:+ "." +:+ fixed_digits 8 m +:+ "e"
              +:+ fmt_exp e)
        with (String c0 (String "."%char
                (fixed_digits 8 m +:+ String "e"%char (fmt_exp e)))).
      unfold strip_sign. destruct (digit_not_sign c0 Hc0) as [H1 H2].
      rewrite H1, H2. reflexivity. }
  unfold py_float. rewrite Hlow, Hbody.
  destruct (digit_not_letter c0 Hc0) as (Hn & Hi & _ & _).
  assert (En : String.eqb (String c0 (String "."%char
                 (fixed_digits 8 m +:+ String "e"%char (fmt_exp e)))) "nan"
               = false) by (cbn [String.eqb]; rewrite Hn; reflexivity).
  assert (Ei : String.eqb (String c0 (String "."%char
                 (fixed_digits 8 m +:+ String "e"%char (fmt_exp e)))) "inf"
               = false) by (cbn [String.eqb]; rewrite Hi; reflexivity).
  assert (Ey : String.eqb (String c0 (String "."%char
                 (fixed_digits 8 m +:+ String "e"%char (fmt_exp e))))
                 "infinity" = false) by (cbn [String.eqb]; rewrite Hi; reflexivity).
  rewrite En, Ei, Ey. cbn [orb].
  rewrite (parse_decimal_sci neg c0 (fixed_digits 8 m) (fmt_exp e) m e Hc0 Hfrac).
  - rewrite fixed_digits_length. reflexivity.
  - unfold c0.
    change (String (digit_char ((m / 10 ^ 8) mod 10)) (fixed_digits 8 m))
      with (String (digit_char ((m / 10 ^ 8) mod 10)) EmptyString
            +:+ fixed_digits 8 m).
    rewrite digits_acc_app.
    rewrite (digits_acc_one 0 _ ((m / 10 ^ 8) mod 10))
      by (apply digit_val_char; apply Z.mod_pos_bound; lia).
    rewrite (digits_acc_fixed 8). f_equal.
    rewrite (Z.mod_small (m / 10 ^ 8)) by lia.
    change (Z.of_nat 8) with 8.
    pose proof (Z.div_mod m (10 ^ 8)). lia.
  - apply fmt_exp_value.
Qed.

Lemma is_neg_spec q : if is_neg q then (q < 0)%Q else (0 <= q)%Q.
Proof.
  unfold is_neg, Qsign, Qlt, Qle. simpl.
  destruct (Z.compare_spec (Qnum q) 0); lia.
Qed.

Lemma Qabs_pos_ne q : ~ (q == 0)%Q -> (0 < Qabs q)%Q.
Proof.
  intros Hne. destruct (Qlt_le_dec 0 (Qabs q)) as [Hlt | Hle]; [exact Hlt |].
  exfalso. apply Hne. revert Hle. apply Qabs_case; intros; lra.
Qed.

(** The number that [%.8e] prints is within [1e-8] of the number. *)
Lemma decimal_value_close q m e :
  sci0 8 q = (m, e) ->
  0 <= m < 10 ^ 9
  /\ (Qabs (decimal_value (is_neg q) m e 8 - q) <= tol8 * Qabs q)%Q.
Proof.
  unfold sci0, decimal_value. intros H.
  destruct (Qeq_bool q 0) eqn:E.
  - inversion H; subst m e. apply Qeq_bool_iff in E.
    split; [lia |]. rewrite Qred_correct.
    assert (E0 : ((if is_neg q then - (1) else 1) * inject_Z 0
                  * 10 ^ (0 - Z.of_nat 8) - q == 0)%Q).
    { change (inject_Z 0) with 0%Q. destruct (is_neg q); rewrite E; ring. }
    rewrite E0, E. vm_compute. discriminate.
  - assert (Hne : ~ (q == 0)%Q).
    { intros Hq. apply Qeq_bool_iff in Hq. congruence. }
    pose proof (Qabs_pos_ne q Hne) as Ha.
    destruct (sci_spec 8 (Qabs q) m e Ha H) as [Hm Herr].
    split; [exact Hm |]. rewrite Qred_correct.
    assert (Hcoef : ((1 # 2) * 10 ^ (- Z.of_nat 8) <= tol8)%Q)
      by (vm_compute; discriminate).
    assert (Hbound : ((1 # 2) * 10 ^ (- Z.of_nat 8) * Qabs q
                      <= tol8 * Qabs q)%Q).
    { apply Qmult_le_compat_r; [exact Hcoef | lra]. }
    pose proof (is_neg_spec q) as Hs.
    destruct (is_neg q).
    + assert (E1 : (- (1) * inject_Z m * 10 ^ (e - Z.of_nat 8) - q
                    == - (inject_Z m * 10 ^ (e - Z.of_nat 8) - Qabs q))%Q).
      { rewrite (Qabs_neg q) by lra. ring. }
      rewrite E1, Qabs_opp. lra.
    + assert (E1 : (1 * inject_Z m * 10 ^ (e - Z.of_nat 8) - q
                    == inject_Z m * 10 ^ (e - Z.of_nat 8) - Qabs q)%Q).
      { rewrite (Qabs_pos q) by lra. ring. }
      rewrite E1. lra.
Qed.

Lemma str_e_fin q m e :
  sci0 8 q = (m, e) -> str_e 8 (Fin q) = sci_text (is_neg q) m e.
Proof. intros H. unfold str_e. rewrite H. reflexivity. Qed.

(** [float] reads back what [%.8e] writes, up to [1e-8]. *)
Lemma py_float_str_e x :
  exists x', py_float (str_e 8 x) = Ret x' /\ close_to tol8 x' x.
Proof.
  destruct x as [q | | |].
  - destruct (sci0 8 q) as [m e] eqn:E.
    destruct (decimal_value_close q m e E) as [Hm Hclose].
    exists (Fin (decimal_value (is_neg q) m e 8)).
    rewrite (str_e_fin q m e E).
    split; [apply py_float_sci_text; exact Hm | exact Hclose].
  - exists PInf. split; [reflexivity | exact I].
  - exists NInf. split; [reflexivity | exact I].
  - exists NaN. split; [reflexivity | exact I].
Qed.

Lemma sci_text_word neg m e : is_word (sci_text neg m e) = true.
Proof.
  unfold sci_text. apply is_word_sign.
  - destruct neg; [left | right]; reflexivity.
  - unfold is_word. apply andb_true_intro. split.
    + rewrite fixed_digits_one. reflexivity.
    + unfold fmt_exp. rewrite !all_chars_append.
      assert (Hd : forall k n,
                 all_chars (fun c => negb (isspace c)) (fixed_digits k n) = true).
      { intros k n. eapply all_chars_impl; [| apply fixed_digits_digits].
        intros c Hc. unfold is_digit in Hc.
        destruct (digit_val c) as [d |] eqn:D; [| discriminate].
        rewrite (digit_val_not_space c d D). reflexivity. }
      rewrite !Hd. destruct (e <? 0); reflexivity.
Qed.

Lemma str_e_word x : is_word (str_e 8 x) = true.
Proof.
  destruct x as [q | | |]; try reflexivity.
  destruct (sci0 8 q) as [m e] eqn:E.
  rewrite (str_e_fin q m e E). apply sci_text_word.
Qed.

End Scientific.

(** ** The writer *)

Section Writer.

Lemma run_steps_app l1 l2 (fs : filesystem) :
  run_steps (l1 ++ l2) fs
  = match run_steps l1 fs with
    | (fs', Ret _) => run_steps l2 fs'
    | (fs', Raise e) => (fs', Raise e)
    end.
Proof.
  revert fs. induction l1 as [| s l1 IH]; intros fs; [reflexivity |].
  cbn [app run_steps]. destruct (s fs) as [fs' [u | e]]; [apply IH | reflexivity].
Qed.

Lemma write_open (file s t : string) (fs : filesystem) :
  fs !! file = Some t -> write file s fs = <[file := t +:+ s]> fs.
Proof.
  intros H. unfold write. apply map_eq. intros k.
  destruct (decide (k = file)) as [-> | Hne].
  - rewrite lookup_alter_eq, lookup_insert_eq, H. reflexivity.
  - rewrite lookup_alter_ne, lookup_insert_ne by congruence. reflexivity.
Qed.

Lemma appends_nil file : appends file [] EmptyString.
Proof.
  intros fs t H. cbn [run_steps]. rewrite append_nil_r.
  rewrite insert_id by exact H. reflexivity.
Qed.

Lemma appends_emit file s : appends file [emit file (Ret s)] s.
Proof.
  intros fs t H. cbn [run_steps emit]. rewrite (write_open file s t fs H).
  reflexivity.
Qed.

Lemma appends_app file l1 l2 s1 s2 :
  appends file l1 s1 -> appends file l2 s2 ->
  appends file (l1 ++ l2) (s1 +:+ s2).
Proof.
  intros H1 H2 fs t Ht. rewrite run_steps_app, (H1 fs t Ht).
  rewrite (H2 _ (t +:+ s1)) by apply lookup_insert_eq.
  rewrite insert_insert_eq, append_assoc_s. reflexivity.
Qed.

Lemma appends_cons file s1 l2 t1 s2 :
  appends file [s1] t1 -> appends file l2 s2 ->
  appends file (s1 :: l2) (t1 +:+ s2).
Proof. intros H1 H2. apply (appends_app file [s1] l2 t1 s2 H1 H2). Qed.

Lemma appends_with_value {A} file (a : A) k s :
  appends file (k a) s -> appends file [with_value (Ret a) k] s.
Proof.
  intros H fs t Ht. cbn [run_steps with_value]. rewrite (H fs t Ht).
  reflexivity.
Qed.

Lemma appends_flat_map {A} file (f : A -> list step) (g : A -> string) xs :
  (forall x, In x xs -> appends file (f x) (g x)) ->
  appends file (flat_map f xs) (concat (List.map g xs)).
Proof.
  induction xs as [| x xs IH]; intros H; [apply appends_nil |].
  cbn [flat_map List.map concat]. apply appends_app.
  - apply H. left. reflexivity.
  - apply IH. intros y Hy. apply H. right. exact Hy.
Qed.

Lemma appends_map_emit {A} file (f : A -> result string) (g : A -> string) xs :
  (forall x, In x xs -> f x = Ret (g x)) ->
  appends file (List.map (fun x => emit file (f x)) xs)
    (concat (List.map g xs)).
Proof.
  induction xs as [| x xs IH]; intros H; [apply appends_nil |].
  cbn [List.map concat]. apply appends_cons.
  - rewrite (H x) by (left; reflexivity). apply appends_emit.
  - apply IH. intros y Hy. apply H. right. exact Hy.
Qed.

(** The index tuples of a shape. *)
Lemma in_indices_cons i idx n shape :
  In (i :: idx) (indices (n :: shape))
  <-> In i (range n) /\ In idx (indices shape).
Proof.
  cbn [indices]. rewrite in_flat_map. split.
  - intros (k & Hk & Hin). apply in_map_iff in Hin.
    destruct Hin as (idx' & E & Hidx). inversion E; subst. auto.
  - intros [Hi Hidx]. exists i. split; [exact Hi |].
    apply in_map_iff. exists idx. auto.
Qed.

Lemma in_indices_one m n : In [m] (indices [n]) <-> In m (range n).
Proof.
  rewrite in_indices_cons. cbn [indices]. split; [tauto |].
  intros H. split; [exact H | left; reflexivity].
Qed.

Lemma entry_dense (q : gmap (list nat) pyfloat) idx :
  is_Some (q !! idx) -> array_get q idx = Ret (entry q idx).
Proof.
  intros [v Hv]. unfold array_get, entry. rewrite Hv. reflexivity.
Qed.

(** A line of the dump of a cell whose components all exist. *)
Lemma appends_cell_line file q cell count :
  (forall m, In m (range count) -> is_Some (q !! (cell ++ [m])%list)) ->
  appends file (cell_line file q cell count)
    (line_text (cell_values q cell count)).
Proof.
  intros H. unfold cell_line, line_text, cell_values.
  apply appends_app; [| apply appends_emit].
  rewrite List.map_map.
  apply (appends_map_emit file
           (fun m => v <- array_get q (cell ++ [m])%list ;; Ret (fmt_e 16 8 v))
           (fun m => fmt_e 16 8 (entry q (cell ++ [m])%list))).
  intros m Hm. rewrite (entry_dense q _ (H m Hm)). reflexivity.
Qed.

Lemma appends_patch_header file g :
  appends file (patch_header file g) (patch_header_text g).
Proof.
  unfold patch_header, patch_header_text.
  apply appends_cons; [apply appends_emit |].
  apply appends_cons; [apply appends_emit |].
  apply appends_app.
  { apply (appends_map_emit file
      (fun dim => Ret (fmt_i 5 (dim_n dim) +:+ "                  m"
                       +:+ dim_name dim +:+ nl))).
    reflexivity. }
  apply appends_app.
  { apply (appends_map_emit file
      (fun dim => Ret (fmt_e 18 8 (dim_lower dim) +:+ "     "
                       +:+ dim_name dim +:+ "low" +:+ nl))).
    reflexivity. }
  apply appends_app.
  { apply (appends_map_emit file
      (fun dim => Ret (fmt_e 18 8 (dim_d dim) +:+ "     d"
                       +:+ dim_name dim +:+ nl))).
    reflexivity. }
  apply appends_emit.
Qed.

Lemma ndim_cases (g : Grid) :
  grid_ndim g = 1 \/ grid_ndim g = 2 ->
  (exists d0, dimensions g = [d0]) \/ (exists d0 d1, dimensions g = [d0; d1]).
Proof.
  unfold grid_ndim. destruct (dimensions g) as [| d0 [| d1 [| d2 ds]]];
    cbn [List.length]; intros H.
  - lia.
  - left. exists d0. reflexivity.
  - right. exists d0, d1. reflexivity.
  - cbn [List.length] in H. lia.
Qed.

(** The dump of a dense patch of one or two dimensions. *)
Lemma appends_q_dump file g :
  grid_ndim g = 1 \/ grid_ndim g = 2 -> dense g ->
  appends file (q_dump file (grid_meqn g) g) (data_text g (grid_meqn g)).
Proof.
  intros Hn Hd. unfold q_dump, data_text, dim_size, dense, q_shape in *.
  destruct (ndim_cases g Hn) as [(d0 & E) | (d0 & d1 & E)];
    unfold grid_ndim; rewrite E in *; cbn [List.length Z.of_nat Z.eqb
      Pos.of_succ_nat Pos.succ Pos.eqb index nth_error bind List.map app] in *.
  - apply appends_with_value. unfold cells_text.
    apply appends_flat_map. intros k Hk.
    apply appends_cell_line. intros m Hm. apply Hd.
    apply in_indices_cons. split; [exact Hk |].
    apply in_indices_one. exact Hm.
  - apply appends_with_value.
    apply (appends_flat_map file _
             (fun j => cells_text (grid_q g) (grid_meqn g) (fun k => [k; j])
                         (range (dim_n d0)) +:+ nl)).
    intros j Hj. apply appends_cons; [| apply appends_emit].
    apply appends_with_value. unfold cells_text.
    apply appends_flat_map. intros k Hk.
    apply appends_cell_line. intros m Hm. apply Hd.
    apply in_indices_cons. split; [exact Hk |].
    apply in_indices_cons. split; [exact Hj |].
    apply in_indices_one. exact Hm.
Qed.

Lemma run_steps_create p l (fs : filesystem) :
  run_steps (create p :: l) fs = run_steps l (open_w p fs).
Proof. reflexivity. Qed.

Lemma run_steps_emit file s t l (fs : filesystem) :
  fs !! file = Some t ->
  run_steps (emit file (Ret s) :: l) fs = run_steps l (<[file := t +:+ s]> fs).
Proof.
  intros H. cbn [run_steps emit]. rewrite (write_open file s t fs H).
  reflexivity.
Qed.

(** The files that [write_ascii] leaves, for a frame of dense patches of
    one or two dimensions that share [meqn]. *)
Lemma write_ascii_files g0 rest frame path prefix (fs : filesystem) :
  (forall g, In g (g0 :: rest) ->
     grid_meqn g = grid_meqn g0
     /\ (grid_ndim g = 1 \/ grid_ndim g = 2) /\ dense g) ->
  write_ascii (g0 :: rest) frame path prefix false fs
  = (<[path_join path ("fort.q" +:+ zfill4 frame)
       := q_text (g0 :: rest) (grid_meqn g0)]>
       (<[path_join path (prefix +:+ ".t" +:+ zfill4 frame)
          := t_text g0 (List.length (g0 :: rest))]> fs),
     Ret tt).
Proof.
  intros Hall. unfold write_ascii.
  set (T := path_join path (prefix +:+ ".t" +:+ zfill4 frame)).
  set (Q := path_join path ("fort.q" +:+ zfill4 frame)).
  set (sol := g0 :: rest) in *.
  assert (Hattr : forall A (f : Grid -> A), solution_attr f sol = Ret (f g0))
    by reflexivity.
  rewrite !Hattr. cbn [bind].
  rewrite run_steps_create. unfold open_w at 1.
  rewrite (run_steps_emit T _ EmptyString) by apply lookup_insert_eq.
  rewrite insert_insert_eq.
  erewrite (run_steps_emit T) by apply lookup_insert_eq.
  rewrite insert_insert_eq.
  erewrite (run_steps_emit T) by apply lookup_insert_eq.
  rewrite insert_insert_eq.
  erewrite (run_steps_emit T) by apply lookup_insert_eq.
  rewrite insert_insert_eq.
  erewrite (run_steps_emit T) by apply lookup_insert_eq.
  rewrite insert_insert_eq.
  rewrite run_steps_create. unfold open_w.
  lazymatch goal with
  | |- run_steps [with_value (Ret ?a) ?k] _ = _ =>
      assert (Hq : appends Q [with_value (Ret a) k] (q_text sol (grid_meqn g0)))
  end.
  { apply appends_with_value. cbv beta. rewrite andb_false_r. cbn [app].
    unfold q_text.
    apply appends_flat_map. intros g Hg.
    destruct (Hall g Hg) as (Hm & Hn & Hd).
    rewrite andb_false_r. unfold patch_text.
    apply appends_app; [apply appends_patch_header |].
    apply appends_with_value. rewrite <- Hm.
    apply appends_q_dump; assumption. }
  rewrite (Hq _ EmptyString) by apply lookup_insert_eq.
  rewrite insert_insert_eq.
  change (EmptyString +:+ ?x) with x.
  unfold t_text. rewrite !append_assoc_s. reflexivity.
Qed.

End Writer.

(** ** Reading the labelled lines *)

Section Lines.

#[local] Arguments Str.isspace : simpl never.

Lemma py_float_reread x :
  py_float (str_e 8 x) = Ret (reread x) /\ close_to tol8 (reread x) x.
Proof.
  destruct (py_float_str_e x) as (x' & E & Hc). unfold reread.
  rewrite E. split; [reflexivity | exact Hc].
Qed.

Lemma starts_space_app a b :
  starts_space a = true -> starts_space b = true ->
  starts_space (a +:+ b) = true.
Proof. destruct a as [| c a]; intros Ha Hb; [exact Hb | exact Ha]. Qed.

Lemma no_newline_app a b :
  no_newline a = true -> no_newline b = true -> no_newline (a +:+ b) = true.
Proof.
  unfold no_newline. intros Ha Hb. rewrite all_chars_append, Ha, Hb.
  reflexivity.
Qed.

(** A line that holds a right-justified value and a label. *)
Lemma read_labelled {A} (conv : string -> result A) tok v w label line rest :
  is_word tok = true -> conv tok = Ret v ->
  starts_space label = true -> no_newline label = true ->
  line = rjust w tok +:+ label +:+ nl ->
  read_data_line conv (line +:+ rest) = Ret (v, rest).
Proof.
  intros Hw Hv Hs Hn ->. unfold read_data_line.
  assert (E : (rjust w tok +:+ label +:+ nl) +:+ rest
              = (rjust w tok +:+ label) +:+ String newline rest).
  { rewrite !append_assoc_s. reflexivity. }
  rewrite E, readline_line.
  - rewrite append_assoc_s.
    rewrite split_rjust.
    + cbn [index nth_error bind]. rewrite Hv. reflexivity.
    + exact Hw.
    + apply starts_space_app; [exact Hs | reflexivity].
  - apply no_newline_app; [| exact Hn].
    apply no_newline_rjust, word_no_newline, Hw.
Qed.

Lemma read_int_line n label line rest :
  starts_space label = true -> no_newline label = true ->
  line = fmt_i 5 n +:+ label +:+ nl ->
  read_data_line py_int (line +:+ rest) = Ret (n, rest).
Proof.
  intros Hs Hn E.
  apply (read_labelled py_int (str_int n) n 5 label line rest);
    [apply str_int_word | apply py_int_str_int | exact Hs | exact Hn | exact E].
Qed.

Lemma read_float_line x label line rest :
  starts_space label = true -> no_newline label = true ->
  line = fmt_e 18 8 x +:+ label +:+ nl ->
  read_data_line py_float (line +:+ rest) = Ret (reread x, rest).
Proof.
  intros Hs Hn E.
  apply (read_labelled py_float (str_e 8 x) (reread x) 18 label line rest);
    [apply str_e_word | apply py_float_reread | exact Hs | exact Hn | exact E].
Qed.

(** One value per line, for the items of a list. *)
Lemma read_many_lines {A B} (conv : string -> result A) (txt : B -> string)
    (val : B -> A) xs rest :
  (forall x r, In x xs -> read_data_line conv (txt x +:+ r) = Ret (val x, r)) ->
  read_many (read_data_line conv) (List.length xs)
    (concat (List.map txt xs) +:+ rest)
  = Ret (List.map val xs, rest).
Proof.
  induction xs as [| x xs IH]; intros H; [reflexivity |].
  cbn [List.length List.map concat read_many].
  rewrite append_assoc_s, (H x) by (left; reflexivity).
  cbn [bind snd fst]. rewrite IH by (intros y r Hy; apply H; right; exact Hy).
  reflexivity.
Qed.

(** The time file. *)
Lemma read_t_text g ngrids rest :
  read_data_line py_float (t_text g ngrids +:+ rest) =
    Ret (reread (grid_t g),
         (fmt_i 5 (grid_meqn g) +:+ "                  meqn" +:+ nl)
         +:+ (fmt_i 5 (Z.of_nat ngrids) +:+ "                  ngrids" +:+ nl)
         +:+ (fmt_i 5 (grid_maux g) +:+ "                  maux" +:+ nl)
         +:+ (fmt_i 5 (grid_ndim g) +:+ "                  ndim" +:+ nl)
         +:+ rest).
Proof.
  unfold t_text.
  set (L1 := fmt_e 18 8 (grid_t g) +:+ "     time" +:+ nl).
  set (L2 := fmt_i 5 (grid_meqn g) +:+ "                  meqn" +:+ nl).
  set (L3 := fmt_i 5 (Z.of_nat ngrids) +:+ "                  ngrids" +:+ nl).
  set (L4 := fmt_i 5 (grid_maux g) +:+ "                  maux" +:+ nl).
  set (L5 := fmt_i 5 (grid_ndim g) +:+ "                  ndim" +:+ nl).
  rewrite !append_assoc_s.
  apply (read_float_line (grid_t g) "     time"); reflexivity.
Qed.

Lemma read_ascii_t_text (fs : filesystem) frame path prefix g ngrids :
  fs !! (path_join path (prefix +:+ ".t") +:+ zfill4 frame)
    = Some (t_text g ngrids) ->
  read_ascii_t fs frame path prefix
  = Ret (MkFrameHeader (reread (grid_t g)) (grid_meqn g) (Z.of_nat ngrids)
           (grid_maux g) (grid_ndim g)).
Proof.
  intros H. unfold read_ascii_t, open_r. rewrite H. cbn [bind].
  rewrite <- (append_nil_r (t_text g ngrids)), read_t_text.
  cbn [bind fst snd].
  erewrite (read_int_line _ "                  meqn") by reflexivity.
  cbn [bind fst snd].
  erewrite (read_int_line _ "                  ngrids") by reflexivity.
  cbn [bind fst snd].
  erewrite (read_int_line _ "                  maux") by reflexivity.
  cbn [bind fst snd].
  erewrite (read_int_line _ "                  ndim") by reflexivity.
  reflexivity.
Qed.

(** The sub-header of a patch of one or two dimensions. *)
Lemma patch_subheader_text g h rest :
  grid_ndim g = 1 \/ grid_ndim g = 2 -> fh_ndim h = grid_ndim g ->
  (forall dim, In dim (dimensions g) -> no_newline (dim_name dim) = true) ->
  patch_subheader h (patch_header_text g +:+ rest)
  = Ret (gridno g, level g, reread_dims (dimensions g), rest).
Proof.
  intros Hn Hh Hname. unfold patch_subheader, patch_header_text.
  set (L1 := fmt_i 5 (gridno g) +:+ "                  grid_number" +:+ nl).
  set (L2 := fmt_i 5 (level g) +:+ "                  AMR_level" +:+ nl).
  set (t1 := fun dim => fmt_i 5 (dim_n dim) +:+ "                  m"
                        +:+ dim_name dim +:+ nl).
  set (t2 := fun dim => fmt_e 18 8 (dim_lower dim) +:+ "     "
                        +:+ dim_name dim +:+ "low" +:+ nl).
  set (t3 := fun dim => fmt_e 18 8 (dim_d dim) +:+ "     d"
                        +:+ dim_name dim +:+ nl).
  set (C1 := concat (List.map t1 (dimensions g))).
  set (C2 := concat (List.map t2 (dimensions g))).
  set (C3 := concat (List.map t3 (dimensions g))).
  rewrite !append_assoc_s.
  rewrite (read_int_line (gridno g) "                  grid_number" L1)
    by reflexivity.
  cbn [bind fst snd].
  rewrite (read_int_line (level g) "                  AMR_level" L2)
    by reflexivity.
  cbn [bind fst snd].
  assert (Hpos : (fh_ndim h <? 0) = false).
  { apply Z.ltb_ge. rewrite Hh. lia. }
  rewrite Hpos. cbn [bind].
  rewrite Hh. unfold grid_ndim. rewrite !Nat2Z.id.
  unfold C1. rewrite (read_many_lines py_int t1 dim_n).
  2:{ intros x r Hx.
      apply (read_int_line (dim_n x) ("                  m" +:+ dim_name x));
        [reflexivity | | reflexivity].
      apply no_newline_app; [reflexivity | apply Hname, Hx]. }
  cbn [bind fst snd].
  unfold C2. rewrite (read_many_lines py_float t2 (fun d => reread (dim_lower d))).
  2:{ intros x r Hx.
      apply (read_float_line (dim_lower x) ("     " +:+ dim_name x +:+ "low")).
      - reflexivity.
      - apply no_newline_app; [reflexivity |].
        apply no_newline_app; [apply Hname, Hx | reflexivity].
      - unfold t2. rewrite !append_assoc_s. reflexivity. }
  cbn [bind fst snd].
  unfold C3. rewrite (read_many_lines py_float t3 (fun d => reread (dim_d d))).
  2:{ intros x r Hx.
      apply (read_float_line (dim_d x) ("     d" +:+ dim_name x));
        [reflexivity | | reflexivity].
      apply no_newline_app; [reflexivity | apply Hname, Hx]. }
  cbn [bind fst snd].
  change (nl +:+ rest) with (String newline rest).
  cbn [readline]. rewrite Ascii.eqb_refl. cbn [snd].
  unfold reread_dims, reread_dim.
  destruct (ndim_cases g Hn) as [(d0 & E) | (d0 & d1 & E)]; rewrite E;
    reflexivity.
Qed.

End Lines.

(** ** Reading the data of a patch *)

Section Data.

#[local] Arguments Str.isspace : simpl never.

Lemma fmt_e_starts_space v s :
  fits v -> starts_space (fmt_e 16 8 v +:+ s) = true.
Proof.
  unfold fits, fmt_e, rjust. intros H.
  destruct (16 - String.length (str_e 8 v))%nat as [| k] eqn:E; [lia |].
  reflexivity.
Qed.

Lemma fmt_e_no_newline w v : no_newline (fmt_e w 8 v) = true.
Proof. apply no_newline_rjust, word_no_newline, str_e_word. Qed.

Lemma concat_no_newline vs :
  no_newline (concat (List.map (fmt_e 16 8) vs)) = true.
Proof.
  induction vs as [| v vs IH]; [reflexivity |].
  cbn [List.map concat]. apply no_newline_app; [apply fmt_e_no_newline | exact IH].
Qed.

(** The tokens of a line of fields that do not touch. *)
Lemma split_values vs : forall v,
  List.Forall fits vs ->
  split (concat (List.map (fmt_e 16 8) (v :: vs)) +:+ nl)
  = List.map (str_e 8) (v :: vs).
Proof.
  induction vs as [| v' vs IH]; intros v H.
  - cbn [List.map concat]. rewrite append_nil_r.
    unfold fmt_e. rewrite split_rjust; [reflexivity | apply str_e_word |].
    reflexivity.
  - inversion H as [| ? ? Hv' Hvs]; subst.
    change (concat (List.map (fmt_e 16 8) (v :: v' :: vs)))
      with (fmt_e 16 8 v +:+ concat (List.map (fmt_e 16 8) (v' :: vs))).
    rewrite append_assoc_s. unfold fmt_e at 1.
    rewrite split_rjust.
    + rewrite (IH v' Hvs). reflexivity.
    + apply str_e_word.
    + cbn [List.map concat]. rewrite append_assoc_s.
      apply fmt_e_starts_space. exact Hv'.
Qed.

Lemma while_done {S} fuel (cond : S -> bool) body s :
  cond s = false -> while fuel cond body s = Some (Ret s).
Proof. intros H. destruct fuel; cbn [while]; rewrite H; reflexivity. Qed.

(** The loop that collects the tokens of a cell reads one line. *)
Lemma fill_tokens_line fuel v vs rest :
  (1 <= fuel)%nat -> List.Forall fits vs ->
  fill_tokens fuel (Z.of_nat (List.length (v :: vs)))
    (line_text (v :: vs) +:+ rest)
  = Some (Ret (List.map (str_e 8) (v :: vs), rest)).
Proof.
  intros Hf Hfit. unfold fill_tokens.
  destruct fuel as [| fuel]; [lia |].
  cbn [while fst snd]. 
  assert (Hc : (Z.of_nat (List.length (@nil string))
                <? Z.of_nat (List.length (v :: vs))) = true).
  { apply Z.ltb_lt. cbn [List.length]. lia. }
  rewrite Hc.
  assert (Hr : readline (line_text (v :: vs) +:+ rest)
               = (line_text (v :: vs), rest)).
  { unfold line_text. rewrite append_assoc_s.
    change (nl +:+ rest) with (String newline rest).
    apply readline_line, concat_no_newline. }
  rewrite Hr. cbn [app].
  unfold line_text. rewrite (split_values vs v Hfit).
  apply while_done. cbn [fst]. apply Z.ltb_ge.
  rewrite List.length_map. lia.
Qed.

Lemma updates_nil q a : updates q a a [].
Proof. split; [intros idx [] | reflexivity]. Qed.

Lemma updates_app q a a1 a2 k1 k2 :
  updates q a a1 k1 -> updates q a1 a2 k2 -> updates q a a2 (k1 ++ k2).
Proof.
  intros [H1 H1'] [H2 H2']. split; intros idx Hidx.
  - destruct (in_dec (fun x y => decide (x = y)) idx k2) as [Hin | Hout].
    + apply H2, Hin.
    + rewrite H2' by exact Hout. apply H1.
      apply in_app_or in Hidx. tauto.
  - rewrite H2', H1'; [reflexivity | |]; intros Hin; apply Hidx, in_or_app; tauto.
Qed.

Lemma updates_insert (q a : gmap (list nat) pyfloat) idx :
  updates q a (<[idx := reread (entry q idx)]> a) [idx].
Proof.
  split.
  - intros k [<- | []]. apply lookup_insert_eq.
  - intros k Hk. apply lookup_insert_ne. intros ->. apply Hk. left. reflexivity.
Qed.

Lemma nth_error_map_seq {A} (f : nat -> A) n m :
  (m < n)%nat -> nth_error (List.map f (seq 0 n)) m = Some (f m).
Proof.
  intros H. rewrite List.nth_error_map, List.nth_error_seq.
  destruct (Nat.ltb_spec m n); [reflexivity | lia].
Qed.

(** The components of a cell are converted and stored. *)
Lemma store_components q cell n : forall ms a,
  (forall m, In m ms -> (m < n)%nat) ->
  exists a',
    for_each ms (fun m a =>
      tok <- index (List.map (fun m => str_e 8 (entry q (cell ++ [m])%list))
                      (seq 0 n)) m ;;
      v <- py_float tok ;;
      Ret (<[(cell ++ [m])%list := v]> a)) a = Ret a'
    /\ updates q a a' (List.map (fun m => (cell ++ [m])%list) ms).
Proof.
  induction ms as [| m ms IH]; intros a H.
  - exists a. split; [reflexivity | apply updates_nil].
  - cbn [for_each]. unfold index at 1.
    rewrite nth_error_map_seq by (apply H; left; reflexivity).
    cbn [bind]. rewrite (proj1 (py_float_reread _)). cbn [bind].
    destruct (IH (<[(cell ++ [m])%list := reread (entry q (cell ++ [m])%list)]> a))
      as (a' & E & Hu).
    { intros m' Hm'. apply H. right. exact Hm'. }
    exists a'. split; [exact E |].
    exact (updates_app q a _ a' [(cell ++ [m])%list] _
             (updates_insert q a (cell ++ [m])%list) Hu).
Qed.

Lemma fill_tokens_cell fuel q meqn cell rest :
  (1 <= fuel)%nat -> 1 <= meqn ->
  (forall m, In m (range meqn) -> m <> 0%nat ->
     fits (entry q (cell ++ [m])%list)) ->
  fill_tokens fuel meqn (line_text (cell_values q cell meqn) +:+ rest)
  = Some (Ret (List.map (fun m => str_e 8 (entry q (cell ++ [m])%list))
                 (seq 0 (Z.to_nat meqn)), rest)).
Proof.
  intros Hf Hm Hfit. unfold cell_values, range in *.
  destruct (Z.to_nat meqn) as [| n] eqn:En; [lia |].
  set (val := fun m => entry q (cell ++ [m])%list) in *.
  assert (Hfits : List.Forall fits (List.map val (seq 1 n))).
  { apply List.Forall_forall. intros v Hv. apply in_map_iff in Hv.
    destruct Hv as (m & <- & Hin). apply in_seq in Hin.
    apply Hfit; [apply in_seq; lia | lia]. }
  pose proof (fill_tokens_line fuel (val 0%nat) (List.map val (seq 1 n)) rest
                Hf Hfits) as H.
  cbn [List.length] in H. rewrite List.length_map, List.length_seq in H.
  replace (Z.of_nat (S n)) with meqn in H by lia.
  cbn [seq List.map]. rewrite H. cbn [List.map]. rewrite List.map_map.
  reflexivity.
Qed.

(** A cell of the dump is read from its line. *)
Lemma read_cell_text fuel q meqn cell a rest :
  (1 <= fuel)%nat -> 1 <= meqn ->
  (forall m, In m (range meqn) -> m <> 0%nat ->
     fits (entry q (cell ++ [m])%list)) ->
  exists a',
    read_cell fuel meqn cell (a, line_text (cell_values q cell meqn) +:+ rest)
    = Some (Ret (a', rest))
    /\ updates q a a' (List.map (fun m => (cell ++ [m])%list) (range meqn)).
Proof.
  intros Hf Hm Hfit. unfold read_cell. cbn [fst snd].
  rewrite (fill_tokens_cell fuel q meqn cell rest Hf Hm Hfit).
  cbn [pbind fst snd].
  destruct (store_components q cell (Z.to_nat meqn) (range meqn) a)
    as (a' & E & Hu).
  { intros m Hin. apply in_seq in Hin. lia. }
  exists a'. rewrite E. split; [reflexivity | exact Hu].
Qed.

(** The cells of a run of lines. *)
Lemma read_cells fuel q meqn key : forall ks a rest,
  (1 <= fuel)%nat -> 1 <= meqn ->
  (forall k m, In k ks -> In m (range meqn) -> m <> 0%nat ->
     fits (entry q (key k ++ [m])%list)) ->
  exists a',
    pfor ks (fun k => read_cell fuel meqn (key k))
      (a, cells_text q meqn key ks +:+ rest)
    = Some (Ret (a', rest))
    /\ updates q a a' (cell_keys meqn key ks).
Proof.
  induction ks as [| k ks IH]; intros a rest Hf Hm Hfit.
  - exists a. split; [reflexivity | apply updates_nil].
  - unfold cells_text. cbn [List.map concat pfor]. rewrite append_assoc_s.
    destruct (read_cell_text fuel q meqn (key k) a
                (cells_text q meqn key ks +:+ rest) Hf Hm) as (a1 & E1 & U1).
    { intros m Hin Hne. apply Hfit; [left; reflexivity | exact Hin | exact Hne]. }
    fold (cells_text q meqn key ks). rewrite E1. cbn [pbind].
    destruct (IH a1 rest Hf Hm) as (a' & E & U).
    { intros k' m Hk'. apply Hfit. right. exact Hk'. }
    exists a'. split; [exact E |].
    unfold cell_keys. cbn [flat_map]. exact (updates_app q a a1 a' _ _ U1 U).
Qed.

(** The rows of a two-dimensional dump: each row ends with a blank line. *)
Lemma read_rows fuel q meqn grid n0 :
  dim_size grid 0 = Ret n0 ->
  forall js a rest,
  (1 <= fuel)%nat -> 1 <= meqn ->
  (forall j k m, In j js -> In k (range n0) -> In m (range meqn) ->
     m <> 0%nat -> fits (entry q ([k; j] ++ [m])%list)) ->
  exists a',
    pfor js (fun j st =>
      n0 <~ lift (dim_size grid 0) ;;
      st' <~ pfor (range n0) (fun i => read_cell fuel meqn [i; j]) st ;;
      Some (Ret (skip_line st')))
      (a, concat (List.map (fun j =>
            cells_text q meqn (fun k => [k; j]) (range n0) +:+ nl) js)
          +:+ rest)
    = Some (Ret (a', rest))
    /\ updates q a a'
         (flat_map (fun j => cell_keys meqn (fun k => [k; j]) (range n0)) js).
Proof.
  intros Hsize. induction js as [| j js IH]; intros a rest Hf Hm Hfit.
  - exists a. split; [reflexivity | apply updates_nil].
  - set (body := fun (j : nat) (st : gmap (list nat) pyfloat * string) =>
        n0 <~ lift (dim_size grid 0) ;;
        st' <~ pfor (range n0) (fun i => read_cell fuel meqn [i; j]) st ;;
        Some (Ret (skip_line st'))).
    set (tail := concat (List.map (fun j =>
                   cells_text q meqn (fun k => [k; j]) (range n0) +:+ nl) js)
                 +:+ rest).
    destruct (read_cells fuel q meqn (fun k => [k; j]) (range n0) a
                (nl +:+ tail) Hf Hm) as (a1 & E1 & U1).
    { intros k m Hk. apply Hfit; [left; reflexivity | exact Hk]. }
    assert (Hb : body j (a, concat (List.map (fun j =>
                   cells_text q meqn (fun k => [k; j]) (range n0) +:+ nl)
                   (j :: js)) +:+ rest)
                 = Some (Ret (a1, tail))).
    { unfold body. rewrite Hsize. cbn [lift pbind List.map concat].
      rewrite !append_assoc_s. fold tail. rewrite E1. cbn [pbind].
      unfold skip_line. cbn [fst snd].
      change (nl +:+ tail) with (String newline tail).
      cbn [readline]. rewrite Ascii.eqb_refl. reflexivity. }
    change (pfor (j :: js) body (a, concat (List.map (fun j =>
              cells_text q meqn (fun k => [k; j]) (range n0) +:+ nl)
              (j :: js)) +:+ rest))
      with (s' <~ body j (a, concat (List.map (fun j =>
              cells_text q meqn (fun k => [k; j]) (range n0) +:+ nl)
              (j :: js)) +:+ rest) ;; pfor js body s').
    rewrite Hb. cbn [pbind].
    destruct (IH a1 rest Hf Hm) as (a' & E & U).
    { intros j' k m Hj'. apply Hfit. right. exact Hj'. }
    exists a'. split; [exact E |].
    cbn [flat_map]. exact (updates_app q a a1 a' _ _ U1 U).
Qed.

End Data.

(** ** Reading a patch and a frame *)

Section Patches.

Lemma in_indices_inv idx n shape :
  In idx (indices (n :: shape)) ->
  exists i tl, idx = i :: tl /\ In i (range n) /\ In tl (indices shape).
Proof.
  cbn [indices]. rewrite in_flat_map. intros (i & Hi & Hin).
  apply in_map_iff in Hin. destruct Hin as (tl & <- & Htl).
  exists i, tl. auto.
Qed.

Lemma in_indices_2 idx n0 meqn :
  In idx (indices [n0; meqn])
  <-> exists k m, idx = [k; m] /\ In k (range n0) /\ In m (range meqn).
Proof.
  split.
  - intros H. apply in_indices_inv in H. destruct H as (k & tl & -> & Hk & H).
    apply in_indices_inv in H. destruct H as (m & tl' & -> & Hm & H).
    destruct H as [<- | []]. exists k, m. auto.
  - intros (k & m & -> & Hk & Hm). apply in_indices_cons. split; [exact Hk |].
    apply in_indices_one. exact Hm.
Qed.

Lemma in_indices_3 idx n0 n1 meqn :
  In idx (indices [n0; n1; meqn])
  <-> exists k j m, idx = [k; j; m] /\ In k (range n0) /\ In j (range n1)
                    /\ In m (range meqn).
Proof.
  split.
  - intros H. apply in_indices_inv in H. destruct H as (k & tl & -> & Hk & H).
    apply in_indices_2 in H. destruct H as (j & m & -> & Hj & Hm).
    exists k, j, m. auto.
  - intros (k & j & m & -> & Hk & Hj & Hm).
    apply in_indices_cons. split; [exact Hk |].
    apply in_indices_2. exists j, m. auto.
Qed.

Lemma in_keys_1 idx n0 meqn :
  In idx (cell_keys meqn (fun k => [k]) (range n0))
  <-> In idx (indices [n0; meqn]).
Proof.
  rewrite in_indices_2. unfold cell_keys. rewrite in_flat_map. split.
  - intros (k & Hk & H). apply in_map_iff in H. destruct H as (m & <- & Hm).
    exists k, m. auto.
  - intros (k & m & -> & Hk & Hm). exists k. split; [exact Hk |].
    apply in_map_iff. exists m. auto.
Qed.

Lemma in_keys_2 idx n0 n1 meqn :
  In idx (flat_map (fun j => cell_keys meqn (fun k => [k; j]) (range n0))
            (range n1))
  <-> In idx (indices [n0; n1; meqn]).
Proof.
  rewrite in_indices_3, in_flat_map. unfold cell_keys. split.
  - intros (j & Hj & H). apply in_flat_map in H. destruct H as (k & Hk & H).
    apply in_map_iff in H. destruct H as (m & <- & Hm).
    exists k, j, m. auto.
  - intros (k & j & m & -> & Hk & Hj & Hm). exists j. split; [exact Hj |].
    apply in_flat_map. exists k. split; [exact Hk |].
    apply in_map_iff. exists m. auto.
Qed.

Lemma updates_ext q a a' k1 k2 :
  (forall idx, In idx k1 <-> In idx k2) -> updates q a a' k1 ->
  updates q a a' k2.
Proof.
  intros H [H1 H2]. split; intros idx Hidx.
  - apply H1, H, Hidx.
  - apply H2. intros Hin. apply Hidx, H, Hin.
Qed.

Lemma dim_sizes_1 (g g' : Grid) d0 :
  dimensions g = [d0] ->
  List.map dim_n (dimensions g') = List.map dim_n (dimensions g) ->
  grid_ndim g' = 1 /\ dim_size g' 0 = Ret (dim_n d0).
Proof.
  intros E H. rewrite E in H. unfold grid_ndim, dim_size.
  destruct (dimensions g') as [| d0' [| d1' ds]]; try discriminate.
  injection H as H. cbn [index nth_error bind]. rewrite H. auto.
Qed.

Lemma dim_sizes_2 (g g' : Grid) d0 d1 :
  dimensions g = [d0; d1] ->
  List.map dim_n (dimensions g') = List.map dim_n (dimensions g) ->
  grid_ndim g' = 2 /\ dim_size g' 0 = Ret (dim_n d0)
  /\ dim_size g' 1 = Ret (dim_n d1).
Proof.
  intros E H. rewrite E in H. unfold grid_ndim, dim_size.
  destruct (dimensions g') as [| d0' [| d1' [| d2' ds]]]; try discriminate.
  injection H as H0 H1. cbn [index nth_error bind]. rewrite H0, H1. auto.
Qed.

(** The data of a patch is read from its dump. *)
Lemma read_q_text fuel g g' rest :
  grid_ndim g = 1 \/ grid_ndim g = 2 ->
  List.map dim_n (dimensions g') = List.map dim_n (dimensions g) ->
  grid_meqn g' = grid_meqn g -> 1 <= grid_meqn g -> (1 <= fuel)%nat ->
  (forall idx, In idx (indices (q_shape g)) ->
     List.last idx 0%nat <> 0%nat -> fits (entry (grid_q g) idx)) ->
  exists a',
    read_q fuel g' (data_text g (grid_meqn g) +:+ rest) = Some (Ret (a', rest))
    /\ updates (grid_q g) (grid_q g') a' (indices (q_shape g)).
Proof.
  intros Hn Hdims Hmeqn Hm Hf Hfit.
  unfold read_q, data_text, q_shape in *. rewrite Hmeqn.
  destruct (ndim_cases g Hn) as [(d0 & E) | (d0 & d1 & E)].
  - destruct (dim_sizes_1 g g' d0 E Hdims) as (Hnd & Hs0).
    rewrite Hnd, Hs0, E in *. cbn [List.map app] in Hfit.
    change (1 =? 1) with true. cbn [lift pbind List.map app].
    destruct (read_cells fuel (grid_q g) (grid_meqn g) (fun k => [k])
                (range (dim_n d0)) (grid_q g') rest Hf Hm) as (a' & Ea & U).
    { intros k m Hk Hin Hne. apply Hfit.
      - apply in_keys_1. unfold cell_keys. apply in_flat_map.
        exists k. split; [exact Hk |]. apply in_map_iff. exists m. auto.
      - rewrite List.last_last. exact Hne. }
    exists a'. split; [exact Ea |].
    apply (updates_ext _ _ _ _ _ (fun idx => in_keys_1 idx _ _) U).
  - destruct (dim_sizes_2 g g' d0 d1 E Hdims) as (Hnd & Hs0 & Hs1).
    rewrite Hnd, Hs1, E in *. cbn [List.map app] in Hfit.
    change (2 =? 1) with false. change (2 =? 2) with true.
    cbn [lift pbind List.map app].
    destruct (read_rows fuel (grid_q g) (grid_meqn g) g' (dim_n d0) Hs0
                (range (dim_n d1)) (grid_q g') rest Hf Hm) as (a' & Ea & U).
    { intros j k m Hj Hk Hin Hne. apply Hfit.
      - apply in_keys_2. apply in_flat_map. exists j. split; [exact Hj |].
        unfold cell_keys. apply in_flat_map. exists k. split; [exact Hk |].
        apply in_map_iff. exists m. auto.
      - rewrite List.last_last. exact Hne. }
    exists a'. split; [exact Ea |].
    apply (updates_ext _ _ _ _ _ (fun idx => in_keys_2 idx _ _ _) U).
Qed.

Lemma reread_dims_n dims :
  (List.length dims <= 3)%nat ->
  List.map dim_n (reread_dims dims) = List.map dim_n dims.
Proof.
  destruct dims as [| d0 [| d1 [| d2 [| d3 ds]]]]; cbn [List.length];
    intros H; try reflexivity. lia.
Qed.

Lemma ndim_length (g : Grid) :
  grid_ndim g = 1 \/ grid_ndim g = 2 -> (List.length (dimensions g) <= 3)%nat.
Proof. unfold grid_ndim. lia. Qed.

(** A patch is read from its text: the state of the loop afterwards. *)
Lemma read_patch_text fuel h g0 g st rest :
  writable g0 g -> 1 <= grid_meqn g0 -> 0 <= grid_maux g0 -> (1 <= fuel)%nat ->
  fh_t h = reread (grid_t g0) -> fh_meqn h = grid_meqn g0 ->
  fh_maux h = grid_maux g0 -> fh_ndim h = grid_ndim g0 ->
  r_fid st = patch_text (grid_meqn g0) g +:+ rest ->
  exists g' inds',
    read_patch fuel h st
    = Some (Ret (RState rest (r_solution st ++ [g'])%list inds'))
    /\ same_patch g g'.
Proof.
  intros (Wt & Wm & Wa & Wn & Wnd & Wdims & Wdense & Wfit) Hm Ha Hf
    Ht Hmeqn Hmaux Hndim Hfid.
  unfold read_patch. rewrite Hfid. unfold patch_text.
  rewrite append_assoc_s, <- Wm.
  rewrite (patch_subheader_text g h) by
    (first [exact Wnd | congruence | intros d Hd; apply Wdims, Hd]).
  cbn [lift pbind].
  pose proof (reread_dims_n (dimensions g) (ndim_length g Wnd)) as Hdn.
  destruct (read_q_text fuel g (new_grid h (reread_dims (dimensions g))) rest)
    as (a' & Eq & U);
    [exact Wnd | exact Hdn | cbn [new_grid grid_meqn]; congruence | lia
    | exact Hf | exact Wfit |].
  rewrite Eq. cbn [pbind fst snd].
  eexists. eexists. split; [reflexivity |].
  unfold same_patch.
  cbn [gridno level grid_t grid_meqn grid_maux grid_q dimensions new_grid].
  destruct U as [U1 U2].
  split; [reflexivity |]. split; [reflexivity |].
  split; [rewrite Ht, Wt; apply py_float_reread |].
  split; [congruence |].
  split.
  { rewrite Hmaux, Wa. destruct (Z.ltb_spec 0 (grid_maux g0)); lia. }
  split.
  { unfold grid_ndim. cbn [dimensions].
    rewrite <- (List.length_map dim_n (reread_dims (dimensions g))), Hdn.
    rewrite List.length_map. reflexivity. }
  split; [exact Hdn |].
  split.
  - intros idx Hidx. destruct (Wdense idx Hidx) as [v Hv].
    exists v, (reread v). split; [exact Hv |]. split.
    + rewrite (U1 idx Hidx). unfold entry. rewrite Hv. reflexivity.
    + apply py_float_reread.
  - intros idx Hidx. rewrite (U2 idx Hidx). apply lookup_empty.
Qed.

(** The patches of a frame are read from the text of the primary file. *)
Lemma read_patches_text fuel h g0 : forall gs st rest,
  Forall (writable g0) gs ->
  1 <= grid_meqn g0 -> 0 <= grid_maux g0 -> (1 <= fuel)%nat ->
  fh_t h = reread (grid_t g0) -> fh_meqn h = grid_meqn g0 ->
  fh_maux h = grid_maux g0 -> fh_ndim h = grid_ndim g0 ->
  r_fid st = q_text gs (grid_meqn g0) +:+ rest ->
  exists gs' inds',
    read_patches fuel h (List.length gs) st
    = (RState rest (r_solution st ++ gs')%list inds', Some (Ret tt))
    /\ Forall2 same_patch gs gs'.
Proof.
  induction gs as [| g gs IH];
    intros st rest HW Hm Ha Hf Ht Hmeqn Hmaux Hndim Hfid.
  - exists [], (r_inds st). split; [| constructor].
    destruct st as [f sol inds]. cbn [read_patches List.length r_solution r_inds].
    cbn [r_fid q_text List.map concat] in Hfid.
    change (EmptyString +:+ rest) with rest in Hfid.
    rewrite Hfid, List.app_nil_r. reflexivity.
  - inversion HW as [| ? ? Wg Wgs]; subst.
    unfold q_text in Hfid. cbn [List.map concat] in Hfid.
    rewrite append_assoc_s in Hfid. fold (q_text gs (grid_meqn g0)) in Hfid.
    destruct (read_patch_text fuel h g0 g st _ Wg Hm Ha Hf Ht Hmeqn Hmaux
                Hndim Hfid) as (g' & inds1 & E1 & Sg).
    cbn [List.length read_patches]. rewrite E1.
    destruct (IH (RState (q_text gs (grid_meqn g0) +:+ rest)
                    (r_solution st ++ [g'])%list inds1) rest
                Wgs Hm Ha Hf Ht Hmeqn Hmaux Hndim eq_refl)
      as (gs' & inds' & E & Sgs).
    exists (g' :: gs'), inds'. split; [| constructor; assumption].
    rewrite E. cbn [r_solution]. rewrite <- List.app_assoc. reflexivity.
Qed.

Lemma append_inj_l p a b : p +:+ a = p +:+ b -> a = b.
Proof.
  induction p as [| c p IH]; intros H; [exact H |].
  apply IH. change (String c (p +:+ a) = String c (p +:+ b)) in H.
  congruence.
Qed.

Lemma path_join_app path a b :
  path_join path (a +:+ b) = path_join path a +:+ b.
Proof.
  unfold path_join. destruct (last_char path) as [c |]; [| reflexivity].
  destruct (Ascii.eqb c "/"); rewrite !append_assoc_s; reflexivity.
Qed.

Lemma path_join_inj path a b : path_join path a = path_join path b -> a = b.
Proof.
  unfold path_join. destruct (last_char path) as [c |]; [| auto].
  destruct (Ascii.eqb c "/"); intros H.
  - apply append_inj_l in H. exact H.
  - apply append_inj_l in H. apply (append_inj_l "/") in H. exact H.
Qed.

End Patches.

(** ** A frame that is written and read back *)

Lemma frame_names_differ path frame :
  path_join path ("fort.q" +:+ zfill4 frame)
  <> path_join path ("fort" +:+ ".t" +:+ zfill4 frame).
Proof.
  intros H. apply path_join_inj in H. discriminate H.
Qed.

(** X1: a frame of patches that the format can hold ([writable]), written by
    [write_ascii] under the prefix [fort] without the auxiliary array and
    read by [read_ascii] with any fuel: the write returns, the read returns
    and appends one patch per patch written, in order, each with the same
    grid number, level, [meqn], [maux], number of dimensions and sizes, and
    with the time and every entry of [q] within [1e-8] of the original. *)
Theorem write_ascii_read_ascii_round_trip
    (g0 : Grid) (rest : list Grid) (frame : Z) (path : string)
    (fs : filesystem) (solution : Solution) (fuel : nat) :
  Forall (writable g0) (g0 :: rest) ->
  1 <= grid_meqn g0 -> 0 <= grid_maux g0 -> 0 <= frame -> (1 <= fuel)%nat ->
  exists fs' patches,
    write_ascii (g0 :: rest) frame path "fort" false fs = (fs', Ret tt)
    /\ read_ascii fuel fs' solution frame path "fort" false
       = ((solution ++ patches)%list, Some (Ret tt))
    /\ Forall2 same_patch (g0 :: rest) patches.
Proof.
  intros HW Hm Ha Hframe Hf.
  assert (Hall : forall g, In g (g0 :: rest) ->
            grid_meqn g = grid_meqn g0
            /\ (grid_ndim g = 1 \/ grid_ndim g = 2) /\ dense g).
  { intros g Hg. rewrite List.Forall_forall in HW.
    destruct (HW g Hg) as (_ & Wm & _ & _ & Wnd & _ & Wd & _). auto. }
  rewrite (write_ascii_files g0 rest frame path "fort" fs Hall).
  set (T := path_join path ("fort" +:+ ".t" +:+ zfill4 frame)).
  set (Q := path_join path ("fort.q" +:+ zfill4 frame)).
  set (fs' := <[Q := q_text (g0 :: rest) (grid_meqn g0)]>
                (<[T := t_text g0 (List.length (g0 :: rest))]> fs)).
  assert (HT : fs' !! (path_join path ("fort" +:+ ".t") +:+ zfill4 frame)
               = Some (t_text g0 (List.length (g0 :: rest)))).
  { rewrite <- path_join_app, append_assoc_s. fold T. unfold fs'.
    rewrite lookup_insert_ne by apply frame_names_differ.
    apply lookup_insert_eq. }
  assert (HQ : fs' !! (path_join path ("fort" +:+ ".q") +:+ zfill4 frame)
               = Some (q_text (g0 :: rest) (grid_meqn g0))).
  { rewrite <- path_join_app. apply lookup_insert_eq. }
  set (h := MkFrameHeader (reread (grid_t g0)) (grid_meqn g0)
              (Z.of_nat (List.length (g0 :: rest))) (grid_maux g0)
              (grid_ndim g0)).
  destruct (read_patches_text fuel h g0 (g0 :: rest)
              (RState (q_text (g0 :: rest) (grid_meqn g0)) solution ∅)
              EmptyString HW Hm Ha Hf eq_refl eq_refl eq_refl eq_refl)
    as (patches & inds & E & HS).
  { cbn [r_fid]. rewrite append_nil_r. reflexivity. }
  exists fs', patches. split; [reflexivity |]. split; [| exact HS].
  unfold read_ascii. destruct (Z.ltb_spec frame 0); [lia |].
  rewrite (read_ascii_t_text fs' frame path "fort" g0 _ HT). fold h.
  unfold open_r. rewrite HQ.
  cbn [fh_ngrids h]. rewrite Nat2Z.id, E. cbn [r_solution].
  inversion HS as [| ? g0' ? ps' ? ? ]; subst.
  assert (Hattr : exists m, solution_attr grid_maux (solution ++ g0' :: ps')%list
                            = Ret m).
  { unfold solution_attr, index.
    destruct (solution ++ g0' :: ps')%list as [| x xs] eqn:Ex.
    - destruct solution; discriminate.
    - eexists. reflexivity. }
  destruct Hattr as (m & ->). rewrite andb_false_r. reflexivity.
Qed.

Lemma patchB_writable : writable patchB patchB.
Proof.
  unfold writable.
  split; [reflexivity |]. split; [reflexivity |]. split; [reflexivity |].
  split; [reflexivity |]. split; [right; reflexivity |].
  split.
  { intros dim [<- | [<- | []]]; split; reflexivity. }
  split.
  { intros idx Hin. vm_compute in Hin.
    repeat (destruct Hin as [<- | Hin]; [vm_compute; eauto |]).
    destruct Hin. }
  intros idx Hin Hlast. vm_compute in Hin.
  repeat (destruct Hin as [<- | Hin]; [exfalso; apply Hlast; reflexivity |]).
  destruct Hin.
Defined.

Lemma write_ascii_read_ascii_witness :
  Forall (writable patchB) [patchB]
  /\ 1 <= grid_meqn patchB /\ 0 <= grid_maux patchB /\ 0 <= 0 /\ (1 <= 1)%nat
  /\ exists fs' patches,
       write_ascii [patchB] 0 "" "fort" false ∅ = (fs', Ret tt)
       /\ read_ascii 1 fs' [] 0 "" "fort" false
          = (([] ++ patches)%list, Some (Ret tt))
       /\ Forall2 same_patch [patchB] patches.
Proof.
  assert (HW : Forall (writable patchB) [patchB])
    by (constructor; [exact patchB_writable | constructor]).
  assert (Hm : 1 <= grid_meqn patchB) by (vm_compute; discriminate).
  assert (Ha : 0 <= grid_maux patchB) by (vm_compute; discriminate).
  assert (Hf : 0 <= 0) by lia.
  assert (Hfuel : (1 <= 1)%nat) by lia.
  split; [exact HW |]. split; [exact Hm |]. split; [exact Ha |].
  split; [exact Hf |]. split; [exact Hfuel |].
  exact (write_ascii_read_ascii_round_trip patchB [] 0 "" ∅ [] 1
           HW Hm Ha Hf Hfuel).
Defined.

(** ** The files of a frame *)

Section Files.

Lemma append_inj_r s : forall a b, a +:+ s = b +:+ s -> a = b.
Proof.
  induction a as [| c a IH]; intros b H.
  - destruct b as [| d b]; [reflexivity |].
    apply (f_equal String.length) in H. rewrite !length_append in H.
    cbn [String.length] in H. lia.
  - destruct b as [| d b].
    + apply (f_equal String.length) in H. rewrite !length_append in H.
      cbn [String.length] in H. lia.
    + change (String c (a +:+ s) = String d (b +:+ s)) in H.
      injection H as -> H. f_equal. apply IH, H.
Qed.

(** The primary file is never the time file, whatever the prefix. *)
Lemma q_name_not_t path prefix frame :
  path_join path ("fort.q" +:+ zfill4 frame)
  <> path_join path (prefix +:+ ".t" +:+ zfill4 frame).
Proof.
  intros H. apply path_join_inj in H. rewrite <- append_assoc_s in H.
  apply append_inj_r in H.
  repeat (destruct prefix as [| ? prefix]; [discriminate H | injection H as _ H]).
  destruct prefix; discriminate H.
Qed.

Lemma keeps_emit p file text : p <> file -> keeps p (emit file text).
Proof.
  intros Hne fs. unfold emit. destruct text as [s | e]; [| reflexivity].
  cbn [fst]. unfold write. apply lookup_alter_ne. congruence.
Qed.

Lemma keeps_create p file : p <> file -> keeps p (create file).
Proof.
  intros Hne fs. unfold create, open_w. cbn [fst].
  apply lookup_insert_ne. congruence.
Qed.

Lemma keeps_fail p e : keeps p (fail_with e).
Proof. intros fs. reflexivity. Qed.

Lemma keeps_run p steps :
  List.Forall (keeps p) steps ->
  forall fs : filesystem, fst (run_steps steps fs) !! p = fs !! p.
Proof.
  induction steps as [| s steps IH]; intros H fs; [reflexivity |].
  inversion H as [| ? ? Hs Hsteps]; subst.
  cbn [run_steps]. specialize (Hs fs).
  destruct (s fs) as [fs' [u | e]]; cbn [fst] in *.
  - rewrite (IH Hsteps fs'). exact Hs.
  - exact Hs.
Qed.

Lemma keeps_with_value {A} p (v : result A) k :
  (forall a, List.Forall (keeps p) (k a)) -> keeps p (with_value v k).
Proof.
  intros H fs. unfold with_value. destruct v as [a | e]; [| reflexivity].
  apply keeps_run, H.
Qed.

Lemma Forall_flat_map {A B} (P : B -> Prop) (f : A -> list B) xs :
  (forall x, List.Forall P (f x)) -> List.Forall P (flat_map f xs).
Proof.
  intros H. induction xs as [| x xs IH]; [constructor |].
  cbn [flat_map]. apply List.Forall_app. split; [apply H | exact IH].
Qed.

Lemma Forall_map_all {A B} (P : B -> Prop) (f : A -> B) xs :
  (forall x, P (f x)) -> List.Forall P (List.map f xs).
Proof.
  intros H. induction xs as [| x xs IH]; constructor; [apply H | exact IH].
Qed.

Lemma keeps_patch_header p file g :
  p <> file -> List.Forall (keeps p) (patch_header file g).
Proof.
  intros Hne. unfold patch_header.
  repeat (apply List.Forall_cons; [apply keeps_emit, Hne |]).
  repeat (apply List.Forall_app; split;
          [apply Forall_map_all; intros dim; apply keeps_emit, Hne |]).
  repeat constructor. apply keeps_emit, Hne.
Qed.

Lemma keeps_cell_line p file q cell count :
  p <> file -> List.Forall (keeps p) (cell_line file q cell count).
Proof.
  intros Hne. unfold cell_line. apply List.Forall_app. split.
  - apply Forall_map_all. intros m. apply keeps_emit, Hne.
  - repeat constructor. apply keeps_emit, Hne.
Qed.

Lemma keeps_q_dump p file meqn g :
  p <> file -> List.Forall (keeps p) (q_dump file meqn g).
Proof.
  intros Hne. unfold q_dump.
  destruct (grid_ndim g =? 1); [| destruct (grid_ndim g =? 2);
    [| destruct (grid_ndim g =? 3)]].
  - repeat constructor. apply keeps_with_value. intros n0.
    apply Forall_flat_map. intros k. apply keeps_cell_line, Hne.
  - repeat constructor. apply keeps_with_value. intros n1.
    apply Forall_flat_map. intros j.
    repeat constructor; [| apply keeps_emit, Hne].
    apply keeps_with_value. intros n0.
    apply Forall_flat_map. intros k. apply keeps_cell_line, Hne.
  - repeat constructor; [| apply keeps_emit, Hne].
    apply keeps_with_value. intros n2.
    apply Forall_flat_map. intros l.
    repeat constructor; [| apply keeps_emit, Hne].
    apply keeps_with_value. intros n1.
    apply Forall_flat_map. intros j.
    repeat constructor.
    apply keeps_with_value. intros n0.
    apply Forall_flat_map. intros k. apply keeps_cell_line, Hne.
  - repeat constructor.
Qed.

(** The steps of [write_ascii] after the time file is closed, when the
    auxiliary array is not asked for: they write the primary file only. *)
Lemma keeps_patches p solution frame path :
  p <> path_join path ("fort.q" +:+ zfill4 frame) ->
  keeps p
    (with_value (solution_attr grid_maux solution) (fun maux =>
       let aux_open := (0 <? maux) && false in
       (if aux_open
        then [ create (path_join path ("fort.a" +:+ zfill4 frame)) ] else [])
       ++ flat_map (fun grid =>
            patch_header (path_join path ("fort.q" +:+ zfill4 frame)) grid
            ++ [ with_value (solution_attr grid_meqn solution) (fun meqn =>
                   q_dump (path_join path ("fort.q" +:+ zfill4 frame)) meqn
                     grid) ]
            ++ (if (0 <? grid_maux grid) && false
                then if aux_open
                     then patch_header
                            (path_join path ("fort.a" +:+ zfill4 frame)) grid
                          ++ aux_dump
                               (path_join path ("fort.a" +:+ zfill4 frame))
                               grid
                     else [ fail_with (NameError "aux_file") ]
                else []))
            solution)%list).
Proof.
  intros Hne. apply keeps_with_value. intros maux. cbv zeta.
  rewrite andb_false_r. cbn [app].
  apply Forall_flat_map. intros g. rewrite andb_false_r.
  apply List.Forall_app. split; [apply keeps_patch_header, Hne |].
  repeat constructor. apply keeps_with_value. intros meqn.
  apply keeps_q_dump, Hne.
Qed.

End Files.



(** ** The time file *)

Section TimeFile.

(** The time file after [write_ascii], for a frame that is not empty. *)
Lemma write_ascii_time_file g0 rest frame path prefix (fs : filesystem) :
  fst (write_ascii (g0 :: rest) frame path prefix false fs)
    !! path_join path (prefix +:+ ".t" +:+ zfill4 frame)
  = Some (t_text g0 (List.length (g0 :: rest))).
Proof.
  unfold write_ascii.
  set (T := path_join path (prefix +:+ ".t" +:+ zfill4 frame)).
  set (Q := path_join path ("fort.q" +:+ zfill4 frame)).
  set (sol := g0 :: rest) in *.
  assert (Hattr : forall A (f : Grid -> A), solution_attr f sol = Ret (f g0))
    by reflexivity.
  rewrite (Hattr _ grid_t), (Hattr _ grid_ndim). rewrite (Hattr _ grid_meqn) at 1.
  rewrite (Hattr _ grid_maux) at 1. cbn [bind].
  rewrite run_steps_create. unfold open_w at 1.
  rewrite (run_steps_emit T _ EmptyString) by apply lookup_insert_eq.
  rewrite insert_insert_eq.
  erewrite (run_steps_emit T) by apply lookup_insert_eq.
  rewrite insert_insert_eq.
  erewrite (run_steps_emit T) by apply lookup_insert_eq.
  rewrite insert_insert_eq.
  erewrite (run_steps_emit T) by apply lookup_insert_eq.
  rewrite insert_insert_eq.
  erewrite (run_steps_emit T) by apply lookup_insert_eq.
  rewrite insert_insert_eq.
  rewrite keeps_run.
  - rewrite lookup_insert_eq. f_equal.
    change (EmptyString +:+ ?x) with x.
    unfold t_text. rewrite !append_assoc_s. reflexivity.
  - apply List.Forall_cons.
    + apply keeps_create. intros E. symmetry in E.
      exact (q_name_not_t path prefix frame E).
    + apply List.Forall_cons; [| constructor].
      apply keeps_patches. intros E. symmetry in E.
      exact (q_name_not_t path prefix frame E).
Qed.




End TimeFile.

(** X5: after [write_ascii] on a frame that is not empty, whatever its
    patches hold and whether or not the dump of [q] succeeds, [read_ascii_t]
    returns [meqn], the number of patches, [maux] and [ndim] of the frame
    exactly, and its time within [1e-8]. *)
Theorem read_ascii_t_after_write_ascii
    (g0 : Grid) (rest : list Grid) (frame : Z) (path file_prefix : string)
    (fs : filesystem) :
  exists t,
    read_ascii_t (fst (write_ascii (g0 :: rest) frame path file_prefix false fs))
      frame path file_prefix
    = Ret (MkFrameHeader t (grid_meqn g0) (Z.of_nat (S (List.length rest)))
             (grid_maux g0) (grid_ndim g0))
    /\ close_to tol8 t (grid_t g0).
Proof.
  exists (reread (grid_t g0)). split; [| apply py_float_reread].
  apply (read_ascii_t_text _ frame path file_prefix g0 (S (List.length rest))).
  rewrite <- path_join_app, append_assoc_s.
  apply write_ascii_time_file.
Qed.





(** ** What [topoheaderread] returns, and when it raises *)

(** A value after the conversion loop is a number. *)
Lemma convert_text_number s v :
  convert_text s = Ret v -> (exists n, v = VInt n) \/ (exists x, v = VFloat x).
Proof.
  unfold convert_text.
  destruct (contains "." s || contains "nan" (lower s) || contains "e" (lower s)).
  - destruct (py_float s) as [x | e]; cbn [bind]; [| discriminate].
    intros H. injection H as <-. right. eauto.
  - destruct (py_int s) as [n | e]; cbn [bind]; [| discriminate].
    intros H. injection H as <-. left. eauto.
Qed.

Lemma converted_keys keys : forall hdr hdr',
  List.NoDup keys ->
  for_each keys convert_key hdr = Ret hdr' ->
  (forall k, In k keys -> is_Some (hdr !! k)) ->
  (forall k, In k keys ->
     exists v, hdr' !! k = Some v
               /\ ((exists n, v = VInt n) \/ (exists x, v = VFloat x)))
  /\ (forall k, ~ In k keys -> hdr' !! k = hdr !! k).
Proof.
  induction keys as [| key keys IH]; intros hdr hdr' Hnd Hrun Hsome.
  - injection Hrun as <-. split; [intros k [] | reflexivity].
  - inversion Hnd as [| ? ? Hnotin Hnd']; subst.
    cbn [for_each] in Hrun. unfold convert_key at 1 in Hrun.
    destruct (Hsome key (or_introl eq_refl)) as [v0 Hv0]. rewrite Hv0 in Hrun.
    destruct v0 as [| n | x | s]; try discriminate.
    destruct (convert_text s) as [v |] eqn:Ev; cbn [bind] in Hrun;
      [| discriminate].
    destruct (IH (<[key := v]> hdr) hdr' Hnd' Hrun) as [Hin Hout].
    { intros k Hk. rewrite lookup_insert_ne by (intros ->; contradiction).
      apply Hsome. right. exact Hk. }
    split.
    + intros k [<- | Hk]; [| apply Hin, Hk].
      exists v. split; [| eapply convert_text_number; exact Ev].
      rewrite (Hout key Hnotin). apply lookup_insert_eq.
    + intros k Hk. cbn [In] in Hk. rewrite Hout by tauto.
      apply lookup_insert_ne. tauto.
Qed.

Section HeaderLoop.

Variable convertd2e : string -> string.

Local Abbreviation cond := (fun st : hstate => 0 <? h_keyleft st).

Lemma six_keys_start : six_keys topoheader0.
Proof.
  intros key. split.
  - intros Hin. unfold keylist in Hin. cbn [In] in Hin.
    repeat (destruct Hin as [<- | Hin]; [vm_compute; eauto |]). destruct Hin.
  - intros Hout. unfold topoheader0.
    repeat (rewrite lookup_insert_ne;
            [| intros <-; apply Hout; unfold keylist; cbn [In]; tauto]).
    apply lookup_empty.
Qed.

Lemma six_keys_insert hdr key v :
  In key keylist -> six_keys hdr -> six_keys (<[key := v]> hdr).
Proof.
  intros Hkey H k. destruct (H k) as [H1 H2]. split.
  - intros Hk. destruct (decide (key = k)) as [-> | Hne].
    + rewrite lookup_insert_eq. eauto.
    + rewrite lookup_insert_ne by exact Hne. apply H1, Hk.
  - intros Hk. rewrite lookup_insert_ne by (intros ->; contradiction).
    apply H2, Hk.
Qed.

Lemma header_line_six_keys st st' :
  header_line convertd2e st = Ret st' ->
  six_keys (h_header st) -> six_keys (h_header st').
Proof.
  unfold header_line. destruct (readline (h_fid st)) as [raw rest].
  destruct (split raw) as [| tok0 toks] eqn:Es.
  - intros H. injection H as <-. exact (fun H => H).
  - cbn [index nth_error bind]. intros H Hk.
    destruct (keymap (lower tok0)) as [key0 |] eqn:K0.
    + destruct toks as [| tok1 toks']; cbn [index nth_error bind] in H;
        [discriminate |].
      cbn [h_keyleft h_header] in H.
      destruct (keymap (lower tok1)) as [key1 |] eqn:K1;
        injection H as <-; cbn [h_header];
        repeat (apply six_keys_insert;
                [eapply keymap_range; eassumption |]); exact Hk.
    + destruct toks as [| tok1 toks']; cbn [index nth_error bind] in H;
        [discriminate |].
      destruct (keymap (lower tok1)) as [key1 |] eqn:K1;
        injection H as <-; cbn [h_header];
        repeat (apply six_keys_insert;
                [eapply keymap_range; eassumption |]); exact Hk.
Qed.

(** The loop reads the lines of a well-formed prefix of the header. *)
Lemma header_loop_prefix lines : forall fuel keyleft hdr rest,
  Forall header_pair (List.map snd lines) ->
  Z.of_nat (List.length lines) < keyleft ->
  while (List.length lines + fuel) cond (header_line convertd2e)
    (HState (Str.concat (List.map oriented lines) +:+ rest) keyleft hdr)
  = while fuel cond (header_line convertd2e)
      (HState rest (keyleft - Z.of_nat (List.length lines))
         (header_after convertd2e (List.map snd lines) hdr)).
Proof.
  induction lines as [| [o kv] lines IH]; intros fuel keyleft hdr rest Hp Hk.
  - cbn [List.length List.map Str.concat header_after fold_left Nat.add].
    change (EmptyString +:+ rest) with rest. f_equal. f_equal. cbn. lia.
  - inversion Hp as [| ? ? Hkv Hrest]; subst.
    cbn [List.length] in Hk.
    cbn [List.map List.length Nat.add]. rewrite concat_cons_app.
    cbn [while h_keyleft].
    destruct (Z.ltb_spec 0 keyleft); [| lia].
    rewrite header_line_oriented by exact Hkv.
    rewrite IH by (exact Hrest || lia).
    rewrite header_after_cons. f_equal. f_equal. lia.
Qed.

(** A line of one token raises: the loop asks for its second token. *)
Lemma header_line_one_token fid keyleft hdr tok :
  split (fst (readline fid)) = [tok] ->
  header_line convertd2e (HState fid keyleft hdr) = Raise IndexError.
Proof.
  unfold header_line. cbn [h_fid].
  destruct (readline fid) as [raw rest]. cbn [fst]. intros ->.
  cbn [index nth_error bind].
  destruct (keymap (lower tok)); reflexivity.
Qed.

End HeaderLoop.

Lemma header_holds_six_numbers
    (convertd2e : string -> string) (fuel : nat) (fs : filesystem)
    (inputfile rest : string) (header : gmap string pyval) :
  topoheaderread convertd2e fuel fs inputfile = Some (Ret (rest, header)) ->
  forall key,
    (In key keylist ->
       exists v, header !! key = Some v
                 /\ ((exists n, v = VInt n) \/ (exists x, v = VFloat x)))
    /\ (~ In key keylist -> header !! key = None).
Proof.
  unfold topoheaderread. intros H.
  destruct (open_r fs inputfile) as [fid | e]; cbn [lift pbind] in H;
    [| discriminate].
  destruct (while fuel (fun st => 0 <? h_keyleft st) (header_line convertd2e)
              (header_start fid)) as [[st | e] |] eqn:Ew;
    cbn [pbind] in H; try discriminate.
  destruct (for_each keylist convert_key (h_header st)) as [hdr | e] eqn:Ec;
    cbn [pbind] in H; [| discriminate].
  injection H as _ <-.
  assert (Hsix : six_keys (h_header st)).
  { apply (while_invariant (fun s => six_keys (h_header s))
             (fun st => 0 <? h_keyleft st) (header_line convertd2e)
             (header_line_six_keys convertd2e) fuel (header_start fid) st);
      [exact six_keys_start | exact Ew]. }
  destruct (converted_keys keylist _ _ keylist_nodup Ec) as [Hin Hout].
  { intros k Hk. apply (Hsix k), Hk. }
  intros key. split; [apply Hin |].
  intros Hk. rewrite (Hout key Hk). apply (Hsix key), Hk.
Qed.

(** X6: a header that [topoheaderread] returns holds a number, an [int] or
    a [float], under each of the six keys, and holds no other key: a file
    that leaves a key at its default does not get through the conversion. *)
Theorem topoheaderread_returns_six_numbers
    (convertd2e : string -> string) (fuel : nat) (fs : filesystem)
    (inputfile rest : string) (header : gmap string pyval) :
  topoheaderread convertd2e fuel fs inputfile = Some (Ret (rest, header)) ->
  forall key,
    (In key keylist ->
       exists v, header !! key = Some v
                 /\ ((exists n, v = VInt n) \/ (exists x, v = VFloat x)))
    /\ (~ In key keylist -> header !! key = None).
Proof.
  exact (header_holds_six_numbers convertd2e fuel fs inputfile
           rest header).
Qed.

Lemma topoheaderread_returns_witness :
  let fs : filesystem :=
    {["a.tt2" := Str.concat (List.map value_then_key six_pairs) +:+ data_A]} in
  let r := returned (EmptyString, ∅) (topoheaderread (fun s => s) 6 fs "a.tt2") in
  topoheaderread (fun s => s) 6 fs "a.tt2" = Some (Ret (fst r, snd r))
  /\ forall key,
       (In key keylist ->
          exists v, snd r !! key = Some v
                    /\ ((exists n, v = VInt n) \/ (exists x, v = VFloat x)))
       /\ (~ In key keylist -> snd r !! key = None).
Proof.
  intros fs r.
  assert (H : topoheaderread (fun s => s) 6 fs "a.tt2" = Some (Ret (fst r, snd r)))
    by (vm_compute; reflexivity).
  split; [exact H |].
  exact (topoheaderread_returns_six_numbers (fun s => s) 6 fs "a.tt2"
           (fst r) (snd r) H).
Defined.

(** X7: a header line that holds a single token, met after any number of
    well-formed header lines while keys are still missing, makes
    [topoheaderread] raise [IndexError]: the loop asks every line that is
    not blank for its second token, whether or not the first is a key. *)
Theorem topoheaderread_one_token_line
    (convertd2e : string -> string) (fs : filesystem) (inputfile : string)
    (lines : list (bool * (string * string))) (tail tok : string)
    (fuel : nat) :
  (List.length lines < 6)%nat ->
  Forall header_pair (List.map snd lines) ->
  fs !! inputfile = Some (Str.concat (List.map oriented lines) +:+ tail) ->
  split (fst (readline tail)) = [tok] ->
  (List.length lines < fuel)%nat ->
  topoheaderread convertd2e fuel fs inputfile = Some (Raise IndexError).
Proof.
  intros Hlen Hp Hfs Htok Hfuel.
  unfold topoheaderread, open_r. rewrite Hfs. cbn [lift pbind].
  unfold header_start. change (Z.of_nat (List.length keylist)) with 6.
  replace fuel with (List.length lines + (fuel - List.length lines))%nat by lia.
  rewrite header_loop_prefix by (exact Hp || lia).
  destruct (fuel - List.length lines)%nat as [| f] eqn:Ef; [lia |].
  cbn [while h_keyleft].
  destruct (Z.ltb_spec 0 (6 - Z.of_nat (List.length lines))); [| lia].
  rewrite (header_line_one_token convertd2e _ _ _ tok Htok). reflexivity.
Qed.

Lemma topoheaderread_one_token_witness :
  (List.length [(true, ("ncols", "3"))] < 6)%nat
  /\ Forall header_pair (List.map snd [(true, ("ncols", "3"))])
  /\ ({["b.tt2" := Str.concat (List.map oriented [(true, ("ncols", "3"))])
                   +:+ "nrows" +:+ nl]} : filesystem) !! "b.tt2"
     = Some (Str.concat (List.map oriented [(true, ("ncols", "3"))])
             +:+ "nrows" +:+ nl)
  /\ split (fst (readline ("nrows" +:+ nl))) = ["nrows"]
  /\ (List.length [(true, ("ncols", "3"))] < 2)%nat
  /\ topoheaderread (fun s => s) 2
       {["b.tt2" := Str.concat (List.map oriented [(true, ("ncols", "3"))])
                    +:+ "nrows" +:+ nl]} "b.tt2"
     = Some (Raise IndexError).
Proof.
  assert (H1 : (List.length [(true, ("ncols", "3"))] < 6)%nat) by (cbn; lia).
  assert (H2 : Forall header_pair (List.map snd [(true, ("ncols", "3"))])).
  { constructor; [| constructor].
    split; [reflexivity |]. split; [reflexivity |].
    split; [eexists; reflexivity | reflexivity]. }
  assert (H3 : ({["b.tt2" := Str.concat (List.map oriented
                                            [(true, ("ncols", "3"))])
                               +:+ "nrows" +:+ nl]} : filesystem) !! "b.tt2"
               = Some (Str.concat (List.map oriented [(true, ("ncols", "3"))])
                       +:+ "nrows" +:+ nl)) by reflexivity.
  assert (H4 : split (fst (readline ("nrows" +:+ nl))) = ["nrows"])
    by reflexivity.
  assert (H5 : (List.length [(true, ("ncols", "3"))] < 2)%nat) by (cbn; lia).
  split; [exact H1 |]. split; [exact H2 |]. split; [exact H3 |].
  split; [exact H4 |]. split; [exact H5 |].
  exact (topoheaderread_one_token_line (fun s => s) _ "b.tt2"
           [(true, ("ncols", "3"))] ("nrows" +:+ nl) "nrows" 2 H1 H2 H3 H4 H5).
Defined.

(** ** Headers that are written and read back *)

Section HeaderText.

Variable convertd2e : string -> string.
Variable repr_float : pyfloat -> string.

Lemma write_until_texts path xs : forall (fs : filesystem) t,
  fs !! path = Some t ->
  write_until path (List.map Ret xs) fs = (<[path := t +:+ Str.concat xs]> fs, Ret tt).
Proof.
  induction xs as [| x xs IH]; intros fs t H.
  - cbn [List.map write_until Str.concat]. rewrite append_nil_r.
    rewrite insert_id by exact H. reflexivity.
  - cbn [List.map write_until Str.concat].
    rewrite (write_open path x t fs H).
    rewrite (IH _ (t +:+ x)) by apply lookup_insert_eq.
    rewrite insert_insert_eq, append_assoc_s. reflexivity.
Qed.

(** The file that [topoheaderwrite] leaves. *)
Lemma topoheaderwrite_text hdr v1 v2 v3 v4 v5 v6 x3 x4 x5 outputfile
    (fs : filesystem) :
  hdr !! "ncols" = Some v1 -> hdr !! "nrows" = Some v2 ->
  hdr !! "xll" = Some v3 -> hdr !! "yll" = Some v4 ->
  hdr !! "cellsize" = Some v5 -> hdr !! "nodata_value" = Some v6 ->
  to_float v3 = Ret x3 -> to_float v4 = Ret x4 -> to_float v5 = Ret x5 ->
  topoheaderwrite repr_float hdr outputfile fs
  = (<[outputfile :=
         Str.concat (List.map oriented (value_first
           [ str_val repr_float v1; str_val repr_float v2; repr_float x3;
             repr_float x4; repr_float x5; str_val repr_float v6 ]))]> fs,
     Ret tt).
Proof.
  intros H1 H2 H3 H4 H5 H6 F3 F4 F5.
  unfold topoheaderwrite, dict_get. rewrite H1, H2, H3, H4, H5, H6.
  cbn [bind]. rewrite F3, F4, F5. cbn [bind].
  pose proof (write_until_texts outputfile
             [ str_val repr_float v1 +:+ " ncols" +:+ String newline "";
               str_val repr_float v2 +:+ " nrows" +:+ String newline "";
               repr_float x3 +:+ " xll" +:+ String newline "";
               repr_float x4 +:+ " yll" +:+ String newline "";
               repr_float x5 +:+ " cellsize" +:+ String newline "";
               str_val repr_float v6 +:+ " nodata_value" +:+ String newline "" ]
             (open_w outputfile fs) EmptyString
             (lookup_insert_eq _ _ _)) as W.
  cbn [List.map] in W. rewrite W.
  unfold open_w. rewrite insert_insert_eq. reflexivity.
Qed.

(** The file that [esriheaderwrite] leaves. *)
Lemma esriheaderwrite_text hdr v1 v2 v3 v4 v5 v6 x3 x4 x5 outputfile
    (fs : filesystem) :
  hdr !! "ncols" = Some v1 -> hdr !! "nrows" = Some v2 ->
  hdr !! "xll" = Some v3 -> hdr !! "yll" = Some v4 ->
  hdr !! "cellsize" = Some v5 -> hdr !! "nodata_value" = Some v6 ->
  to_float v3 = Ret x3 -> to_float v4 = Ret x4 -> to_float v5 = Ret x5 ->
  esriheaderwrite repr_float hdr outputfile fs
  = (<[outputfile :=
         Str.concat (List.map oriented (key_first
           [ str_val repr_float v1; str_val repr_float v2; repr_float x3;
             repr_float x4; repr_float x5; str_val repr_float v6 ]))]> fs,
     Ret tt).
Proof.
  intros H1 H2 H3 H4 H5 H6 F3 F4 F5.
  unfold esriheaderwrite, dict_get. rewrite H1, H2, H3, H4, H5, H6.
  cbn [bind]. rewrite F3, F4, F5. cbn [bind].
  pose proof (write_until_texts outputfile
             [ "NCOLS " +:+ str_val repr_float v1 +:+ String newline "";
               "NROWS " +:+ str_val repr_float v2 +:+ String newline "";
               "XLLCORNER " +:+ repr_float x3 +:+ String newline "";
               "YLLCORNER " +:+ repr_float x4 +:+ String newline "";
               "CELLSIZE " +:+ repr_float x5 +:+ String newline "";
               "NODATA_VALUE " +:+ str_val repr_float v6 +:+ String newline "" ]
             (open_w outputfile fs) EmptyString
             (lookup_insert_eq _ _ _)) as W.
  cbn [List.map] in W. rewrite W.
  unfold open_w. rewrite insert_insert_eq. reflexivity.
Qed.

(** Six lines of distinct keys whose values are numbers are read to the
    header that maps every key to the number of its line. *)
Lemma topoheaderread_six_lines (fs : filesystem) inputfile lines rest fuel :
  List.length lines = 6%nat ->
  Forall header_pair (List.map snd lines) ->
  List.NoDup (List.map canon (List.map snd lines)) ->
  Forall (fun kv => exists v, convert_text (convertd2e (snd kv)) = Ret v)
    (List.map snd lines) ->
  fs !! inputfile = Some (Str.concat (List.map oriented lines) +:+ rest) ->
  (6 <= fuel)%nat ->
  exists header,
    topoheaderread convertd2e fuel fs inputfile = Some (Ret (rest, header))
    /\ Forall (fun kv =>
          exists v, convert_text (convertd2e (snd kv)) = Ret v
                    /\ header !! canon kv = Some v)
         (List.map snd lines).
Proof.
  intros Hlen Hpairs Hnd Hconv Hfs Hfuel.
  unfold topoheaderread, open_r. rewrite Hfs.
  cbn [lift pbind]. unfold header_start.
  change (Z.of_nat (List.length keylist)) with 6.
  rewrite (header_loop_done convertd2e lines) by (assumption || lia).
  cbn [pbind h_header h_fid].
  set (kvs := List.map snd lines) in *.
  assert (Hincl : incl keylist (List.map canon kvs)).
  { apply List.NoDup_length_incl; [exact Hnd | |].
    - rewrite List.length_map. unfold kvs. rewrite List.length_map, Hlen.
      cbn. lia.
    - intros key Hin. apply in_map_iff in Hin.
      destruct Hin as (kv & <- & Hkv).
      rewrite List.Forall_forall in Hpairs.
      destruct (Hpairs kv Hkv) as (_ & _ & [key Hkey] & _).
      unfold canon. rewrite Hkey. eapply keymap_range; eauto. }
  destruct (convert_keys keylist
              (header_after convertd2e kvs topoheader0) keylist_nodup)
    as (header & Hrun & _ & Hin).
  { intros k Hk. apply Hincl in Hk. apply in_map_iff in Hk.
    destruct Hk as (kv & <- & Hkv).
    rewrite List.Forall_forall in Hconv.
    destruct (Hconv kv Hkv) as [v Hv].
    exists (convertd2e (snd kv)), v. split; [| exact Hv].
    apply header_after_lookup; assumption. }
  exists header. rewrite Hrun. cbn [pbind]. split; [reflexivity |].
  apply List.Forall_forall. intros kv Hkv.
  apply (Hin (canon kv) (convertd2e (snd kv))).
  - rewrite List.Forall_forall in Hpairs.
    destruct (Hpairs kv Hkv) as (_ & _ & [key Hkey] & _).
    unfold canon. rewrite Hkey. eapply keymap_range; eauto.
  - apply header_after_lookup; assumption.
Qed.

(** The header that is read from six lines whose keys, in one of the two
    spellings, are the six keys in order, and whose values read back. *)
Lemma read_back_six (fs : filesystem) inputfile (keys : list string)
    (o : bool) t1 t2 t3 t4 t5 t6 v1 v2 v3 v4 v5 v6 rest fuel :
  Forall (fun k => is_word k = true) keys ->
  List.map (fun k => keymap (lower k)) keys = List.map Some keylist ->
  reads_back convertd2e t1 v1 -> reads_back convertd2e t2 v2 ->
  reads_back convertd2e t3 v3 -> reads_back convertd2e t4 v4 ->
  reads_back convertd2e t5 v5 -> reads_back convertd2e t6 v6 ->
  fs !! inputfile
  = Some (Str.concat (List.map oriented
            (List.map (pair o) (combine keys [t1; t2; t3; t4; t5; t6])))
          +:+ rest) ->
  (6 <= fuel)%nat ->
  exists header,
    topoheaderread convertd2e fuel fs inputfile = Some (Ret (rest, header))
    /\ header !! "ncols" = Some v1 /\ header !! "nrows" = Some v2
    /\ header !! "xll" = Some v3 /\ header !! "yll" = Some v4
    /\ header !! "cellsize" = Some v5 /\ header !! "nodata_value" = Some v6.
Proof.
  intros Hw Hk R1 R2 R3 R4 R5 R6 Hfs Hfuel.
  destruct keys as [| k1 [| k2 [| k3 [| k4 [| k5 [| k6 [| k7 ks]]]]]]];
    try discriminate Hk.
  cbn [List.map keylist] in Hk.
  injection Hk as K1 K2 K3 K4 K5 K6.
  repeat match goal with
         | H : Forall _ (_ :: _) |- _ =>
             let a := fresh "W" in
             inversion H as [| ? ? a ?]; clear H; subst
         end.
  destruct R1 as (A1 & B1 & C1). destruct R2 as (A2 & B2 & C2).
  destruct R3 as (A3 & B3 & C3). destruct R4 as (A4 & B4 & C4).
  destruct R5 as (A5 & B5 & C5). destruct R6 as (A6 & B6 & C6).
  destruct (topoheaderread_six_lines fs inputfile
              (List.map (pair o)
                 (combine [k1; k2; k3; k4; k5; k6] [t1; t2; t3; t4; t5; t6]))
              rest fuel) as (header & Hread & Hall).
  - reflexivity.
  - cbn [combine List.map snd].
    repeat (constructor;
            [ split; [assumption |]; split; [assumption |];
              split; [eexists; eassumption | assumption] |]).
    constructor.
  - cbn [combine List.map snd]. unfold canon. cbn [fst].
    rewrite K1, K2, K3, K4, K5, K6. exact keylist_nodup.
  - cbn [combine List.map snd].
    repeat (constructor; [eexists; eassumption |]). constructor.
  - exact Hfs.
  - exact Hfuel.
  - exists header. split; [exact Hread |].
    cbn [combine List.map snd] in Hall.
    repeat match goal with
           | H : Forall _ (_ :: _) |- _ =>
               let a := fresh "E" in
               inversion H as [| ? ? a ?]; clear H; subst
           end.
    unfold canon in *. cbn [fst snd] in *.
    rewrite K1 in E. rewrite K2 in E0. rewrite K3 in E1. rewrite K4 in E2.
    rewrite K5 in E3. rewrite K6 in E4.
    destruct E as (w1 & Ew1 & L1). destruct E0 as (w2 & Ew2 & L2).
    destruct E1 as (w3 & Ew3 & L3). destruct E2 as (w4 & Ew4 & L4).
    destruct E3 as (w5 & Ew5 & L5). destruct E4 as (w6 & Ew6 & L6).
    rewrite C1 in Ew1. rewrite C2 in Ew2. rewrite C3 in Ew3.
    rewrite C4 in Ew4. rewrite C5 in Ew5. rewrite C6 in Ew6.
    injection Ew1 as <-. injection Ew2 as <-. injection Ew3 as <-.
    injection Ew4 as <-. injection Ew5 as <-. injection Ew6 as <-.
    repeat split; assumption.
Qed.

End HeaderText.

(** ** The text of an integer in a header *)

Lemma str_int_chars n : all_chars int_char (str_int n) = true.
Proof.
  unfold str_int. destruct (n =? 0); [reflexivity |].
  rewrite all_chars_append. apply andb_true_intro. split.
  - destruct (n <? 0); reflexivity.
  - eapply all_chars_impl; [| apply fixed_digits_digits].
    intros c Hc. unfold int_char. rewrite Hc. reflexivity.
Qed.

Lemma int_char_cases c :
  int_char c = true -> is_digit c = true \/ c = "-"%char.
Proof.
  unfold int_char. intros H. apply orb_prop in H. destruct H as [H | H].
  - left. exact H.
  - right. apply Ascii.eqb_eq, H.
Qed.

Lemma lower_int_chars s : all_chars int_char s = true -> lower s = s.
Proof.
  induction s as [| c s IH]; [reflexivity |]. cbn [all_chars lower].
  intros H. apply andb_prop in H. destruct H as [Hc Hs].
  rewrite (IH Hs). f_equal.
  destruct (int_char_cases c Hc) as [Hd | ->];
    [apply digit_lower, Hd | reflexivity].
Qed.

(** A text of digits and signs does not contain a text that starts with
    another character. *)
Lemma contains_other c sub s :
  int_char c = false -> all_chars int_char s = true ->
  contains (String c sub) s = false.
Proof.
  intros Hc. induction s as [| a s IH]; intros H; [reflexivity |].
  cbn [all_chars] in H. apply andb_prop in H. destruct H as [Ha Hs].
  cbn [contains prefixb]. rewrite (IH Hs).
  destruct (Ascii.eqb_spec c a) as [-> | _]; [congruence | reflexivity].
Qed.

Lemma keymap_int_chars s : all_chars int_char s = true -> keymap s = None.
Proof.
  destruct s as [| a s]; [reflexivity |].
  cbn [all_chars]. intros H. apply andb_prop in H. destruct H as [Ha _].
  assert (Hn : Ascii.eqb a "n" = false)
    by (destruct (Ascii.eqb_spec a "n") as [-> | _];
        [discriminate | reflexivity]).
  assert (Hx : Ascii.eqb a "x" = false)
    by (destruct (Ascii.eqb_spec a "x") as [-> | _];
        [discriminate | reflexivity]).
  assert (Hy : Ascii.eqb a "y" = false)
    by (destruct (Ascii.eqb_spec a "y") as [-> | _];
        [discriminate | reflexivity]).
  assert (Hc : Ascii.eqb a "c" = false)
    by (destruct (Ascii.eqb_spec a "c") as [-> | _];
        [discriminate | reflexivity]).
  unfold keymap, keymap_items. cbn [assoc String.eqb].
  rewrite Hn, Hx, Hy, Hc. reflexivity.
Qed.

(** The text of an integer reads back as that integer. *)
Lemma reads_back_int (convertd2e : string -> string) n :
  convertd2e (str_int n) = str_int n ->
  reads_back convertd2e (str_int n) (VInt n).
Proof.
  intros Hconv. pose proof (str_int_chars n) as Hchars.
  split; [apply str_int_word |]. split.
  - rewrite (lower_int_chars _ Hchars). apply keymap_int_chars, Hchars.
  - rewrite Hconv. unfold convert_text.
    rewrite (lower_int_chars _ Hchars).
    rewrite !contains_other by (exact Hchars || reflexivity).
    cbn [orb]. rewrite py_int_str_int. reflexivity.
Qed.

(** X8: a header with integer [ncols] and [nrows] that is written by
    [topoheaderwrite] (value first) or by [esriheaderwrite] (key first, in
    capitals, with corner names) is read back by [topoheaderread] from six
    iterations on: the six keys hold the integers and the floats that were
    written, provided [convertd2e] leaves the two integers as they are and
    the text of each float, and of the nodata value, is a token that
    converts back to its value. *)
Theorem header_written_and_read_back
    (convertd2e : string -> string) (repr_float : pyfloat -> string)
    (topoheader : gmap string pyval) (ncols nrows : Z)
    (vx vy vc nodata : pyval) (xll yll cellsize : pyfloat)
    (outputfile : string) (fs : filesystem) (fuel : nat) :
  topoheader !! "ncols" = Some (VInt ncols) ->
  topoheader !! "nrows" = Some (VInt nrows) ->
  topoheader !! "xll" = Some vx -> topoheader !! "yll" = Some vy ->
  topoheader !! "cellsize" = Some vc ->
  topoheader !! "nodata_value" = Some nodata ->
  to_float vx = Ret xll -> to_float vy = Ret yll ->
  to_float vc = Ret cellsize ->
  convertd2e (str_int ncols) = str_int ncols ->
  convertd2e (str_int nrows) = str_int nrows ->
  reads_back convertd2e (repr_float xll) (VFloat xll) ->
  reads_back convertd2e (repr_float yll) (VFloat yll) ->
  reads_back convertd2e (repr_float cellsize) (VFloat cellsize) ->
  reads_back convertd2e (str_val repr_float nodata) nodata ->
  (6 <= fuel)%nat ->
  Forall (fun writer =>
    exists fs' header,
      writer topoheader outputfile fs = (fs', Ret tt)
      /\ topoheaderread convertd2e fuel fs' outputfile
         = Some (Ret (EmptyString, header))
      /\ header !! "ncols" = Some (VInt ncols)
      /\ header !! "nrows" = Some (VInt nrows)
      /\ header !! "xll" = Some (VFloat xll)
      /\ header !! "yll" = Some (VFloat yll)
      /\ header !! "cellsize" = Some (VFloat cellsize)
      /\ header !! "nodata_value" = Some nodata)
    [ topoheaderwrite repr_float; esriheaderwrite repr_float ].
Proof.
  intros H1 H2 H3 H4 H5 H6 F3 F4 F5 C1 C2 R3 R4 R5 R6 Hfuel.
  pose proof (reads_back_int convertd2e ncols C1) as R1.
  pose proof (reads_back_int convertd2e nrows C2) as R2.
  apply List.Forall_cons; [| apply List.Forall_cons; [| constructor]].
  - rewrite (topoheaderwrite_text repr_float topoheader _ _ _ _ _ _ _ _ _
               outputfile fs H1 H2 H3 H4 H5 H6 F3 F4 F5).
    eexists. 
    destruct (read_back_six convertd2e
                (<[outputfile := Str.concat (List.map oriented (value_first
                     [ str_val repr_float (VInt ncols);
                       str_val repr_float (VInt nrows); repr_float xll;
                       repr_float yll; repr_float cellsize;
                       str_val repr_float nodata ]))]> fs)
                outputfile keylist true
                (str_int ncols) (str_int nrows) (repr_float xll)
                (repr_float yll) (repr_float cellsize)
                (str_val repr_float nodata)
                (VInt ncols) (VInt nrows) (VFloat xll) (VFloat yll)
                (VFloat cellsize) nodata
                EmptyString fuel) as (header & Hread & Hvals);
      [ repeat constructor | reflexivity | exact R1 | exact R2 | exact R3
      | exact R4 | exact R5 | exact R6
      | rewrite lookup_insert_eq, append_nil_r; reflexivity | exact Hfuel | ].
    exists header. split; [reflexivity |]. split; [exact Hread | exact Hvals].
  - rewrite (esriheaderwrite_text repr_float topoheader _ _ _ _ _ _ _ _ _
               outputfile fs H1 H2 H3 H4 H5 H6 F3 F4 F5).
    eexists.
    destruct (read_back_six convertd2e
                (<[outputfile := Str.concat (List.map oriented (key_first
                     [ str_val repr_float (VInt ncols);
                       str_val repr_float (VInt nrows); repr_float xll;
                       repr_float yll; repr_float cellsize;
                       str_val repr_float nodata ]))]> fs)
                outputfile esri_keys false
                (str_int ncols) (str_int nrows) (repr_float xll)
                (repr_float yll) (repr_float cellsize)
                (str_val repr_float nodata)
                (VInt ncols) (VInt nrows) (VFloat xll) (VFloat yll)
                (VFloat cellsize) nodata
                EmptyString fuel) as (header & Hread & Hvals);
      [ repeat constructor | reflexivity | exact R1 | exact R2 | exact R3
      | exact R4 | exact R5 | exact R6
      | rewrite lookup_insert_eq, append_nil_r; reflexivity | exact Hfuel | ].
    exists header. split; [reflexivity |]. split; [exact Hread | exact Hvals].
Qed.

Lemma header_written_witness :
  let hdr : gmap string pyval :=
    <["ncols" := VInt 3]> (<["nrows" := VInt 2]>
    (<["xll" := VFloat (Fin (1 # 2))]> (<["yll" := VInt 0]>
    (<["cellsize" := VFloat (Fin 10)]> (<["nodata_value" := VInt (-9999)]> ∅))))) in
  let id := fun s : string => s in
  hdr !! "ncols" = Some (VInt 3) /\ hdr !! "nrows" = Some (VInt 2)
  /\ hdr !! "xll" = Some (VFloat (Fin (1 # 2))) /\ hdr !! "yll" = Some (VInt 0)
  /\ hdr !! "cellsize" = Some (VFloat (Fin 10))
  /\ hdr !! "nodata_value" = Some (VInt (-9999))
  /\ to_float (VFloat (Fin (1 # 2))) = Ret (Fin (1 # 2))
  /\ to_float (VInt 0) = Ret (of_Z 0)
  /\ to_float (VFloat (Fin 10)) = Ret (Fin 10)
  /\ id (str_int 3) = str_int 3 /\ id (str_int 2) = str_int 2
  /\ reads_back id (str_e 8 (Fin (1 # 2))) (VFloat (Fin (1 # 2)))
  /\ reads_back id (str_e 8 (of_Z 0)) (VFloat (of_Z 0))
  /\ reads_back id (str_e 8 (Fin 10)) (VFloat (Fin 10))
  /\ reads_back id (str_val (str_e 8) (VInt (-9999))) (VInt (-9999))
  /\ (6 <= 6)%nat
  /\ Forall (fun writer =>
       exists fs' header,
         writer hdr "h.tt2" (∅ : filesystem) = (fs', Ret tt)
         /\ topoheaderread id 6 fs' "h.tt2" = Some (Ret (EmptyString, header))
         /\ header !! "ncols" = Some (VInt 3)
         /\ header !! "nrows" = Some (VInt 2)
         /\ header !! "xll" = Some (VFloat (Fin (1 # 2)))
         /\ header !! "yll" = Some (VFloat (of_Z 0))
         /\ header !! "cellsize" = Some (VFloat (Fin 10))
         /\ header !! "nodata_value" = Some (VInt (-9999)))
       [ topoheaderwrite (str_e 8); esriheaderwrite (str_e 8) ].
Proof.
  intros hdr id.
  assert (H1 : hdr !! "ncols" = Some (VInt 3)) by reflexivity.
  assert (H2 : hdr !! "nrows" = Some (VInt 2)) by reflexivity.
  assert (H3 : hdr !! "xll" = Some (VFloat (Fin (1 # 2)))) by reflexivity.
  assert (H4 : hdr !! "yll" = Some (VInt 0)) by reflexivity.
  assert (H5 : hdr !! "cellsize" = Some (VFloat (Fin 10))) by reflexivity.
  assert (H6 : hdr !! "nodata_value" = Some (VInt (-9999))) by reflexivity.
  assert (F3 : to_float (VFloat (Fin (1 # 2))) = Ret (Fin (1 # 2)))
    by reflexivity.
  assert (F4 : to_float (VInt 0) = Ret (of_Z 0)) by reflexivity.
  assert (F5 : to_float (VFloat (Fin 10)) = Ret (Fin 10)) by reflexivity.
  assert (C1 : id (str_int 3) = str_int 3) by reflexivity.
  assert (C2 : id (str_int 2) = str_int 2) by reflexivity.
  assert (R3 : reads_back id (str_e 8 (Fin (1 # 2))) (VFloat (Fin (1 # 2))))
    by (split; [| split]; vm_compute; reflexivity).
  assert (R4 : reads_back id (str_e 8 (of_Z 0)) (VFloat (of_Z 0)))
    by (split; [| split]; vm_compute; reflexivity).
  assert (R5 : reads_back id (str_e 8 (Fin 10)) (VFloat (Fin 10)))
    by (split; [| split]; vm_compute; reflexivity).
  assert (R6 : reads_back id (str_val (str_e 8) (VInt (-9999))) (VInt (-9999)))
    by (split; [| split]; vm_compute; reflexivity).
  assert (Hf : (6 <= 6)%nat) by lia.
  repeat (split; [assumption |]).
  exact (header_written_and_read_back id (str_e 8) hdr 3 2 _ _ _ _ _ _ _
           "h.tt2" ∅ 6 H1 H2 H3 H4 H5 H6 F3 F4 F5 C1 C2 R3 R4 R5 R6 Hf).
Defined.

(** ** Copying the lines after the header *)


Section Copy.

Variable convertd2e : string -> string.
Variable repr_float : pyfloat -> string.






End Copy.



(** ** A primary file that ends too early *)

Section Truncated.

(** At the end of the file the loop that collects the tokens of a cell
    reads empty lines and never has enough tokens. *)
Lemma fill_tokens_eof count :
  1 <= count -> forall fuel, fill_tokens fuel count EmptyString = None.
Proof.
  intros Hc. unfold fill_tokens. induction fuel as [| fuel IH].
  - cbn [while fst List.length].
    destruct (Z.ltb_spec (Z.of_nat 0) count); [reflexivity | lia].
  - cbn [while fst snd List.length readline split app].
    destruct (Z.ltb_spec (Z.of_nat 0) count); [| lia]. exact IH.
Qed.

Lemma read_cell_eof fuel count cell a :
  1 <= count -> read_cell fuel count cell (a, EmptyString) = None.
Proof.
  intros Hc. unfold read_cell. cbn [snd].
  rewrite (fill_tokens_eof count Hc fuel). reflexivity.
Qed.

Lemma range_pos n : 0 < n -> exists ks, range n = O :: ks.
Proof.
  intros H. unfold range. destruct (Z.to_nat n) as [| k] eqn:E; [lia |].
  eexists. reflexivity.
Qed.

(** The data of a patch with at least one cell is not read from an
    exhausted file. *)
Lemma read_q_eof fuel (g : Grid) :
  grid_ndim g = 1 \/ grid_ndim g = 2 ->
  (forall dim, In dim (dimensions g) -> 0 < dim_n dim) ->
  1 <= grid_meqn g ->
  read_q fuel g EmptyString = None.
Proof.
  intros Hn Hpos Hm. unfold read_q.
  destruct (ndim_cases g Hn) as [(d0 & E) | (d0 & d1 & E)].
  - assert (Hnd : grid_ndim g = 1) by (unfold grid_ndim; rewrite E; reflexivity).
    assert (Hs : dim_size g 0 = Ret (dim_n d0))
      by (unfold dim_size; rewrite E; reflexivity).
    rewrite Hnd, Hs. change (1 =? 1) with true. cbn [lift pbind].
    destruct (range_pos (dim_n d0)) as [ks ->].
    { apply Hpos. rewrite E. left. reflexivity. }
    cbn [pfor]. rewrite read_cell_eof by exact Hm. reflexivity.
  - assert (Hnd : grid_ndim g = 2) by (unfold grid_ndim; rewrite E; reflexivity).
    assert (Hs0 : dim_size g 0 = Ret (dim_n d0))
      by (unfold dim_size; rewrite E; reflexivity).
    assert (Hs1 : dim_size g 1 = Ret (dim_n d1))
      by (unfold dim_size; rewrite E; reflexivity).
    rewrite Hnd, Hs1. change (2 =? 1) with false. change (2 =? 2) with true.
    cbn [lift pbind].
    destruct (range_pos (dim_n d1)) as [js Ej].
    { apply Hpos. rewrite E. right. left. reflexivity. }
    destruct (range_pos (dim_n d0)) as [ks Ek].
    { apply Hpos. rewrite E. left. reflexivity. }
    rewrite Ej. cbn [pfor]. rewrite Hs0. cbn [lift pbind].
    rewrite Ek. cbn [pfor]. rewrite read_cell_eof by exact Hm. reflexivity.
Qed.

End Truncated.

(** X10: when the primary file ends right after the sub-header of its first
    patch, which announces at least one cell in one or two dimensions and
    [meqn >= 1], [read_ascii] does not raise: the loop that collects the
    values of a cell keeps reading empty lines, whatever the fuel, and the
    solution is as it was. *)
Theorem read_ascii_truncated_never_returns
    (g : Grid) (ngrids : nat) (frame : Z) (path file_prefix : string)
    (fs : filesystem) (solution : Solution) (read_aux : bool) (fuel : nat) :
  0 <= frame -> (0 < ngrids)%nat ->
  grid_ndim g = 1 \/ grid_ndim g = 2 ->
  (forall dim, In dim (dimensions g) ->
     0 < dim_n dim /\ no_newline (dim_name dim) = true) ->
  1 <= grid_meqn g ->
  fs !! (path_join path (file_prefix +:+ ".t") +:+ zfill4 frame)
    = Some (t_text g ngrids) ->
  fs !! (path_join path (file_prefix +:+ ".q") +:+ zfill4 frame)
    = Some (patch_header_text g) ->
  read_ascii fuel fs solution frame path file_prefix read_aux
  = (solution, None).
Proof.
  intros Hframe Hng Hnd Hdims Hm HT HQ.
  unfold read_ascii. destruct (Z.ltb_spec frame 0); [lia |].
  rewrite (read_ascii_t_text fs frame path file_prefix g ngrids HT).
  unfold open_r. rewrite HQ. cbn [fh_ngrids]. rewrite Nat2Z.id.
  destruct ngrids as [| k]; [lia |].
  cbn [read_patches]. unfold read_patch. cbn [r_fid].
  rewrite <- (append_nil_r (patch_header_text g)).
  rewrite (patch_subheader_text g
             (MkFrameHeader (reread (grid_t g)) (grid_meqn g)
                (Z.of_nat (S k)) (grid_maux g) (grid_ndim g))
             EmptyString Hnd eq_refl)
    by (intros d Hd; apply Hdims, Hd).
  cbn [lift pbind].
  rewrite read_q_eof; [reflexivity | | | exact Hm].
  - unfold grid_ndim in *. cbn [new_grid dimensions].
    rewrite <- (List.length_map dim_n (reread_dims (dimensions g))).
    rewrite (reread_dims_n _ (ndim_length g Hnd)), List.length_map.
    exact Hnd.
  - cbn [new_grid dimensions]. intros dim Hin.
    assert (Hz : In (dim_n dim) (List.map dim_n (reread_dims (dimensions g))))
      by (apply in_map; exact Hin).
    rewrite (reread_dims_n _ (ndim_length g Hnd)) in Hz.
    apply in_map_iff in Hz. destruct Hz as (d & <- & Hd).
    apply Hdims, Hd.
Qed.

Lemma read_ascii_truncated_witness :
  let fs : filesystem :=
    {[ "fort.t0000" := t_text patchB 1;
       "fort.q0000" := patch_header_text patchB ]} in
  0 <= 0 /\ (0 < 1)%nat
  /\ (grid_ndim patchB = 1 \/ grid_ndim patchB = 2)
  /\ (forall dim, In dim (dimensions patchB) ->
        0 < dim_n dim /\ no_newline (dim_name dim) = true)
  /\ 1 <= grid_meqn patchB
  /\ fs !! (path_join "" ("fort" +:+ ".t") +:+ zfill4 0)
     = Some (t_text patchB 1)
  /\ fs !! (path_join "" ("fort" +:+ ".q") +:+ zfill4 0)
     = Some (patch_header_text patchB)
  /\ read_ascii 50 fs [] 0 "" "fort" false = ([], None).
Proof.
  intros fs.
  assert (H1 : 0 <= 0) by lia.
  assert (H2 : (0 < 1)%nat) by lia.
  assert (H3 : grid_ndim patchB = 1 \/ grid_ndim patchB = 2)
    by (right; reflexivity).
  assert (H4 : forall dim, In dim (dimensions patchB) ->
                 0 < dim_n dim /\ no_newline (dim_name dim) = true)
    by (intros dim [<- | [<- | []]]; split; reflexivity).
  assert (H5 : 1 <= grid_meqn patchB) by (vm_compute; discriminate).
  assert (H6 : fs !! (path_join "" ("fort" +:+ ".t") +:+ zfill4 0)
               = Some (t_text patchB 1)) by (vm_compute; reflexivity).
  assert (H7 : fs !! (path_join "" ("fort" +:+ ".q") +:+ zfill4 0)
               = Some (patch_header_text patchB)) by (vm_compute; reflexivity).
  split; [exact H1 |]. split; [exact H2 |]. split; [exact H3 |].
  split; [exact H4 |]. split; [exact H5 |]. split; [exact H6 |].
  split; [exact H7 |].
  exact (read_ascii_truncated_never_returns patchB 1 0 "" "fort" fs [] false
           50 H1 H2 H3 H4 H5 H6 H7).
Defined.

(** ** Subsampling and subsetting of gridded data *)

(** The element [i] of [xs[skip::step]] is the element [skip + i * step] of
    [xs]; both are missing together. *)
Lemma every_nth {A} (step : nat) (xs : list A) :
  (1 <= step)%nat ->
  forall skip i,
    nth_error (every step skip xs) i = nth_error xs (skip + i * step)%nat.
Proof.
  intros Hstep. induction xs as [| x xs IH]; intros skip i.
  - cbn [every]. rewrite !nth_error_nil. reflexivity.
  - destruct skip as [| skip]; cbn [every].
    + destruct i as [| i]; [reflexivity |].
      cbn [nth_error]. rewrite IH.
      replace (0 + S i * step)%nat with (S (step - 1 + i * step)) by lia.
      reflexivity.
    + rewrite IH. reflexivity.
Qed.

Lemma map_result_ret {A B} (f : A -> B) (g : A -> result B) xs :
  (forall x, g x = Ret (f x)) -> map_result g xs = Ret (List.map f xs).
Proof.
  intros H. induction xs as [| x xs IH]; [reflexivity |].
  cbn [map_result List.map]. rewrite H, IH. reflexivity.
Qed.

Lemma subsample_every step a :
  1 <= step ->
  subsample step a
  = Ret (List.map (every (Z.to_nat step) 0) (every (Z.to_nat step) 0 a)).
Proof.
  intros Hs. unfold subsample, slice_step.
  destruct (Z.eqb_spec step 0) as [-> | _]; [lia |].
  destruct (Z.ltb_spec step 0); [lia |].
  cbn [bind].
  apply map_result_ret. intros row.
  unfold slice_step.
  destruct (Z.eqb_spec step 0) as [-> | _]; [lia |].
  destruct (Z.ltb_spec step 0); [lia | reflexivity].
Qed.

Lemma subsample_index2 step a sub :
  1 <= step -> subsample step a = Ret sub ->
  forall i j,
    index2 sub i j = index2 a (Z.to_nat step * i) (Z.to_nat step * j).
Proof.
  intros Hs Hsub i j. rewrite subsample_every in Hsub by exact Hs.
  inversion Hsub; subst sub. clear Hsub.
  assert (Hk : (1 <= Z.to_nat step)%nat) by lia.
  unfold index2, index.
  rewrite List.nth_error_map, every_nth by exact Hk.
  replace (0 + i * Z.to_nat step)%nat with (Z.to_nat step * i)%nat by lia.
  destruct (nth_error a (Z.to_nat step * i)) as [row |]; [| reflexivity].
  cbn [option_map bind]. rewrite every_nth by exact Hk.
  replace (0 + j * Z.to_nat step)%nat with (Z.to_nat step * j)%nat by lia.
  reflexivity.
Qed.

(** X11: with a sample integer [k] of at least 1, [griddatasubsample]
    returns three arrays whose entry [(i, j)] is the entry [(k i, k j)] of
    the array it was taken from; the result has an entry [(i, j)] exactly
    where the input has an entry [(k i, k j)], and subscripting fails with
    [IndexError] elsewhere on both sides. *)
Theorem griddatasubsample_entries :
  forall (X Y Zg : array) (sampleinteger : Z),
    1 <= sampleinteger ->
    exists Xsub Ysub Zsub,
      griddatasubsample X Y Zg sampleinteger = Ret (Xsub, Ysub, Zsub)
      /\ forall i j : nat,
           let k := Z.to_nat sampleinteger in
           index2 Xsub i j = index2 X (k * i) (k * j)
           /\ index2 Ysub i j = index2 Y (k * i) (k * j)
           /\ index2 Zsub i j = index2 Zg (k * i) (k * j).
Proof.
  intros X Y Zg k Hk. unfold griddatasubsample.
  pose proof (subsample_every k X Hk) as HX.
  pose proof (subsample_every k Y Hk) as HY.
  pose proof (subsample_every k Zg Hk) as HZ.
  rewrite HX, HY, HZ. cbn [bind].
  eexists _, _, _. split; [reflexivity |].
  intros i j. cbv zeta.
  split; [| split].
  - apply subsample_index2; [exact Hk | exact HX].
  - apply subsample_index2; [exact Hk | exact HY].
  - apply subsample_index2; [exact Hk | exact HZ].
Qed.

Lemma griddatasubsample_witness :
  1 <= 2 /\
  exists Xsub Ysub Zsub,
    griddatasubsample [[of_Z 0; of_Z 1; of_Z 2]; [of_Z 0; of_Z 1; of_Z 2]]
                      [[of_Z 1; of_Z 1; of_Z 1]; [of_Z 0; of_Z 0; of_Z 0]]
                      [[of_Z 5; of_Z 6; of_Z 7]; [of_Z 8; of_Z 9; of_Z 4]] 2
    = Ret (Xsub, Ysub, Zsub)
    /\ forall i j : nat,
         let k := Z.to_nat 2 in
         index2 Xsub i j
         = index2 [[of_Z 0; of_Z 1; of_Z 2]; [of_Z 0; of_Z 1; of_Z 2]]
             (k * i) (k * j)
         /\ index2 Ysub i j
            = index2 [[of_Z 1; of_Z 1; of_Z 1]; [of_Z 0; of_Z 0; of_Z 0]]
                (k * i) (k * j)
         /\ index2 Zsub i j
            = index2 [[of_Z 5; of_Z 6; of_Z 7]; [of_Z 8; of_Z 9; of_Z 4]]
                (k * i) (k * j).
Proof.
  split; [lia |]. apply griddatasubsample_entries. lia.
Defined.

(** The indices that [np.where] returns are positions of the list at which
    the condition holds. *)
Lemma np_where_from_in p xs : forall k i,
  In i (np_where_from k p xs) ->
  exists v, (k <= i)%nat /\ nth_error xs (i - k) = Some v /\ p v = true.
Proof.
  induction xs as [| x xs IH]; intros k i Hin; [destruct Hin |].
  cbn [np_where_from] in Hin.
  assert (Hrec : In i (np_where_from (S k) p xs) ->
                 exists v, (k <= i)%nat /\ nth_error (x :: xs) (i - k) = Some v
                           /\ p v = true).
  { intros H. destruct (IH _ _ H) as (v & Hk & Hv & Hp).
    exists v. split; [lia |]. split; [| exact Hp].
    replace (i - k)%nat with (S (i - S k)) by lia. exact Hv. }
  destruct (p x) eqn:Hpx.
  - destruct Hin as [<- | Hin]; [| exact (Hrec Hin)].
    exists x. rewrite Nat.sub_diag. repeat split; [lia | exact Hpx].
  - exact (Hrec Hin).
Qed.

Lemma np_where_in p xs i :
  In i (np_where p xs) -> exists v, nth_error xs i = Some v /\ p v = true.
Proof.
  intros H. destruct (np_where_from_in p xs 0 i H) as (v & _ & Hv & Hp).
  rewrite Nat.sub_0_r in Hv. eauto.
Qed.

(** Where the condition holds everywhere, [np.where] returns every
    index. *)
Lemma np_where_from_all p xs : forall k,
  Forall (fun v => p v = true) xs ->
  np_where_from k p xs = seq k (List.length xs).
Proof.
  induction xs as [| x xs IH]; intros k H; [reflexivity |].
  inversion H; subst. cbn [np_where_from List.length seq].
  rewrite H2, IH by assumption. reflexivity.
Qed.

(** The entries of [a[np.ix_(yind, xind)]]. *)
Lemma take_indices_index2 a yind xind sub :
  take_indices a yind xind = Ret sub ->
  forall r c v, index2 sub r c = Ret v ->
    exists i j, nth_error yind r = Some i /\ nth_error xind c = Some j
                /\ index2 a i j = Ret v.
Proof.
  unfold take_indices. intros Hsub r c v Hv.
  unfold index2, index in Hv.
  destruct (nth_error sub r) as [row |] eqn:Hrow; cbn [bind] in Hv;
    [| discriminate].
  destruct (nth_error row c) as [w |] eqn:Hw; [| discriminate].
  inversion Hv; subst w. clear Hv.
  destruct (nth_error yind r) as [i |] eqn:Hi.
  - destruct (map_result_nth _ _ _ _ _ Hsub Hi) as (row' & Hrow' & Hf).
    rewrite Hrow in Hrow'. inversion Hrow'; subst row'. clear Hrow'.
    destruct (nth_error xind c) as [j |] eqn:Hj.
    + destruct (map_result_nth _ _ _ _ _ Hf Hj) as (w & Hw' & Hg).
      rewrite Hw in Hw'. inversion Hw'; subst w.
      exists i, j. repeat split. exact Hg.
    + apply nth_error_None in Hj.
      assert (Hlen : List.length row = List.length xind).
      { clear - Hf. revert row Hf.
        induction xind as [| j xind IH]; intros row Hf; cbn [map_result] in Hf.
        - inversion Hf. reflexivity.
        - destruct (index2 a i j); cbn [bind] in Hf; [| discriminate].
          destruct (map_result _ xind) as [ys |] eqn:E; cbn [bind] in Hf;
            [| discriminate].
          inversion Hf. cbn [List.length]. f_equal. apply IH. reflexivity. }
      assert (c < List.length row)%nat
        by (apply nth_error_Some; congruence).
      lia.
  - apply nth_error_None in Hi.
    assert (Hlen : List.length sub = List.length yind).
    { clear - Hsub. revert sub Hsub.
      induction yind as [| i yind IH]; intros sub Hsub;
        cbn [map_result] in Hsub.
      - inversion Hsub. reflexivity.
      - destruct (map_result _ xind); cbn [bind] in Hsub; [| discriminate].
        destruct (map_result _ yind) as [ys |] eqn:E; cbn [bind] in Hsub;
          [| discriminate].
        inversion Hsub. cbn [List.length]. f_equal. apply IH. reflexivity. }
    assert (r < List.length sub)%nat by (apply nth_error_Some; congruence).
    lia.
Qed.

(** Reading a list at the indices [k, k+1, ...] gives the list. *)
Lemma map_result_seq {B} (f : nat -> result B) ys : forall k,
  (forall i y, nth_error ys i = Some y -> f (k + i)%nat = Ret y) ->
  map_result f (seq k (List.length ys)) = Ret ys.
Proof.
  induction ys as [| y ys IH]; intros k H; [reflexivity |].
  cbn [List.length seq map_result].
  pose proof (H 0%nat y eq_refl) as H0. rewrite Nat.add_0_r in H0.
  rewrite H0. cbn [bind].
  rewrite IH; [reflexivity |].
  intros i y' Hy'. replace (S k + i)%nat with (k + S i)%nat by lia.
  apply H. exact Hy'.
Qed.

Lemma take_indices_all nr nc a :
  shape nr nc a -> take_indices a (seq 0 nr) (seq 0 nc) = Ret a.
Proof.
  intros [Hlen Hrows]. unfold take_indices. rewrite <- Hlen.
  apply map_result_seq. intros i row Hrow. cbn [Nat.add].
  assert (Hnc : List.length row = nc).
  { rewrite List.Forall_forall in Hrows. apply Hrows.
    eapply nth_error_In; eauto. }
  rewrite <- Hnc. apply map_result_seq. intros j v Hv. cbn [Nat.add].
  unfold index2, index. rewrite Hrow. cbn [bind]. rewrite Hv. reflexivity.
Qed.

(** X12: every cell of the arrays that [griddatasubset] returns is a cell of
    the input, the same one in the three arrays, and it is selected by the
    head of its column and the head of its row: the [x] in the first row of
    [X] above it lies in [[xlow, xhi]] and the [y] in the first column of
    [Y] beside it lies in [[ylow, yhi]]. *)
Theorem griddatasubset_cells_from_window :
  forall (X Y Zg Xsub Ysub Zsub : array) (xlow xhi ylow yhi : pyfloat),
    griddatasubset X Y Zg xlow xhi ylow yhi = Ret (Xsub, Ysub, Zsub) ->
    forall (r c : nat) (z : pyfloat),
      index2 Zsub r c = Ret z ->
      exists (i j : nat) (x0 y0 : pyfloat),
        index2 Zg i j = Ret z
        /\ index2 Xsub r c = index2 X i j
        /\ index2 Ysub r c = index2 Y i j
        /\ index2 X 0 j = Ret x0
        /\ ((xlow <=? x0) && (x0 <=? xhi))%F = true
        /\ index2 Y i 0 = Ret y0
        /\ ((y0 <=? yhi) && (ylow <=? y0))%F = true.
Proof.
  intros X Y Zg Xsub Ysub Zsub xlow xhi ylow yhi H r c z Hz.
  unfold griddatasubset in H.
  destruct (row_of X 0) as [x0s |] eqn:Hx0; cbn [bind] in H; [| discriminate].
  destruct (col_of Y 0) as [y0s |] eqn:Hy0; cbn [bind] in H; [| discriminate].
  set (xind := np_where _ x0s) in H.
  set (yind := np_where _ y0s) in H.
  destruct (take_indices X yind xind) as [Xs |] eqn:HX; cbn [bind] in H;
    [| discriminate].
  destruct (take_indices Y yind xind) as [Ys |] eqn:HY; cbn [bind] in H;
    [| discriminate].
  destruct (take_indices Zg yind xind) as [Zs |] eqn:HZ; cbn [bind] in H;
    [| discriminate].
  inversion H; subst Xs Ys Zs. clear H.
  destruct (take_indices_index2 _ _ _ _ HZ r c z Hz) as (i & j & Hi & Hj & Hij).
  assert (Hsame : forall a sub, take_indices a yind xind = Ret sub ->
                                index2 sub r c = index2 a i j).
  { intros a sub Ha. unfold take_indices in Ha.
    destruct (map_result_nth _ _ _ _ _ Ha Hi) as (row & Hrow & Hf).
    destruct (map_result_nth _ _ _ _ _ Hf Hj) as (w & Hw & Hg).
    unfold index2 at 1. unfold index. rewrite Hrow. cbn [bind].
    rewrite Hw. symmetry. exact Hg. }
  destruct (np_where_in _ _ _ (nth_error_In _ _ Hj)) as (x0 & Hx0j & Hpx).
  destruct (np_where_in _ _ _ (nth_error_In _ _ Hi)) as (y0 & Hy0i & Hpy).
  exists i, j, x0, y0.
  split; [exact Hij |].
  split; [exact (Hsame _ _ HX) |].
  split; [exact (Hsame _ _ HY) |].
  split.
  { unfold row_of in Hx0. unfold index2. rewrite Hx0. cbn [bind].
    unfold index. rewrite Hx0j. reflexivity. }
  split; [exact Hpx |].
  split; [| exact Hpy].
  unfold col_of in Hy0. destruct Y as [| row0 Y']; [discriminate |].
  destruct (map_result_index_col _ _ _ Hy0) as [_ Hnth].
  specialize (Hnth i). rewrite Hy0i in Hnth.
  destruct (index2 (row0 :: Y') i 0) as [v |]; [| discriminate].
  inversion Hnth. reflexivity.
Qed.

Lemma griddatasubset_cells_witness :
  griddatasubset [[of_Z 0; of_Z 1; of_Z 2]; [of_Z 0; of_Z 1; of_Z 2]]
                 [[of_Z 1; of_Z 1; of_Z 1]; [of_Z 0; of_Z 0; of_Z 0]]
                 [[of_Z 5; of_Z 6; of_Z 7]; [of_Z 8; of_Z 9; of_Z 4]]
                 (of_Z 1) (of_Z 2) (of_Z 0) (of_Z 0)
  = Ret ([[of_Z 1; of_Z 2]], [[of_Z 0; of_Z 0]], [[of_Z 9; of_Z 4]])
  /\ index2 [[of_Z 9; of_Z 4]] 0 1 = Ret (of_Z 4)
  /\ exists (i j : nat) (x0 y0 : pyfloat),
       index2 [[of_Z 5; of_Z 6; of_Z 7]; [of_Z 8; of_Z 9; of_Z 4]] i j
       = Ret (of_Z 4)
       /\ index2 [[of_Z 1; of_Z 2]] 0 1
          = index2 [[of_Z 0; of_Z 1; of_Z 2]; [of_Z 0; of_Z 1; of_Z 2]] i j
       /\ index2 [[of_Z 0; of_Z 0]] 0 1
          = index2 [[of_Z 1; of_Z 1; of_Z 1]; [of_Z 0; of_Z 0; of_Z 0]] i j
       /\ index2 [[of_Z 0; of_Z 1; of_Z 2]; [of_Z 0; of_Z 1; of_Z 2]] 0 j
          = Ret x0
       /\ ((of_Z 1 <=? x0) && (x0 <=? of_Z 2))%F = true
       /\ index2 [[of_Z 1; of_Z 1; of_Z 1]; [of_Z 0; of_Z 0; of_Z 0]] i 0
          = Ret y0
       /\ ((y0 <=? of_Z 0) && (of_Z 0 <=? y0))%F = true.
Proof.
  split; [reflexivity |]. split; [reflexivity |].
  apply (griddatasubset_cells_from_window
           [[of_Z 0; of_Z 1; of_Z 2]; [of_Z 0; of_Z 1; of_Z 2]]
           [[of_Z 1; of_Z 1; of_Z 1]; [of_Z 0; of_Z 0; of_Z 0]]
           [[of_Z 5; of_Z 6; of_Z 7]; [of_Z 8; of_Z 9; of_Z 4]]
           [[of_Z 1; of_Z 2]] [[of_Z 0; of_Z 0]] [[of_Z 9; of_Z 4]]
           (of_Z 1) (of_Z 2) (of_Z 0) (of_Z 0) eq_refl 0%nat 1%nat (of_Z 4)
           eq_refl).
Defined.

(** X13: on arrays of one shape with at least one row and one column, a
    window that holds the whole first row of [X] and the whole first column
    of [Y] makes [griddatasubset] return the three arrays as they are. *)
Theorem griddatasubset_whole_grid :
  forall (X Y Zg : array) (xlow xhi ylow yhi : pyfloat) (nrows ncols : nat),
    shape nrows ncols X -> shape nrows ncols Y -> shape nrows ncols Zg ->
    (0 < nrows)%nat -> (0 < ncols)%nat ->
    (forall j x, index2 X 0 j = Ret x ->
                 ((xlow <=? x) && (x <=? xhi))%F = true) ->
    (forall i y, index2 Y i 0 = Ret y ->
                 ((y <=? yhi) && (ylow <=? y))%F = true) ->
    griddatasubset X Y Zg xlow xhi ylow yhi = Ret (X, Y, Zg).
Proof.
  intros X Y Zg xlow xhi ylow yhi nr nc HX HY HZ Hnr Hnc Hx Hy.
  unfold griddatasubset.
  destruct (shape_row _ _ _ _ HX Hnr) as (x0s & Hx0 & Hx0len).
  unfold row_of, index at 1. rewrite Hx0. cbn [bind].
  destruct (col_of_shape _ _ _ _ HY Hnr Hnc) as (y0s & Hy0 & Hy0len & Hy0nth).
  rewrite Hy0. cbn [bind].
  unfold np_where.
  rewrite (np_where_from_all _ x0s), (np_where_from_all _ y0s).
  - rewrite Hx0len, Hy0len.
    rewrite (take_indices_all _ _ _ HX), (take_indices_all _ _ _ HY),
      (take_indices_all _ _ _ HZ).
    reflexivity.
  - rewrite List.Forall_forall. intros y Hin.
    destruct (In_nth_error _ _ Hin) as [i Hi].
    apply (Hy i). specialize (Hy0nth i). rewrite Hi in Hy0nth.
    destruct (index2 Y i 0) as [v |]; [| discriminate].
    inversion Hy0nth. reflexivity.
  - rewrite List.Forall_forall. intros x Hin.
    destruct (In_nth_error _ _ Hin) as [j Hj].
    apply (Hx j). unfold index2, index. rewrite Hx0. cbn [bind].
    rewrite Hj. reflexivity.
Qed.

Lemma griddatasubset_whole_witness :
  griddatasubset [[of_Z 0; of_Z 1; of_Z 2]; [of_Z 0; of_Z 1; of_Z 2]]
                 [[of_Z 1; of_Z 1; of_Z 1]; [of_Z 0; of_Z 0; of_Z 0]]
                 [[of_Z 5; of_Z 6; of_Z 7]; [of_Z 8; of_Z 9; of_Z 4]]
                 (of_Z 0) (of_Z 2) (of_Z 0) (of_Z 1)
  = Ret ([[of_Z 0; of_Z 1; of_Z 2]; [of_Z 0; of_Z 1; of_Z 2]],
         [[of_Z 1; of_Z 1; of_Z 1]; [of_Z 0; of_Z 0; of_Z 0]],
         [[of_Z 5; of_Z 6; of_Z 7]; [of_Z 8; of_Z 9; of_Z 4]]).
Proof.
  apply (griddatasubset_whole_grid _ _ _ _ _ _ _ 2%nat 3%nat).
  - split; [reflexivity | repeat constructor].
  - split; [reflexivity | repeat constructor].
  - split; [reflexivity | repeat constructor].
  - lia.
  - lia.
  - intros [| [| [| j]]] x H; unfold index2, index in H;
      cbn [nth_error bind] in H;
      [inversion H; reflexivity .. | destruct j; discriminate].
  - intros [| [| i]] y H; unfold index2, index in H;
      cbn [nth_error bind] in H;
      [inversion H; reflexivity .. | destruct i; discriminate].
Defined.

(** ** The grid that [topofile2griddata] builds *)

Lemma chunks_shape rows n : forall xs,
  List.length xs = (rows * n)%nat -> shape rows n (chunks rows n xs).
Proof.
  unfold shape. induction rows as [| rows IH]; intros xs Hlen.
  - split; [reflexivity | constructor].
  - cbn [chunks List.length].
    destruct (IH (skipn n xs)) as [Hl Hr].
    { rewrite List.length_skipn. lia. }
    split; [f_equal; exact Hl |].
    constructor; [| exact Hr].
    rewrite List.length_firstn. lia.
Qed.

(** The rows of [chunks] hold the list in row-major order. *)
Lemma chunks_index2 rows n : forall xs i j,
  (i < rows)%nat -> (j < n)%nat ->
  index2 (chunks rows n xs) i j = index xs (i * n + j)%nat.
Proof.
  induction rows as [| rows IH]; intros xs i j Hi Hj; [lia |].
  destruct i as [| i].
  - cbn [chunks]. unfold index2, index. cbn [nth_error bind Nat.mul Nat.add].
    rewrite List.nth_error_firstn.
    destruct (Nat.ltb_spec j n); [reflexivity | lia].
  - cbn [chunks]. unfold index2, index at 1. cbn [nth_error].
    assert (Hi' : (i < rows)%nat) by lia.
    specialize (IH (skipn n xs) i j Hi' Hj).
    unfold index2, index at 1 in IH. rewrite IH.
    unfold index. rewrite List.nth_error_skipn.
    replace (n + (i * n + j))%nat with (S i * n + j)%nat by lia.
    reflexivity.
Qed.

(** The points of [np.linspace] from [s] over [n - 1] steps of [c]. *)
Lemma linspace_entries (s c : Q) (n : Z) :
  0 <= n ->
  exists xs,
    linspace (Fin s) (Fin s + Fin c * of_Z (n - 1))%F n = Ret xs
    /\ List.length xs = Z.to_nat n
    /\ forall j, (j < Z.to_nat n)%nat ->
         exists v, nth_error xs j = Some v
                   /\ same v (Fin (s + inject_Z (Z.of_nat j) * c)).
Proof.
  intros Hn. unfold linspace.
  destruct (Z.ltb_spec n 0); [lia |].
  destruct (Z.eqb_spec n 0) as [-> | Hn0].
  { exists []. repeat split. intros j Hj. cbn in Hj. lia. }
  destruct (Z.eqb_spec n 1) as [-> | Hn1].
  { exists [Fin s]. repeat split. intros j Hj.
    assert (j = 0%nat) by (cbn in Hj; lia). subst j.
    exists (Fin s). split; [reflexivity |].
    cbn [same]. cbn [Z.of_nat]. ring. }
  eexists. split; [reflexivity |].
  split.
  { rewrite List.length_app, List.length_map, List.length_seq.
    cbn [List.length]. lia. }
  intros j Hj.
  assert (Hne : ~ (inject_Z (n - 1) == 0)%Q).
  { intros E. unfold Qeq in E. cbn [Qnum Qden inject_Z] in E. lia. }
  destruct (Nat.ltb_spec j (Z.to_nat n - 1)) as [Hlt | Hge].
  - rewrite List.nth_error_app1
      by (rewrite List.length_map, List.length_seq; exact Hlt).
    rewrite List.nth_error_map, List.nth_error_seq.
    destruct (Nat.ltb_spec j (Z.to_nat n - 1)); [| lia].
    cbn [option_map Nat.add].
    eexists. split; [reflexivity |].
    unfold of_Z, fsub, fneg, fmul, fadd, fdiv.
    destruct (Qeq_bool (inject_Z (n - 1)) 0) eqn:E.
    { apply Qeq_bool_iff in E. contradiction. }
    cbn [same]. field. exact Hne.
  - rewrite List.nth_error_app2
      by (rewrite List.length_map, List.length_seq; exact Hge).
    rewrite List.length_map, List.length_seq.
    replace (j - (Z.to_nat n - 1))%nat with 0%nat by lia.
    eexists. split; [reflexivity |].
    unfold of_Z, fmul, fadd. cbn [same].
    replace (Z.of_nat j) with (n - 1) by lia. ring.
Qed.

(** The grid that the statements after the header build from the rest of
    the file. *)
Lemma grid_of_text_entries (convertd2e : string -> string) (fin : string)
    (topoheader : gmap string pyval) (zdata : list (list pyfloat))
    (nrows ncols : Z) (xll yll cellsize : Q) :
  header_int topoheader "nrows" = Ret nrows ->
  header_int topoheader "ncols" = Ret ncols ->
  header_num topoheader "xll" = Ret (Fin xll) ->
  header_num topoheader "yll" = Ret (Fin yll) ->
  header_num topoheader "cellsize" = Ret (Fin cellsize) ->
  0 <= nrows -> 0 <= ncols ->
  map_result (parse_row convertd2e) (readlines fin) = Ret zdata ->
  np_array zdata = Ret zdata ->
  Z.of_nat (List.length (List.concat zdata)) = nrows * ncols ->
  exists X Y Zg,
    grid_of_text convertd2e fin topoheader = Ret (X, Y, Zg)
    /\ shape (Z.to_nat nrows) (Z.to_nat ncols) X
    /\ shape (Z.to_nat nrows) (Z.to_nat ncols) Y
    /\ shape (Z.to_nat nrows) (Z.to_nat ncols) Zg
    /\ forall i j : nat,
         (i < Z.to_nat nrows)%nat -> (j < Z.to_nat ncols)%nat ->
         index2 Zg i j = index (List.concat zdata) (i * Z.to_nat ncols + j)
         /\ (exists x, index2 X i j = Ret x
               /\ same x (Fin (xll + inject_Z (Z.of_nat j) * cellsize)))
         /\ (exists y, index2 Y i j = Ret y
               /\ same y (Fin (yll + inject_Z (nrows - 1 - Z.of_nat i)
                                      * cellsize))).
Proof.
  intros Hnr Hnc Hx Hy Hc Hnr0 Hnc0 Hparse Harr Hsize.
  destruct (linspace_entries xll cellsize ncols Hnc0) as (xs & Hxs & Hxl & Hxn).
  destruct (linspace_entries yll cellsize nrows Hnr0) as (ys & Hys & Hyl & Hyn).
  unfold grid_of_text.
  rewrite Hparse. cbn [bind]. rewrite Harr. cbn [bind].
  rewrite Hnr. cbn [bind]. rewrite Hnc. cbn [bind].
  unfold np_reshape.
  destruct (Z.ltb_spec nrows 0); [lia |].
  destruct (Z.ltb_spec ncols 0); [lia |].
  cbn [orb]. rewrite Hsize, Z.eqb_refl. cbn [bind].
  rewrite Hx. cbn [bind]. rewrite Hc. cbn [bind]. rewrite Hy. cbn [bind].
  rewrite Hxs. cbn [bind]. rewrite Hys. cbn [bind].
  unfold meshgrid, flipud.
  eexists _, _, _. split; [reflexivity |].
  assert (Hflat : List.length (List.concat zdata)
                  = (Z.to_nat nrows * Z.to_nat ncols)%nat) by nia.
  split.
  { split; [rewrite List.length_map; exact Hyl |].
    rewrite List.Forall_forall. intros row Hin.
    apply List.in_map_iff in Hin. destruct Hin as (y & <- & _). exact Hxl. }
  split.
  { split; [rewrite List.length_rev, List.length_map; exact Hyl |].
    rewrite List.Forall_forall. intros row Hin.
    apply List.in_rev in Hin.
    apply List.in_map_iff in Hin. destruct Hin as (y & <- & _).
    rewrite List.length_map. exact Hxl. }
  split; [apply chunks_shape; exact Hflat |].
  intros i j Hi Hj.
  split; [apply chunks_index2; assumption |].
  destruct (Hxn j Hj) as (x & Hxj & Sx).
  assert (Hi' : (Z.to_nat nrows - 1 - i < Z.to_nat nrows)%nat) by lia.
  destruct (Hyn _ Hi') as (y & Hyi & Sy).
  split.
  - exists x. split; [| exact Sx].
    unfold index2, index. rewrite List.nth_error_map.
    destruct (nth_error ys i) as [yi |] eqn:E.
    + cbn [option_map bind]. rewrite Hxj. reflexivity.
    + apply nth_error_None in E. lia.
  - exists y. split.
    + unfold index2, index.
      rewrite List.nth_error_rev, List.length_map, Hyl.
      replace (Z.to_nat nrows - S i)%nat with (Z.to_nat nrows - 1 - i)%nat
        by lia.
      rewrite List.nth_error_map, Hyi. cbn [option_map].
      destruct (Nat.ltb_spec i (Z.to_nat nrows)); [| lia].
      cbn [bind]. rewrite List.nth_error_map, Hxj. reflexivity.
    + replace (nrows - 1 - Z.of_nat i)
        with (Z.of_nat (Z.to_nat nrows - 1 - i)) by lia.
      exact Sy.
Qed.




(** ** The streaming subset on an input without data *)

(** A loop whose body leaves the state as it is runs for ever. *)
Lemma while_stuck {S} cond (body : S -> result S) s :
  cond s = true -> body s = Ret s -> forall fuel, while fuel cond body s = None.
Proof.
  intros Hc Hb. induction fuel as [| fuel IH]; cbn [while]; rewrite Hc;
    [reflexivity |].
  rewrite Hb. exact IH.
Qed.

(** At the end of the input a cell reads the empty line, which has no
    tokens: nothing is written and nothing is counted. *)
Lemma cheap_cell_eof outputfile xll yupper cellsize xlow xhi ylow yhi row col
    st :
  c_fidin st = EmptyString ->
  cheap_cell outputfile xll yupper cellsize xlow xhi ylow yhi row col st = st.
Proof.
  destruct st as [fidin outpts writtenpts fs]. cbn [c_fidin]. intros ->.
  unfold cheap_cell.
  cbn [readline split fold_left c_fidin c_outpts c_writtenpts c_fs].
  rewrite Z.ltb_irrefl. reflexivity.
Qed.

Lemma cheap_pass_eof outputfile hdr xll yupper cellsize xlow xhi ylow yhi st
    nrows ncols :
  c_fidin st = EmptyString ->
  header_int hdr "nrows" = Ret nrows ->
  header_int hdr "ncols" = Ret ncols ->
  cheap_pass outputfile hdr xll yupper cellsize xlow xhi ylow yhi st = Ret st.
Proof.
  intros Heof Hnr Hnc. unfold cheap_pass. rewrite Hnr. cbn [bind].
  set (body := fun (row : nat) (st' : cstate) => bind _ _).
  assert (Hb : forall row, body row st = Ret st).
  { intros row. unfold body. rewrite Hnc. cbn [bind]. f_equal.
    induction (seq 0 (Z.to_nat ncols)) as [| col cols IHc]; [reflexivity |].
    cbn [fold_left]. rewrite cheap_cell_eof by exact Heof. exact IHc. }
  clearbody body.
  induction (seq 0 (Z.to_nat nrows)) as [| row rows IH]; [reflexivity |].
  cbn [for_each]. rewrite Hb. cbn [bind]. exact IH.
Qed.

(** X15: on an input of topotype 2 or 3 that ends with its header, the
    streaming mode of [topofilesubset] does not return when the header it
    computes for the output promises at least one point: it writes that
    header, then every pass of its loop reads empty lines and writes
    nothing, so the count of points still to write never reaches zero. *)
Theorem topofilesubset_cheap_no_data :
  forall (convertd2e : string -> string)
         (datafile2array : filesystem -> string -> result array)
         (repr_float : pyfloat -> string)
         (fuel : nat) (inputfile outputfile : string)
         (topotypein topotypeout : Z) (xlow xhi ylow yhi : pyfloat)
         (nodata : pyval) (fs : filesystem) (topoheaderin : gmap string pyval)
         (theadout : gmap string pyval) (ncolsout nrowsout nrows ncols : Z)
         (xll yupper cellsize : pyfloat),
    1 < topotypein ->
    topoheaderread convertd2e fuel fs inputfile
    = Some (Ret (EmptyString, topoheaderin)) ->
    header_int topoheaderin "nrows" = Ret nrows ->
    header_int topoheaderin "ncols" = Ret ncols ->
    cheap_header topoheaderin xlow xhi ylow yhi
    = Ret (theadout, ncolsout, nrowsout, xll, yupper, cellsize) ->
    0 < ncolsout * nrowsout ->
    topofilesubset convertd2e datafile2array repr_float fuel inputfile
      outputfile topotypein topotypeout xlow xhi ylow yhi nodata true fs
    = (fst (topoheaderwrite repr_float theadout outputfile fs), None).
Proof.
  intros convertd2e datafile2array repr_float fuel inputfile outputfile
    topotypein topotypeout xlow xhi ylow yhi nodata fs topoheaderin theadout
    ncolsout nrowsout nrows ncols xll yupper cellsize
    Ht Hread Hnr Hnc Hgeom Hpts.
  unfold topofilesubset, topofilesubset_cheap.
  destruct (Z.eqb_spec topotypein 1); [lia |].
  rewrite Hread, Hgeom.
  assert (Hw : exists fs1,
            topoheaderwrite repr_float theadout outputfile fs = (fs1, Ret tt)).
  { unfold cheap_header in Hgeom.
    destruct (dict_get topoheaderin "nodata_value") as [nodata_in |];
      cbn [bind] in Hgeom; [| discriminate].
    destruct (header_num topoheaderin "ncols"); cbn [bind] in Hgeom;
      [| discriminate].
    destruct (header_num topoheaderin "nrows"); cbn [bind] in Hgeom;
      [| discriminate].
    destruct (header_num topoheaderin "yll"); cbn [bind] in Hgeom;
      [| discriminate].
    destruct (header_num topoheaderin "xll"); cbn [bind] in Hgeom;
      [| discriminate].
    destruct (header_num topoheaderin "cellsize") as [c |] eqn:Hc;
      cbn [bind] in Hgeom; [| discriminate].
    unfold header_num in Hc.
    destruct (dict_get topoheaderin "cellsize") as [cv |];
      cbn [bind] in Hc, Hgeom; [| discriminate].
    repeat match type of Hgeom with
           | bind ?m _ = Ret _ =>
               destruct m; cbn [bind] in Hgeom; [| discriminate]
           end.
    inversion Hgeom. subst theadout.
    eexists. eapply topoheaderwrite_text;
      try (rewrite lookup_insert_eq; reflexivity);
      try (repeat (rewrite lookup_insert_ne by discriminate);
           rewrite lookup_insert_eq; reflexivity).
    - reflexivity.
    - reflexivity.
    - destruct cv; try discriminate; cbn [to_float as_number] in Hc |- *;
        exact Hc. }
  destruct Hw as [fs1 Hw]. rewrite Hw. cbn [fst].
  destruct (Z.ltb_spec 1 topotypein); [| lia].
  rewrite while_stuck; [reflexivity | |].
  - cbn [c_outpts]. apply Z.ltb_lt. exact Hpts.
  - eapply cheap_pass_eof; [reflexivity | exact Hnr | exact Hnc].
Qed.

Lemma topofilesubset_cheap_witness :
  let fs : filesystem :=
    {["a.tt2" := Str.concat (List.map key_then_value six_pairs)]} in
  let id := fun s : string => s in
  let no_array := fun (_ : filesystem) (_ : string) =>
                    @Raise array IOError in
  let hdr := snd (returned (EmptyString, ∅) (topoheaderread id 6 fs "a.tt2")) in
  let lo := of_Z (-1000000) in
  let hi := of_Z 1000000 in
  let theadout := fst (fst (fst (fst (fst
                    (returned_of (∅, 0, 0, NaN, NaN, NaN)
                       (cheap_header hdr lo hi lo hi)))))) in
  topoheaderread id 6 fs "a.tt2" = Some (Ret (EmptyString, hdr))
  /\ cheap_header hdr lo hi lo hi
     = Ret (theadout, 3, 2, of_Z 0, (of_Z 0 + of_Z 1 * (of_Z 2 - Fin 1))%F,
            of_Z 1)
  /\ topofilesubset id no_array (str_e 8) 6 "a.tt2" "b.tt2" 2 2 lo hi lo hi
       VNone true fs
     = (fst (topoheaderwrite (str_e 8) theadout "b.tt2" fs), None).
Proof.
  intros fs id no_array hdr lo hi theadout.
  assert (H1 : topoheaderread id 6 fs "a.tt2" = Some (Ret (EmptyString, hdr)))
    by (vm_compute; reflexivity).
  assert (H2 : cheap_header hdr lo hi lo hi
               = Ret (theadout, 3, 2, of_Z 0,
                      (of_Z 0 + of_Z 1 * (of_Z 2 - Fin 1))%F, of_Z 1))
    by (vm_compute; reflexivity).
  split; [exact H1 |]. split; [exact H2 |].
  apply (topofilesubset_cheap_no_data id no_array (str_e 8) 6 "a.tt2" "b.tt2"
           2 2 lo hi lo hi VNone fs hdr theadout 3 2 2 3 (of_Z 0)
           (of_Z 0 + of_Z 1 * (of_Z 2 - Fin 1))%F (of_Z 1)).
  - lia.
  - exact H1.
  - vm_compute; reflexivity.
  - vm_compute; reflexivity.
  - exact H2.
  - lia.
Defined.

(** ** The boundary of a file and the grid read from it *)

Lemma upper_bound_value ll dx n (q c : Q) :
  as_number ll = Ret (Fin q) -> as_number dx = Ret (Fin c) ->
  exists w a,
    upper_bound ll (VInt n) dx = Ret w
    /\ as_number w = Ret (Fin a)
    /\ (a == q + inject_Z (n - 1) * c)%Q.
Proof.
  intros Hl Hd. unfold upper_bound. cbn [py_sub bind].
  destruct ll as [| l | l | l]; try discriminate;
    destruct dx as [| d | d | d]; try discriminate;
    cbn [as_number of_Z] in Hl, Hd; inversion Hl; inversion Hd; subst;
    cbn [py_mul py_add as_number bind of_Z fmul fadd];
    eexists _, _; (split; [reflexivity |]); (split; [reflexivity |]).
  - rewrite inject_Z_plus, inject_Z_mult. reflexivity.
  - reflexivity.
  - rewrite inject_Z_mult. reflexivity.
  - reflexivity.
Qed.

Lemma header_num_value hdr key (q : Q) :
  header_num hdr key = Ret (Fin q) ->
  exists v, dict_get hdr key = Ret v /\ as_number v = Ret (Fin q).
Proof.
  unfold header_num. destruct (dict_get hdr key) as [v |]; [| discriminate].
  cbn [bind]. eauto.
Qed.

Lemma header_int_value hdr key n :
  header_int hdr key = Ret n -> dict_get hdr key = Ret (VInt n).
Proof.
  unfold header_int. destruct (dict_get hdr key) as [v |]; [| discriminate].
  cbn [bind]. destruct v; cbn [as_index]; congruence.
Qed.

(** X16: [topoboundary] and [topofile2griddata] agree on a file of topotype
    2 or 3 that has at least one row and one column: the four numbers
    [[xll, xur, yll, yur]] that [topoboundary] returns are the corners of
    the grid that [topofile2griddata] reads from the same file, [X[0, 0]],
    [X[0, ncols - 1]], [Y[nrows - 1, 0]] and [Y[0, 0]]. *)
Theorem topoboundary_is_grid_corners :
  forall (convertd2e : string -> string)
         (datafile2array : filesystem -> string -> result array)
         (fuel : nat) (fs : filesystem) (inputfile : string) (topotype : Z)
         (fin : string) (topoheader : gmap string pyval)
         (zdata : list (list pyfloat)) (nrows ncols : Z)
         (xll yll cellsize : Q),
    1 < topotype ->
    topoheaderread convertd2e fuel fs inputfile
    = Some (Ret (fin, topoheader)) ->
    header_int topoheader "nrows" = Ret nrows ->
    header_int topoheader "ncols" = Ret ncols ->
    header_num topoheader "xll" = Ret (Fin xll) ->
    header_num topoheader "yll" = Ret (Fin yll) ->
    header_num topoheader "cellsize" = Ret (Fin cellsize) ->
    1 <= nrows -> 1 <= ncols ->
    map_result (parse_row convertd2e) (readlines fin) = Ret zdata ->
    np_array zdata = Ret zdata ->
    Z.of_nat (List.length (List.concat zdata)) = nrows * ncols ->
    exists X Y Zg vxll vxur vyll vyur,
      topofile2griddata convertd2e datafile2array fuel fs inputfile topotype
      = Some (Ret (X, Y, Zg))
      /\ topoboundary convertd2e fuel fs inputfile
         = Some (Ret [vxll; vxur; vyll; vyur])
      /\ corner_is vxll (index2 X 0 0)
      /\ corner_is vxur (index2 X 0 (Z.to_nat ncols - 1))
      /\ corner_is vyll (index2 Y (Z.to_nat nrows - 1) 0)
      /\ corner_is vyur (index2 Y 0 0).
Proof.
  intros convertd2e datafile2array fuel fs inputfile topotype fin topoheader
    zdata nrows ncols xll yll cellsize Ht Hread Hnr Hnc Hx Hy Hc Hnr1 Hnc1
    Hparse Harr Hsize.
  assert (Hnr0 : 0 <= nrows) by lia.
  assert (Hnc0 : 0 <= ncols) by lia.
  destruct (grid_of_text_entries convertd2e fin topoheader zdata nrows ncols
              xll yll cellsize Hnr Hnc Hx Hy Hc Hnr0 Hnc0 Hparse Harr Hsize)
    as (X & Y & Zg & Hgrid & _ & _ & _ & Hent).
  destruct (header_num_value _ _ _ Hx) as (vx & Dx & Nx).
  destruct (header_num_value _ _ _ Hy) as (vy & Dy & Ny).
  destruct (header_num_value _ _ _ Hc) as (vc & Dc & Nc).
  pose proof (header_int_value _ _ _ Hnr) as Dnr.
  pose proof (header_int_value _ _ _ Hnc) as Dnc.
  destruct (upper_bound_value vx vc ncols xll cellsize Nx Nc)
    as (wx & ax & Ux & Nwx & Ex).
  destruct (upper_bound_value vy vc nrows yll cellsize Ny Nc)
    as (wy & ay & Uy & Nwy & Ey).
  exists X, Y, Zg, vx, wx, vy, wy.
  split.
  { unfold topofile2griddata.
    destruct (Z.ltb_spec 1 topotype); [| lia].
    rewrite Hread. cbn [pbind fst snd]. unfold lift. rewrite Hgrid.
    reflexivity. }
  split.
  { unfold topoboundary. rewrite Hread. cbn [pbind fst snd]. unfold lift.
    rewrite Dx, Dy, Dc, Dnc, Dnr. cbn [bind]. rewrite Ux. cbn [bind].
    rewrite Uy. reflexivity. }
  assert (H00 : (0 < Z.to_nat nrows)%nat /\ (0 < Z.to_nat ncols)%nat) by lia.
  destruct H00 as [Hr0 Hc0].
  assert (Hrl : (Z.to_nat nrows - 1 < Z.to_nat nrows)%nat) by lia.
  assert (Hcl : (Z.to_nat ncols - 1 < Z.to_nat ncols)%nat) by lia.
  destruct (Hent 0%nat 0%nat Hr0 Hc0) as (_ & (x00 & Hx00 & Sx00) & (y00 & Hy00 & Sy00)).
  destruct (Hent 0%nat _ Hr0 Hcl) as (_ & (x0l & Hx0l & Sx0l) & _).
  destruct (Hent _ 0%nat Hrl Hc0) as (_ & _ & (yl0 & Hyl0 & Syl0)).
  unfold corner_is.
  split; [| split; [| split]].
  - exists (Fin xll), x00. repeat split; [exact Nx | exact Hx00 |].
    destruct x00; cbn [same] in Sx00 |- *; try contradiction.
    rewrite Sx00. cbn [Z.of_nat]. ring.
  - exists (Fin ax), x0l. repeat split; [exact Nwx | exact Hx0l |].
    destruct x0l; cbn [same] in Sx0l |- *; try contradiction.
    rewrite Sx0l, Ex.
    replace (Z.of_nat (Z.to_nat ncols - 1)) with (ncols - 1) by lia.
    reflexivity.
  - exists (Fin yll), yl0. repeat split; [exact Ny | exact Hyl0 |].
    destruct yl0; cbn [same] in Syl0 |- *; try contradiction.
    rewrite Syl0.
    replace (nrows - 1 - Z.of_nat (Z.to_nat nrows - 1)) with 0 by lia.
    ring.
  - exists (Fin ay), y00. repeat split; [exact Nwy | exact Hy00 |].
    destruct y00; cbn [same] in Sy00 |- *; try contradiction.
    rewrite Sy00, Ey.
    replace (nrows - 1 - Z.of_nat 0) with (nrows - 1) by lia.
    reflexivity.
Qed.

Lemma topoboundary_witness :
  let fs : filesystem :=
    {["a.tt2" := Str.concat (List.map key_then_value six_pairs) +:+ data_A]} in
  let id := fun s : string => s in
  let no_array := fun (_ : filesystem) (_ : string) =>
                    @Raise array IOError in
  let r := returned (EmptyString, ∅) (topoheaderread id 6 fs "a.tt2") in
  let zdata := returned_of [] (map_result (parse_row id) (readlines (fst r))) in
  topoheaderread id 6 fs "a.tt2" = Some (Ret (fst r, snd r))
  /\ map_result (parse_row id) (readlines (fst r)) = Ret zdata
  /\ exists X Y Zg vxll vxur vyll vyur,
       topofile2griddata id no_array 6 fs "a.tt2" 2 = Some (Ret (X, Y, Zg))
       /\ topoboundary id 6 fs "a.tt2" = Some (Ret [vxll; vxur; vyll; vyur])
       /\ corner_is vxll (index2 X 0 0)
       /\ corner_is vxur (index2 X 0 (Z.to_nat 3 - 1))
       /\ corner_is vyll (index2 Y (Z.to_nat 2 - 1) 0)
       /\ corner_is vyur (index2 Y 0 0).
Proof.
  intros fs id no_array r zdata.
  assert (H1 : topoheaderread id 6 fs "a.tt2" = Some (Ret (fst r, snd r)))
    by (vm_compute; reflexivity).
  assert (H2 : map_result (parse_row id) (readlines (fst r)) = Ret zdata)
    by (vm_compute; reflexivity).
  split; [exact H1 |]. split; [exact H2 |].
  apply (topoboundary_is_grid_corners id no_array 6 fs "a.tt2" 2 (fst r)
           (snd r) zdata 2 3 0 0 1).
  - lia.
  - exact H1.
  - vm_compute; reflexivity.
  - vm_compute; reflexivity.
  - vm_compute; reflexivity.
  - vm_compute; reflexivity.
  - vm_compute; reflexivity.
  - lia.
  - lia.
  - exact H2.
  - vm_compute; reflexivity.
  - vm_compute; reflexivity.
Defined.
